(** * Habit analytics and streak engine: a shallow embedding

    The development follows the backend sources that hold the analytics
    and tracking logic:

    - [backend/models/TrackingEntry.js]: the statics [getCurrentStreak],
      [getHabitAnalytics] and [getCompletionRate];
    - the analytics router ([/api/analytics/overview], [/habit/:habitId],
      [/heatmap], [/trends]) with its helpers [generatePredictions],
      [generateInsights], [calculateAverageGap] and [getNextMilestone];
    - the tracking router: [POST /api/tracking], [GET /api/tracking/calendar]
      and [GET /api/tracking/streak/:habitId];
    - the statistics that [GET /api/habits] adds to each habit.

    Conventions of the embedding.

    - A JavaScript [Date] is its time value: milliseconds since the epoch,
      an integer.  The server's local time zone is taken to be UTC, so
      [setHours(0,0,0,0)] truncates to a multiple of [msPerDay] and
      [setDate(getDate() + 1)] adds [msPerDay].
    - The string [d.toISOString().split('T')[0]] spells one UTC calendar
      day; it is represented by the day number [Day t] it denotes.
    - Non-integer JavaScript numbers (rates, averages) are exact rationals
      in [Q]; the rounding of IEEE doubles is not modelled.
    - The two Mongo collections are lists of documents, a [find] is a
      [filter] over them, [sort({date: -1})] a sort on the time value.
    - A request reads the clock once: [now] stands for every [new Date()]
      and [Date.now()] of its handler.  [TimeClip] is applied where a
      request parameter enters a date; a filter on an Invalid Date is
      rejected by the query layer, which the handlers answer with 500.
    - [for] loops with a test are run on fuel: [None] means the fuel ran
      out, and the theorems show how much fuel is enough. *)

From Stdlib Require Import ZArith QArith Qround List Bool Lia.
From Stdlib Require Import Ascii String DecimalString.
From stdpp Require Import gmap strings sorting list.

Open Scope Z_scope.

(** ** Time values *)

Module Clock.

Definition msPerDay : Z := 24 * 60 * 60 * 1000.

(** ECMAScript [Day(t) = floor(t / msPerDay)]. *)
Definition Day (t : Z) : Z := t / msPerDay.

(** [d.setHours(0, 0, 0, 0)] on a UTC clock. *)
Definition setHours0 (t : Z) : Z := t - t mod msPerDay.

(** [TimeClip]: a [Date] holds a time value of magnitude at most
    8.64e15 ms; anything else is an Invalid Date ([None]). *)
Definition TimeClip (t : Z) : option Z :=
  if Z.abs t <=? 8640000000000000 then Some t else None.

Definition InLeapYear (y : Z) : bool :=
  if negb (y mod 4 =? 0) then false
  else if negb (y mod 100 =? 0) then true
  else if negb (y mod 400 =? 0) then false
  else true.

Definition DaysInYear (y : Z) : Z := if InLeapYear y then 366 else 365.

(** ECMAScript [DayFromYear]: the day number of 1 January of year [y]. *)
Definition DayFromYear (y : Z) : Z :=
  365 * (y - 1970) + (y - 1969) / 4 - (y - 1901) / 100 + (y - 1601) / 400.

(** Day within the year on which month [m] (0 = January) starts. *)
Definition monthStart (leap : bool) (m : Z) : Z :=
  let l := if leap then 1 else 0 in
  match m with
  | 0 => 0
  | 1 => 31
  | 2 => 59 + l
  | 3 => 90 + l
  | 4 => 120 + l
  | 5 => 151 + l
  | 6 => 181 + l
  | 7 => 212 + l
  | 8 => 243 + l
  | 9 => 273 + l
  | 10 => 304 + l
  | _ => 334 + l
  end.

(** ECMAScript [MakeDay(year, month, date)]. *)
Definition MakeDay (year month dt : Z) : Z :=
  let ym := year + month / 12 in
  let mn := month mod 12 in
  DayFromYear ym + monthStart (InLeapYear ym) mn + dt - 1.

(** [new Date(year, month, date)] on a UTC clock: a year from 0 to 99 is
    read as 1900 + year, the time of day is midnight. *)
Definition fullYear (year : Z) : Z :=
  if (0 <=? year) && (year <=? 99) then 1900 + year else year.

Definition newDate (year month dt : Z) : option Z :=
  TimeClip (MakeDay (fullYear year) month dt * msPerDay).

End Clock.

Import Clock.

(** ** Documents *)

Definition ObjectId := N.

Module Habit.
Record t : Type := mk {
  _id : ObjectId;
  userId : ObjectId;
  name : string;
  category : string;
  color : string;
  isActive : bool;
  streakTarget : Z
}.
End Habit.

Module TrackingEntry.
Record t : Type := mk {
  habitId : ObjectId;
  userId : ObjectId;
  date : Z;
  completed : bool;
  notes : option string;
  value : option Q;
  mood : option Z;
  difficulty : option Z
}.

(** [sort({ date: -1 })]: most recent first. *)
Definition date_desc (a b : t) : Prop := date b <= date a.

#[export] Instance date_desc_dec a b : Decision (date_desc a b).
Proof. unfold date_desc. apply _. Defined.

(** The query of [getCurrentStreak]: the habit's completed entries, most
    recent first, at most 100 of them. *)
Definition recentCompleted (db : list t) (hid : ObjectId) : list t :=
  firstn 100
    (merge_sort date_desc
       (List.filter (fun e => (habitId e =? hid)%N && completed e) db)).

(** The [for (const entry of entries)] loop of [getCurrentStreak]. *)
Fixpoint streakWalk (entries : list t) (currentDate streak : Z) : Z :=
  match entries with
  | [] => streak
  | entry :: rest =>
      let entryDate := setHours0 (date entry) in
      if entryDate =? currentDate then
        streakWalk rest (currentDate - msPerDay) (streak + 1)
      else if entryDate <? currentDate then streak
      else streakWalk rest currentDate streak
  end.

Definition getCurrentStreak (now : Z) (db : list t) (hid : ObjectId) : Z :=
  let entries := recentCompleted db hid in
  if (length entries =? 0)%nat then 0
  else
    let today := setHours0 now in
    let todayEntry :=
      List.find (fun entry => setHours0 (date entry) =? today) entries in
    let currentDate :=
      match todayEntry with
      | Some _ => today
      | None => today - 24 * 60 * 60 * 1000
      end in
    streakWalk entries currentDate 0.

(** Mongo's [$avg] over a field: the mean of the values that are numbers,
    [null] when there is none. *)
Definition avg (field : t -> option Z) (docs : list t) : option Q :=
  let nums : list Z := omap field docs in
  match nums with
  | [] => None
  | _ =>
      Some (inject_Z (fold_left Z.add nums 0%Z)
            / inject_Z (Z.of_nat (length nums)))%Q
  end.

(** Mongo's [$sum] over [value]: documents without a number add nothing. *)
Definition sumValue (docs : list t) : Q :=
  fold_left (fun acc e => match value e with Some v => (acc + v)%Q | None => acc end)
    docs 0%Q.

Record Analytics : Type := mkAnalytics {
  totalDays : Z;
  completedDays : Z;
  averageMood : option Q;
  averageDifficulty : option Q;
  totalValue : option Q;
  currentStreak : Z;
  completionRate : Q
}.

(** The static [getHabitAnalytics(habitId, days)]: one [$group] over the
    habit's entries of the last [days] days. *)
Definition getHabitAnalytics (now : Z) (db : list t) (hid : ObjectId)
    (days : Z) : Analytics :=
  let endDate := now in
  let startDate := endDate - days * 24 * 60 * 60 * 1000 in
  let matched :=
    List.filter
      (fun e => (habitId e =? hid)%N && (startDate <=? date e) && (date e <=? endDate))
      db in
  let streak := getCurrentStreak now db hid in
  match matched with
  | [] =>
      {| totalDays := 0; completedDays := 0;
         averageMood := None; averageDifficulty := None; totalValue := None;
         currentStreak := streak; completionRate := 0%Q |}
  | _ =>
      let total := Z.of_nat (length matched) in
      let done := Z.of_nat (length (List.filter completed matched)) in
      {| totalDays := total; completedDays := done;
         averageMood := avg mood matched;
         averageDifficulty := avg difficulty matched;
         totalValue := Some (sumValue matched);
         currentStreak := streak;
         completionRate := (inject_Z done / inject_Z total)%Q |}
  end.

(** The static [getCompletionRate(habitId, startDate, endDate)]: a
    [$match], a [$group] into one document and a [$project]; without a
    matching entry the pipeline gives no document and the result is 0. *)
Definition getCompletionRate (db : list t) (hid : ObjectId)
    (startDate endDate : Z) : Q :=
  let matched :=
    List.filter
      (fun e => (habitId e =? hid)%N && (startDate <=? date e) && (date e <=? endDate))
      db in
  match matched with
  | [] => 0%Q
  | _ =>
      let totalEntries := Z.of_nat (length matched) in
      let completedEntries := Z.of_nat (length (List.filter completed matched)) in
      if totalEntries =? 0 then 0%Q
      else (inject_Z completedEntries / inject_Z totalEntries)%Q
  end.

End TrackingEntry.

(** ** JavaScript helpers *)

Module JS.

(** [Math.round]: to the nearest integer, halves upwards. *)
Definition Math_round (x : Q) : Z := Qfloor (x + (1 # 2))%Q.

(** Template-literal printing of an integer. *)
Definition toString (z : Z) : string := NilZero.string_of_int (Z.to_int z).

Definition isWhiteSpace (c : ascii) : bool :=
  match nat_of_ascii c with
  | 9%nat | 10%nat | 11%nat | 12%nat | 13%nat | 32%nat => true
  | _ => false
  end.

Fixpoint trimStart (s : string) : string :=
  match s with
  | String c rest => if isWhiteSpace c then trimStart rest else s
  | EmptyString => s
  end.

Definition digitValue (c : ascii) : option Z :=
  let n := Z.of_nat (nat_of_ascii c) in
  if (48 <=? n) && (n <=? 57) then Some (n - 48)
  else if (97 <=? n) && (n <=? 122) then Some (n - 87)
  else if (65 <=? n) && (n <=? 90) then Some (n - 55)
  else None.

(** The longest prefix of radix-[R] digits, read as a number; [acc] is
    [None] until a first digit is seen. *)
Fixpoint parseDigits (R : Z) (s : string) (acc : option Z) : option Z :=
  match s with
  | EmptyString => acc
  | String c rest =>
      match digitValue c with
      | Some v =>
          if v <? R
          then parseDigits R rest (Some (R * default 0 acc + v))
          else acc
      | None => acc
      end
  end.

(** [parseInt(string)] without a radix argument; [None] is NaN. *)
Definition parseInt (s : string) : option Z :=
  let s1 := trimStart s in
  let '(sign, s2) :=
    match s1 with
    | String "-" rest => (-1, rest)
    | String "+" rest => (1, rest)
    | _ => (1, s1)
    end in
  let '(R, s3) :=
    match s2 with
    | String "0" (String "x" rest) => (16, rest)
    | String "0" (String "X" rest) => (16, rest)
    | _ => (10, s2)
    end in
  match parseDigits R s3 None with
  | Some v => Some (sign * v)
  | None => None
  end.

(** [array.slice(-n)]: the last [n] elements. *)
Definition slice_last {A} (n : nat) (l : list A) : list A :=
  skipn (length l - n) l.

(** A loop [for (...; cond; step) body] over a state, on fuel. *)
Fixpoint for_loop {S} (fuel : nat) (cond : S -> bool) (body : S -> S)
    (s : S) : option S :=
  match fuel with
  | O => None
  | Datatypes.S fuel' =>
      if cond s then for_loop fuel' cond body (body s) else Some s
  end.

End JS.

Import JS.

(** What a route handler answers. *)
Inductive Outcome (A : Type) : Type :=
| Json (body : A)
| Status404
| Status500.
Arguments Json {A} body.
Arguments Status404 {A}.
Arguments Status500 {A}.

(** ** The analytics router *)

(** [Habit.find({ userId, isActive: true })]. *)
Definition activeHabits (habitsDb : list Habit.t) (user : ObjectId)
  : list Habit.t :=
  List.filter (fun h => (Habit.userId h =? user)%N && Habit.isActive h) habitsDb.

(** [habit.category || 'other']. *)
Definition categoryOrOther (h : Habit.t) : string :=
  if String.eqb (Habit.category h) "" then "other" else Habit.category h.

(** [.populate('habitId', 'name color category')]: the referenced habit,
    [None] (a [null] field) when no habit has that id. *)
Definition populate (habitsDb : list Habit.t) (e : TrackingEntry.t)
  : option Habit.t :=
  List.find (fun h => (Habit._id h =? TrackingEntry.habitId e)%N) habitsDb.

Definition countCompleted (entries : list TrackingEntry.t) : Z :=
  Z.of_nat (length (List.filter TrackingEntry.completed entries)).

Module Period.
Record t : Type := mk { days : Z; startDate : Z; endDate : Z }.
End Period.

(** *** GET /api/analytics/overview *)

Module WeeklyTrend.
Record t : Type := mk { date : Z; completedHabits : Z; completionRate : Q }.
End WeeklyTrend.

Module Overview.

Record t : Type := mk {
  totalHabits : Z;
  completionRate : Z;
  totalStreaks : Z;
  averageStreak : Q;
  categoriesBreakdown : gmap string Z;
  weeklyTrends : list WeeklyTrend.t;
  bestDay : option WeeklyTrend.t;
  longestStreak : Z;
  period : option Period.t
}.

(** The body answered when the user has no active habit. *)
Definition empty : t :=
  {| totalHabits := 0; completionRate := 0; totalStreaks := 0;
     averageStreak := 0%Q; categoriesBreakdown := ∅; weeklyTrends := [];
     bestDay := None; longestStreak := 0; period := None |}.

(** [const { days = 30 } = req.query; parseInt(days)]. *)
Definition parseDays (daysQ : option string) : option Z :=
  match daysQ with
  | None => Some 30
  | Some s => parseInt s
  end.

(** The entries found for the period: the user's, of an active habit,
    dated from [startDate] to [endDate], both included. *)
Definition periodEntries (entriesDb : list TrackingEntry.t) (user : ObjectId)
    (habitIds : list ObjectId) (startDate endDate : Z) : list TrackingEntry.t :=
  List.filter
    (fun e =>
       (TrackingEntry.userId e =? user)%N
       && existsb (fun i => (i =? TrackingEntry.habitId e)%N) habitIds
       && (startDate <=? TrackingEntry.date e)
       && (TrackingEntry.date e <=? endDate))
    entriesDb.

(** [totalPossibleEntries > 0 ? (completedEntries / totalPossibleEntries) * 100 : 0]. *)
Definition overallRate (habitCount days completedEntries : Z) : Q :=
  let totalPossibleEntries := habitCount * days in
  if 0 <? totalPossibleEntries
  then (inject_Z completedEntries / inject_Z totalPossibleEntries * 100)%Q
  else 0%Q.

Definition weekDay (habits : list Habit.t) (entries : list TrackingEntry.t)
    (endDate i : Z) : WeeklyTrend.t :=
  let date := setHours0 (endDate - i * 24 * 60 * 60 * 1000) in
  let nextDate := date + 24 * 60 * 60 * 1000 in
  let dayEntries :=
    List.filter
      (fun e => (date <=? TrackingEntry.date e)
                && (TrackingEntry.date e <? nextDate)
                && TrackingEntry.completed e)
      entries in
  let n := Z.of_nat (length dayEntries) in
  {| WeeklyTrend.date := Day date;
     WeeklyTrend.completedHabits := n;
     WeeklyTrend.completionRate :=
       if (0 <? length habits)%nat
       then (inject_Z n / inject_Z (Z.of_nat (length habits)) * 100)%Q
       else 0%Q |}.

Definition pickBest (best day : WeeklyTrend.t) : WeeklyTrend.t :=
  if Qle_bool (WeeklyTrend.completionRate day) (WeeklyTrend.completionRate best)
  then best else day.

Definition handler (now : Z) (habitsDb : list Habit.t)
    (entriesDb : list TrackingEntry.t) (user : ObjectId)
    (daysQ : option string) : Outcome t :=
  let days := parseDays daysQ in
  let endDate := now in
  let startDate :=
    match days with
    | Some n => TimeClip (endDate - n * 24 * 60 * 60 * 1000)
    | None => None
    end in
  let habits := activeHabits habitsDb user in
  if (length habits =? 0)%nat then Json empty
  else
    match days, startDate with
    | Some n, Some startDate =>
        let habitIds := map Habit._id habits in
        let entries := periodEntries entriesDb user habitIds startDate endDate in
        let completedEntries := countCompleted entries in
        let completionRate :=
          overallRate (Z.of_nat (length habits)) n completedEntries in
        let streaks :=
          map (TrackingEntry.getCurrentStreak now entriesDb) habitIds in
        let totalStreaks := fold_left Z.add streaks 0 in
        let averageStreak :=
          if (0 <? length habits)%nat
          then (inject_Z totalStreaks / inject_Z (Z.of_nat (length habits)))%Q
          else 0%Q in
        let longestStreak := fold_left Z.max streaks 0 in
        let categoriesBreakdown :=
          fold_left
            (fun (acc : gmap string Z) habit =>
               let category := categoryOrOther habit in
               <[category := default 0 (acc !! category) + 1]> acc)
            habits ∅ in
        let weeklyTrends :=
          map (weekDay habits entries endDate) [6; 5; 4; 3; 2; 1; 0] in
        let bestDay :=
          match weeklyTrends with
          | [] => None
          | first :: _ => Some (fold_left pickBest weeklyTrends first)
          end in
        Json
          {| totalHabits := Z.of_nat (length habits);
             completionRate := Math_round completionRate;
             totalStreaks := totalStreaks;
             averageStreak := (inject_Z (Math_round (averageStreak * 10)) / 10)%Q;
             categoriesBreakdown := categoriesBreakdown;
             weeklyTrends := weeklyTrends;
             bestDay := bestDay;
             longestStreak := longestStreak;
             period := Some (Period.mk n startDate endDate) |}
    | _, _ => Status500
    end.

End Overview.

(** *** Helpers of the habit route *)

Module Milestone.
Record t : Type := mk { days : Z; remaining : Z }.
End Milestone.

Module StreakTarget.
Record t : Type := mk {
  target : Z;
  current : Z;
  daysRemaining : Z;
  estimatedDate : option Z
}.
End StreakTarget.

Module Predictions.
Record t : Type := mk {
  streakTarget : option StreakTarget.t;
  nextMilestone : option Milestone.t;
  probabilityOfSuccess : Z
}.
End Predictions.

Module Insight.
Inductive kind : Type := success | warning | danger | info.
Record t : Type := mk { type : kind; message : string; actionable : bool }.
End Insight.

Definition milestones : list Z := [7; 14; 21; 30; 60; 90; 180; 365].

Definition getNextMilestone (currentStreak : Z) : option Milestone.t :=
  match List.find (fun m => currentStreak <? m) milestones with
  | Some nextMilestone =>
      if nextMilestone =? 0 then None
      else Some {| Milestone.days := nextMilestone;
                   Milestone.remaining := nextMilestone - currentStreak |}
  | None => None
  end.

(** [habit.streakTarget || 7]. *)
Definition targetOrSeven (habit : Habit.t) : Z :=
  if Habit.streakTarget habit =? 0 then 7 else Habit.streakTarget habit.

(** [generatePredictions]; its [averageGap], computed by
    [calculateAverageGap] and never read, is left out. *)
Definition generatePredictions (now : Z) (entries : list TrackingEntry.t)
    (habit : Habit.t) (currentStreak : Z) : Predictions.t :=
  let completedEntries := List.filter TrackingEntry.completed entries in
  if (length completedEntries =? 0)%nat then
    {| Predictions.streakTarget := None;
       Predictions.nextMilestone := None;
       Predictions.probabilityOfSuccess := 0 |}
  else
    let completionRate :=
      (inject_Z (Z.of_nat (length completedEntries))
       / inject_Z (Z.of_nat (length entries)))%Q in
    let streakTarget := targetOrSeven habit in
    let daysToTarget := Z.max 0 (streakTarget - currentStreak) in
    {| Predictions.streakTarget :=
         Some {| StreakTarget.target := streakTarget;
                 StreakTarget.current := currentStreak;
                 StreakTarget.daysRemaining := daysToTarget;
                 StreakTarget.estimatedDate :=
                   if 0 <? daysToTarget
                   then Some (Day (now + daysToTarget * 24 * 60 * 60 * 1000))
                   else None |};
       Predictions.nextMilestone := getNextMilestone currentStreak;
       Predictions.probabilityOfSuccess := Math_round (completionRate * 100) |}.

Definition pct (completionRate : Q) : string := toString (Math_round completionRate).

Definition excellentInsight (completionRate : Q) : Insight.t :=
  {| Insight.type := Insight.success;
     Insight.message :=
       "Excellent! You have an " +:+ pct completionRate
       +:+ "% completion rate for this habit.";
     Insight.actionable := false |}.

Definition goodProgressInsight (completionRate : Q) : Insight.t :=
  {| Insight.type := Insight.warning;
     Insight.message :=
       "Good progress with " +:+ pct completionRate
       +:+ "% completion rate. Consider what's preventing the remaining completions.";
     Insight.actionable := true |}.

Definition lowRateInsight (completionRate : Q) : Insight.t :=
  {| Insight.type := Insight.danger;
     Insight.message :=
       "Your completion rate is " +:+ pct completionRate
       +:+ "%. Consider adjusting your habit or schedule to make it more achievable.";
     Insight.actionable := true |}.

Definition streakInsight (currentStreak : Z) : Insight.t :=
  {| Insight.type := Insight.success;
     Insight.message :=
       "Amazing! You're on a " +:+ toString currentStreak
       +:+ "-day streak. Keep the momentum going!";
     Insight.actionable := false |}.

Definition startInsight : Insight.t :=
  {| Insight.type := Insight.info;
     Insight.message :=
       "Start building your streak today! Consistency is key to forming lasting habits.";
     Insight.actionable := true |}.

Definition consistentInsight (recentCompletions recentCount : Z) : Insight.t :=
  {| Insight.type := Insight.success;
     Insight.message :=
       "You've been very consistent this week with " +:+ toString recentCompletions
       +:+ "/" +:+ toString recentCount +:+ " completions!";
     Insight.actionable := false |}.

(** [generateInsights]: [insights] grows by [push], rule after rule. *)
Definition generateInsights (entries : list TrackingEntry.t) (habit : Habit.t)
    (completionRate : Q) (currentStreak : Z) : list Insight.t :=
  let insights : list Insight.t := [] in
  let insights :=
    if Qle_bool 80 completionRate then insights ++ [excellentInsight completionRate]
    else if Qle_bool 60 completionRate then insights ++ [goodProgressInsight completionRate]
    else if negb (Qle_bool 40 completionRate) then insights ++ [lowRateInsight completionRate]
    else insights in
  let insights :=
    if 7 <=? currentStreak then insights ++ [streakInsight currentStreak]
    else if currentStreak =? 0 then insights ++ [startInsight]
    else insights in
  let recentEntries := slice_last 7 entries in
  let recentCompletions := countCompleted recentEntries in
  let recentCount := Z.of_nat (length recentEntries) in
  if negb (Qle_bool (inject_Z recentCompletions) (inject_Z recentCount * (8 # 10)))
  then insights ++ [consistentInsight recentCompletions recentCount]
  else insights.

(** *** GET /api/analytics/habit/:habitId *)

Module Summary.
Record t : Type := mk {
  totalDays : Z;
  trackedDays : Z;
  completedDays : Z;
  completionRate : Z;
  currentStreak : Z;
  longestStreak : Z;
  averageMood : option Q;
  averageDifficulty : option Q
}.
End Summary.

Module HabitRoute.

Record t : Type := mk {
  habit : Habit.t;
  period : Period.t;
  summary : Summary.t;
  predictions : Predictions.t;
  insights : list Insight.t
}.

Definition date_asc (a b : TrackingEntry.t) : Prop :=
  TrackingEntry.date a <= TrackingEntry.date b.

#[export] Instance date_asc_dec a b : Decision (date_asc a b).
Proof. unfold date_asc. apply _. Defined.

(** The habit's entries of the user in the window, oldest first. *)
Definition windowEntries (entriesDb : list TrackingEntry.t)
    (hid user : ObjectId) (startDate endDate : Z) : list TrackingEntry.t :=
  merge_sort date_asc
    (List.filter
       (fun e =>
          (TrackingEntry.habitId e =? hid)%N
          && (TrackingEntry.userId e =? user)%N
          && (startDate <=? TrackingEntry.date e)
          && (TrackingEntry.date e <=? endDate))
       entriesDb).

(** [trackedDays > 0 ? (completedDays / trackedDays) * 100 : 0]. *)
Definition trackedRate (entries : list TrackingEntry.t) : Q :=
  let trackedDays := Z.of_nat (length entries) in
  let completedDays := countCompleted entries in
  if 0 <? trackedDays
  then (inject_Z completedDays / inject_Z trackedDays * 100)%Q
  else 0%Q.

(** The loop over [entries] that keeps [longestStreak] and [tempStreak]. *)
Definition longestRun (entries : list TrackingEntry.t) : Z :=
  fst
    (fold_left
       (fun '(longestStreak, tempStreak) entry =>
          if TrackingEntry.completed entry
          then (Z.max longestStreak (tempStreak + 1), tempStreak + 1)
          else (longestStreak, 0))
       entries (0, 0)).

(** [entries.filter(e => e.mood && e.completed)], then the mean or [null]. *)
Definition truthy (field : option Z) : bool :=
  match field with
  | Some v => negb (v =? 0)
  | None => false
  end.

Definition averageOf (field : TrackingEntry.t -> option Z)
    (entries : list TrackingEntry.t) : option Q :=
  let picked :=
    List.filter (fun e => truthy (field e) && TrackingEntry.completed e) entries in
  let total := fold_left (fun sum e => sum + default 0 (field e)) picked 0 in
  if (0 <? length picked)%nat
  then Some (inject_Z total / inject_Z (Z.of_nat (length picked)))%Q
  else None.

(** [average ? Math.round(average * 10) / 10 : null]. *)
Definition roundedAverage (average : option Q) : option Q :=
  match average with
  | Some a =>
      if Qeq_bool a 0 then None
      else Some (inject_Z (Math_round (a * 10)) / 10)%Q
  | None => None
  end.

(** The response without [dailyData] and [weeklyData], the two chart
    series, which are not modelled. *)
Definition handler (now : Z) (habitsDb : list Habit.t)
    (entriesDb : list TrackingEntry.t) (user hid : ObjectId)
    (daysQ : option string) : Outcome t :=
  match List.find
          (fun h => (Habit._id h =? hid)%N && (Habit.userId h =? user)%N)
          habitsDb with
  | None => Status404
  | Some habit =>
      let endDate := now in
      match Overview.parseDays daysQ with
      | None => Status500
      | Some days =>
          match TimeClip (endDate - days * 24 * 60 * 60 * 1000) with
          | None => Status500
          | Some startDate =>
              let entries := windowEntries entriesDb hid user startDate endDate in
              let totalDays := days in
              let trackedDays := Z.of_nat (length entries) in
              let completedDays := countCompleted entries in
              let completionRate := trackedRate entries in
              let currentStreak :=
                TrackingEntry.getCurrentStreak now entriesDb hid in
              let longestStreak := longestRun entries in
              let averageMood := averageOf TrackingEntry.mood entries in
              let averageDifficulty := averageOf TrackingEntry.difficulty entries in
              Json
                {| habit := habit;
                   period := Period.mk days startDate endDate;
                   summary :=
                     {| Summary.totalDays := totalDays;
                        Summary.trackedDays := trackedDays;
                        Summary.completedDays := completedDays;
                        Summary.completionRate := Math_round completionRate;
                        Summary.currentStreak := currentStreak;
                        Summary.longestStreak := longestStreak;
                        Summary.averageMood := roundedAverage averageMood;
                        Summary.averageDifficulty := roundedAverage averageDifficulty |};
                   predictions := generatePredictions now entries habit currentStreak;
                   insights := generateInsights entries habit completionRate currentStreak |}
          end
      end
  end.

End HabitRoute.

(** *** GET /api/analytics/heatmap *)

Module HabitDetail.
Record t : Type := mk {
  habitId : ObjectId;
  name : string;
  color : string;
  category : string;
  completed : bool
}.
End HabitDetail.

Module HeatCell.
Record t : Type := mk {
  date : Z;
  totalHabits : Z;
  completedHabits : Z;
  completionRate : Q;
  habits : list HabitDetail.t
}.
End HeatCell.

Module HabitInfo.
Record t : Type := mk { id : ObjectId; name : string; color : string; category : string }.

Definition ofHabit (h : Habit.t) : t :=
  {| id := Habit._id h; name := Habit.name h;
     color := Habit.color h; category := Habit.category h |}.
End HabitInfo.

Module Heatmap.

Record t : Type := mk {
  heatmapData : gmap Z HeatCell.t;
  habits : list HabitInfo.t;
  year : Z
}.

(** The cell written for [dateStr] by the initialisation loop. *)
Definition zeroCell (habitCount dateStr : Z) : HeatCell.t :=
  {| HeatCell.date := dateStr;
     HeatCell.totalHabits := habitCount;
     HeatCell.completedHabits := 0;
     HeatCell.completionRate := 0%Q;
     HeatCell.habits := [] |}.

(** [for (let d = new Date(startDate); d <= endDate; d.setDate(d.getDate() + 1))]:
    the state is [d] and the object under construction. *)
Definition initDates (fuel : nat) (habitCount startDate endDate : Z)
  : option (Z * gmap Z HeatCell.t) :=
  for_loop fuel
    (fun '(d, _) => d <=? endDate)
    (fun '(d, heatmapData) =>
       let dateStr := Day d in
       (d + msPerDay, <[dateStr := zeroCell habitCount dateStr]> heatmapData))
    (startDate, ∅).

(** One call of the [entries.forEach] callback; [None] is the TypeError
    raised by [entry.habitId._id] on a [null] populated field. *)
Definition fillEntry (habitsDb : list Habit.t)
    (heatmapData : gmap Z HeatCell.t) (entry : TrackingEntry.t)
  : option (gmap Z HeatCell.t) :=
  let dateStr := Day (TrackingEntry.date entry) in
  match heatmapData !! dateStr with
  | None => Some heatmapData
  | Some cell =>
      match populate habitsDb entry with
      | None => None
      | Some h =>
          let detail :=
            {| HabitDetail.habitId := Habit._id h;
               HabitDetail.name := Habit.name h;
               HabitDetail.color := Habit.color h;
               HabitDetail.category := Habit.category h;
               HabitDetail.completed := TrackingEntry.completed entry |} in
          let completedHabits :=
            if TrackingEntry.completed entry
            then HeatCell.completedHabits cell + 1
            else HeatCell.completedHabits cell in
          Some
            (<[dateStr :=
                 {| HeatCell.date := HeatCell.date cell;
                    HeatCell.totalHabits := HeatCell.totalHabits cell;
                    HeatCell.completedHabits := completedHabits;
                    HeatCell.completionRate :=
                      (inject_Z completedHabits
                       / inject_Z (HeatCell.totalHabits cell) * 100)%Q;
                    HeatCell.habits := HeatCell.habits cell ++ [detail] |}]>
               heatmapData)
      end
  end.

Definition fillEntries (habitsDb : list Habit.t)
    (entries : list TrackingEntry.t) (heatmapData : gmap Z HeatCell.t)
  : option (gmap Z HeatCell.t) :=
  fold_left
    (fun acc entry =>
       match acc with
       | Some m => fillEntry habitsDb m entry
       | None => None
       end)
    entries (Some heatmapData).

(** The user's entries of the year, from 1 January to 31 December, both
    at midnight and included. *)
Definition yearEntries (entriesDb : list TrackingEntry.t) (user : ObjectId)
    (startDate endDate : Z) : list TrackingEntry.t :=
  List.filter
    (fun e =>
       (TrackingEntry.userId e =? user)%N
       && (startDate <=? TrackingEntry.date e)
       && (TrackingEntry.date e <=? endDate))
    entriesDb.

(** [year] is the number the query parameter (or the current year)
    converts to.  The result is [None] only when the fuel runs out. *)
Definition handler (fuel : nat) (habitsDb : list Habit.t)
    (entriesDb : list TrackingEntry.t) (user : ObjectId) (year : Z)
  : option (Outcome t) :=
  let startDate := newDate year 0 1 in
  let endDate := newDate year 11 31 in
  let habits := activeHabits habitsDb user in
  if (length habits =? 0)%nat then
    Some (Json {| heatmapData := ∅; habits := []; year := year |})
  else
    match startDate, endDate with
    | Some startDate, Some endDate =>
        let entries := yearEntries entriesDb user startDate endDate in
        match initDates fuel (Z.of_nat (length habits)) startDate endDate with
        | None => None
        | Some (_, heatmapData) =>
            match fillEntries habitsDb entries heatmapData with
            | None => Some Status500
            | Some heatmapData =>
                Some (Json {| heatmapData := heatmapData;
                              habits := map HabitInfo.ofHabit habits;
                              year := year |})
            end
        end
    | _, _ => Some Status500
    end.

End Heatmap.

(** *** GET /api/analytics/trends *)

Module CategoryCount.
Record t : Type := mk { total : Z; completed : Z }.
End CategoryCount.

Module Trend.
Record t : Type := mk {
  period : string;
  startDate : Z;
  endDate : Z;
  totalEntries : Z;
  completedEntries : Z;
  completionRate : Q;
  categoryBreakdown : gmap string CategoryCount.t
}.
End Trend.

Module Trends.

Record t : Type := mk {
  trends : list Trend.t;
  period : string;
  groupBy : string;
  habits : list HabitInfo.t
}.

(** The [switch (period)]. *)
Definition periodDays (period : string) : Z :=
  if String.eqb period "week" then 7
  else if String.eqb period "month" then 30
  else if String.eqb period "quarter" then 90
  else if String.eqb period "year" then 365
  else 30.

Definition groupSizeOf (groupBy : string) : Z :=
  if String.eqb groupBy "day" then 1
  else if String.eqb groupBy "week" then 7
  else 30.

(** The user's entries from [startDate] to [endDate], both included. *)
Definition windowEntries (entriesDb : list TrackingEntry.t) (user : ObjectId)
    (startDate endDate : Z) : list TrackingEntry.t :=
  List.filter
    (fun e =>
       (TrackingEntry.userId e =? user)%N
       && (startDate <=? TrackingEntry.date e)
       && (TrackingEntry.date e <=? endDate))
    entriesDb.

(** [completedEntries.filter(e => e.habitId._id.toString() === habit._id.toString()).length];
    [None] when a populated field is [null]. *)
Fixpoint countOfHabit (habitsDb : list Habit.t) (habit : Habit.t)
    (completedEntries : list TrackingEntry.t) : option Z :=
  match completedEntries with
  | [] => Some 0
  | e :: rest =>
      match populate habitsDb e with
      | None => None
      | Some h =>
          match countOfHabit habitsDb habit rest with
          | None => None
          | Some n => Some (if (Habit._id h =? Habit._id habit)%N then n + 1 else n)
          end
      end
  end.

(** The [habits.forEach] that fills [categoryBreakdown]. *)
Definition breakdown (habitsDb habits : list Habit.t)
    (completedEntries : list TrackingEntry.t)
  : option (gmap string CategoryCount.t) :=
  fold_left
    (fun (acc : option (gmap string CategoryCount.t)) habit =>
       match acc with
       | None => None
       | Some categoryBreakdown =>
           let category := categoryOrOther habit in
           let slot :=
             default (CategoryCount.mk 0 0) (categoryBreakdown !! category) in
           match countOfHabit habitsDb habit completedEntries with
           | None => None
           | Some n =>
               Some (<[category :=
                         CategoryCount.mk (CategoryCount.total slot + 1)
                           (CategoryCount.completed slot + n)]> categoryBreakdown)
           end
       end)
    habits (Some ∅).

(** The entries of one bucket: [periodStart <= e.date < periodEnd]. *)
Definition bucketEntries (entries : list TrackingEntry.t)
    (periodStart periodEnd : Z) : list TrackingEntry.t :=
  List.filter
    (fun e => (periodStart <=? TrackingEntry.date e)
              && (TrackingEntry.date e <? periodEnd))
    entries.

(** The body of the bucket loop for index [i]; [None] when it throws. *)
Definition bucket (habitsDb habits : list Habit.t)
    (entries : list TrackingEntry.t) (groupBy : string)
    (startDate endDate groupSize i : Z) : option Trend.t :=
  let periodStart := startDate + i * 24 * 60 * 60 * 1000 in
  let periodEnd :=
    Z.min (periodStart + groupSize * 24 * 60 * 60 * 1000) endDate in
  let periodEntries := bucketEntries entries periodStart periodEnd in
  let completedEntries := List.filter TrackingEntry.completed periodEntries in
  match breakdown habitsDb habits completedEntries with
  | None => None
  | Some categoryBreakdown =>
      let totalEntries := Z.of_nat (length periodEntries) in
      let completedCount := Z.of_nat (length completedEntries) in
      Some
        {| Trend.period := groupBy;
           Trend.startDate := Day periodStart;
           Trend.endDate := Day periodEnd;
           Trend.totalEntries := totalEntries;
           Trend.completedEntries := completedCount;
           Trend.completionRate :=
             if 0 <? totalEntries
             then (inject_Z completedCount / inject_Z totalEntries * 100)%Q
             else 0%Q;
           Trend.categoryBreakdown := categoryBreakdown |}
  end.

(** [for (let i = 0; i < days; i += groupSize)]: the state is [i] and the
    array [trends], or [None] once the body has thrown, which leaves the
    loop. *)
Definition bucketLoop (fuel : nat) (habitsDb habits : list Habit.t)
    (entries : list TrackingEntry.t) (groupBy : string)
    (startDate endDate days groupSize : Z)
  : option (Z * option (list Trend.t)) :=
  for_loop fuel
    (fun '(i, trends) => (i <? days) && bool_decide (is_Some trends))
    (fun '(i, trends) =>
       match trends, bucket habitsDb habits entries groupBy startDate endDate groupSize i with
       | Some ts, Some b => (i + groupSize, Some (ts ++ [b]))
       | _, _ => (i, None)
       end)
    (0, Some []).

(** The result is [None] only when the fuel runs out. *)
Definition handler (fuel : nat) (now : Z) (habitsDb : list Habit.t)
    (entriesDb : list TrackingEntry.t) (user : ObjectId)
    (periodQ groupByQ : option string) : option (Outcome t) :=
  let period := default "month" periodQ in
  let groupBy := default "week" groupByQ in
  let days := periodDays period in
  let endDate := now in
  let startDate := endDate - days * 24 * 60 * 60 * 1000 in
  let habits := activeHabits habitsDb user in
  let entries := windowEntries entriesDb user startDate endDate in
  let groupSize := groupSizeOf groupBy in
  match bucketLoop fuel habitsDb habits entries groupBy startDate endDate days groupSize with
  | None => None
  | Some (_, None) => Some Status500
  | Some (_, Some trends) =>
      Some (Json {| trends := trends; period := period; groupBy := groupBy;
                    habits := map HabitInfo.ofHabit habits |})
  end.

End Trends.

(** ** More of the routers *)

(** *** The chart series of the habit route *)

Module DailyDatum.
Record t : Type := mk {
  date : Z;
  completed : bool;
  value : option Q;
  mood : option Z;
  difficulty : option Z
}.
End DailyDatum.

Module WeekDatum.
Record t : Type := mk {
  week : Z;
  startDate : Z;
  endDate : Z;
  completedDays : Z;
  totalDays : Z;
  completionRate : Q
}.
End WeekDatum.

Module Charts.

(** The body of the [dailyData] loop for index [i]. *)
Definition dayDatum (entries : list TrackingEntry.t) (endDate i : Z)
  : DailyDatum.t :=
  let date := setHours0 (endDate - i * 24 * 60 * 60 * 1000) in
  let entry :=
    List.find (fun e => setHours0 (TrackingEntry.date e) =? date) entries in
  {| DailyDatum.date := Day date;
     DailyDatum.completed :=
       match entry with Some e => TrackingEntry.completed e | None => false end;
     DailyDatum.value :=
       match entry with Some e => TrackingEntry.value e | None => None end;
     DailyDatum.mood :=
       match entry with Some e => TrackingEntry.mood e | None => None end;
     DailyDatum.difficulty :=
       match entry with Some e => TrackingEntry.difficulty e | None => None end |}.

(** [for (let i = parseInt(days) - 1; i >= 0; i--)]: the state is [i] and
    the array [dailyData]. *)
Definition dailyData (fuel : nat) (entries : list TrackingEntry.t)
    (endDate days : Z) : option (Z * list DailyDatum.t) :=
  for_loop fuel
    (fun '(i, _) => 0 <=? i)
    (fun '(i, dailyData) => (i - 1, dailyData ++ [dayDatum entries endDate i]))
    (days - 1, []).

(** [Math.ceil(parseInt(days) / 7)]. *)
Definition weekCount (days : Z) : Z := - ((- days) / 7).

(** The body of the [weeklyData] loop for index [week]. *)
Definition weekDatum (entries : list TrackingEntry.t) (startDate endDate week : Z)
  : WeekDatum.t :=
  let weekStart := startDate + week * 7 * 24 * 60 * 60 * 1000 in
  let weekEnd := Z.min (weekStart + 7 * 24 * 60 * 60 * 1000) endDate in
  let weekEntries :=
    List.filter
      (fun e => (weekStart <=? TrackingEntry.date e)
                && (TrackingEntry.date e <? weekEnd))
      entries in
  let weekCompleted := countCompleted weekEntries in
  let total := Z.of_nat (length weekEntries) in
  {| WeekDatum.week := week + 1;
     WeekDatum.startDate := Day weekStart;
     WeekDatum.endDate := Day weekEnd;
     WeekDatum.completedDays := weekCompleted;
     WeekDatum.totalDays := total;
     WeekDatum.completionRate :=
       if 0 <? total
       then (inject_Z weekCompleted / inject_Z total * 100)%Q
       else 0%Q |}.

(** [for (let week = 0; week < Math.ceil(parseInt(days) / 7); week++)]. *)
Definition weeklyData (fuel : nat) (entries : list TrackingEntry.t)
    (startDate endDate days : Z) : option (Z * list WeekDatum.t) :=
  for_loop fuel
    (fun '(week, _) => week <? weekCount days)
    (fun '(week, weeklyData) =>
       (week + 1, weeklyData ++ [weekDatum entries startDate endDate week]))
    (0, []).

End Charts.

(** [calculateAverageGap]: the loop adds the gaps, in days, between each
    completed date and the one before it. *)
Fixpoint sumGaps (previous : Z) (completedDates : list Z) (totalGap : Q) : Q :=
  match completedDates with
  | [] => totalGap
  | current :: rest =>
      sumGaps current rest
        (totalGap + inject_Z (current - previous) / inject_Z (24 * 60 * 60 * 1000))%Q
  end.

Definition calculateAverageGap (entries : list TrackingEntry.t) : Q :=
  let completedDates :=
    map TrackingEntry.date (List.filter TrackingEntry.completed entries) in
  if (length completedDates <? 2)%nat then 0%Q
  else
    match completedDates with
    | [] => 0%Q
    | first :: rest =>
        (sumGaps first rest 0 / inject_Z (Z.of_nat (length completedDates) - 1))%Q
    end.

(** *** GET /api/habits with [include_tracking=true]: the statistics of
    one habit, over the last 30 days *)

Module HabitStats.
Record t : Type := mk { habit : Habit.t; currentStreak : Z; completionRate : Z }.

Definition ofHabit (now : Z) (entriesDb : list TrackingEntry.t) (habit : Habit.t)
  : t :=
  let endDate := now in
  let startDate := endDate - 30 * 24 * 60 * 60 * 1000 in
  let currentStreak := TrackingEntry.getCurrentStreak now entriesDb (Habit._id habit) in
  let completionRate :=
    TrackingEntry.getCompletionRate entriesDb (Habit._id habit) startDate endDate in
  {| habit := habit;
     currentStreak := currentStreak;
     completionRate := Math_round (completionRate * 100) |}.
End HabitStats.

(** ** The tracking router *)

Module StreakReply.
Record t : Type := mk { habitId : ObjectId; currentStreak : Z }.
End StreakReply.

Module Calendar.
Record t : Type := mk {
  entriesByDate : gmap Z (list TrackingEntry.t);
  startDate : Z;
  endDate : Z
}.
End Calendar.

Module Tracking.

(** The body of [POST /api/tracking] once the validators and sanitizers
    have run: [date] is the time value of [new Date(date)], an optional
    field that is absent ([undefined]) is [None]. *)
Record Body : Type := mkBody {
  habitId : ObjectId;
  date : Z;
  completed : bool;
  notes : option string;
  value : option Q;
  mood : option Z;
  difficulty : option Z
}.

(** The answers of [POST /api/tracking]: status 400, status 404, status
    200 with the event [tracking-updated], status 201 with the event
    [tracking-created]. *)
Inductive Reply : Type :=
| Status400
| HabitNotFound
| Updated (entry : TrackingEntry.t)
| Created (entry : TrackingEntry.t).

(** [Habit.findOne({ _id: habitId, userId, isActive: true })]. *)
Definition findActiveHabit (habitsDb : list Habit.t) (user hid : ObjectId)
  : option Habit.t :=
  List.find
    (fun h => (Habit._id h =? hid)%N && (Habit.userId h =? user)%N && Habit.isActive h)
    habitsDb.

(** The filter of [TrackingEntry.findOne({ habitId, userId, date })]. *)
Definition sameEntry (hid user : ObjectId) (entryDate : Z) (e : TrackingEntry.t)
  : bool :=
  (TrackingEntry.habitId e =? hid)%N
  && (TrackingEntry.userId e =? user)%N
  && (TrackingEntry.date e =? entryDate).

(** [if (x !== undefined) existingEntry.x = x]. *)
Definition orKeep {A} (given kept : option A) : option A :=
  match given with
  | Some x => Some x
  | None => kept
  end.

(** [existingEntry.save()]: the document that [findOne] returned, the
    first one that matches, is written back. *)
Fixpoint saveFirst (p : TrackingEntry.t -> bool) (saved : TrackingEntry.t)
    (db : list TrackingEntry.t) : list TrackingEntry.t :=
  match db with
  | [] => []
  | e :: rest => if p e then saved :: rest else e :: saveFirst p saved rest
  end.

(** The assignments to [existingEntry]: [completed] always, an optional
    field when the body has it. *)
Definition update (body : Body) (existingEntry : TrackingEntry.t)
  : TrackingEntry.t :=
  {| TrackingEntry.habitId := TrackingEntry.habitId existingEntry;
     TrackingEntry.userId := TrackingEntry.userId existingEntry;
     TrackingEntry.date := TrackingEntry.date existingEntry;
     TrackingEntry.completed := completed body;
     TrackingEntry.notes := orKeep (notes body) (TrackingEntry.notes existingEntry);
     TrackingEntry.value := orKeep (value body) (TrackingEntry.value existingEntry);
     TrackingEntry.mood := orKeep (mood body) (TrackingEntry.mood existingEntry);
     TrackingEntry.difficulty :=
       orKeep (difficulty body) (TrackingEntry.difficulty existingEntry) |}.

(** [new TrackingEntry({ habitId, userId, date: entryDate, ... })]. *)
Definition create (user : ObjectId) (entryDate : Z) (body : Body)
  : TrackingEntry.t :=
  {| TrackingEntry.habitId := habitId body;
     TrackingEntry.userId := user;
     TrackingEntry.date := entryDate;
     TrackingEntry.completed := completed body;
     TrackingEntry.notes := notes body;
     TrackingEntry.value := value body;
     TrackingEntry.mood := mood body;
     TrackingEntry.difficulty := difficulty body |}.

(** The handler of [POST /api/tracking]: its answer and the collection of
    tracking entries afterwards.  [errorsEmpty] is [errors.isEmpty()]. *)
Definition post (errorsEmpty : bool) (habitsDb : list Habit.t)
    (entriesDb : list TrackingEntry.t) (user : ObjectId) (body : Body)
  : Reply * list TrackingEntry.t :=
  if negb errorsEmpty then (Status400, entriesDb)
  else
    match findActiveHabit habitsDb user (habitId body) with
    | None => (HabitNotFound, entriesDb)
    | Some _ =>
        let entryDate := setHours0 (date body) in
        match List.find (sameEntry (habitId body) user entryDate) entriesDb with
        | Some existingEntry =>
            let saved := update body existingEntry in
            (Updated saved,
             saveFirst (sameEntry (habitId body) user entryDate) saved entriesDb)
        | None =>
            let entry := create user entryDate body in
            (Created entry, entriesDb ++ [entry])
        end
    end.

(** The handler of [GET /api/tracking/streak/:habitId]. *)
Definition streak (now : Z) (habitsDb : list Habit.t)
    (entriesDb : list TrackingEntry.t) (user hid : ObjectId)
  : Outcome StreakReply.t :=
  match
    List.find (fun h => (Habit._id h =? hid)%N && (Habit.userId h =? user)%N) habitsDb
  with
  | None => Status404
  | Some _ =>
      Json {| StreakReply.habitId := hid;
              StreakReply.currentStreak :=
                TrackingEntry.getCurrentStreak now entriesDb hid |}
  end.

(** The answers of [GET /api/tracking/calendar]. *)
Inductive CalendarReply : Type :=
| MissingParameters
| CalendarError
| CalendarJson (body : Calendar.t).

(** The [entries.reduce] that groups the entries by their date string. *)
Definition groupByDate (entries : list TrackingEntry.t)
  : gmap Z (list TrackingEntry.t) :=
  fold_left
    (fun (acc : gmap Z (list TrackingEntry.t)) entry =>
       let dateStr := Day (TrackingEntry.date entry) in
       <[dateStr := default [] (acc !! dateStr) ++ [entry]]> acc)
    entries ∅.

(** The handler of [GET /api/tracking/calendar]; [year] and [month] are
    the numbers the query strings stand for, [None] when the parameter
    is missing or empty. *)
Definition calendar (entriesDb : list TrackingEntry.t) (user : ObjectId)
    (year month : option Z) : CalendarReply :=
  match year, month with
  | Some year, Some month =>
      match newDate year (month - 1) 1, newDate year month 0 with
      | Some startDate, Some endDate =>
          let entries :=
            List.filter
              (fun e =>
                 (TrackingEntry.userId e =? user)%N
                 && (startDate <=? TrackingEntry.date e)
                 && (TrackingEntry.date e <=? endDate))
              entriesDb in
          CalendarJson
            {| Calendar.entriesByDate := groupByDate entries;
               Calendar.startDate := startDate;
               Calendar.endDate := endDate |}
      | _, _ => CalendarError
      end
  | _, _ => MissingParameters
  end.

End Tracking.

(** ** Vocabulary of the statements *)

(** Some record of [rs] is completed and falls on the day that starts at
    time [d]. *)
Definition completedOn (rs : list TrackingEntry.t) (d : Z) : bool :=
  existsb
    (fun e => TrackingEntry.completed e && (setHours0 (TrackingEntry.date e) =? d))
    rs.

(** The days of a list of entries, each as the time of its midnight. *)
Definition entryDays (entries : list TrackingEntry.t) : list Z :=
  map (fun e => setHours0 (TrackingEntry.date e)) entries.

(** The completed records of habit [hid]: what the query of
    [getCurrentStreak] matches before [sort] and [limit]. *)
Definition completedOfHabit (db : list TrackingEntry.t) (hid : ObjectId)
  : list TrackingEntry.t :=
  List.filter
    (fun e => (TrackingEntry.habitId e =? hid)%N && TrackingEntry.completed e) db.


(** The records of habit [hid]. *)
Definition recordsOfHabit (db : list TrackingEntry.t) (hid : ObjectId)
  : list TrackingEntry.t :=
  List.filter (fun e => (TrackingEntry.habitId e =? hid)%N) db.

(** [n] completed records of habit [hid] on [n] consecutive days, the
    last of them on the day of [now]. *)
Definition completedRun (hid user : ObjectId) (now : Z) (n : nat)
  : list TrackingEntry.t :=
  map
    (fun i =>
       TrackingEntry.mk hid user (setHours0 now - Z.of_nat i * msPerDay) true
         None None None None)
    (seq 0 n).


Definition habit7 : Habit.t :=
  Habit.mk 7%N 1%N "Read" "learning" "#3B82F6" true 7.

(** [startsWith p s]: the string [s] begins with [p]. *)
Fixpoint startsWith (p s : string) : bool :=
  match p with
  | EmptyString => true
  | String a p' =>
      match s with
      | EmptyString => false
      | String b s' => Ascii.eqb a b && startsWith p' s'
      end
  end.

(** The insights that report on the completion rate, told by the words
    their message starts with. *)
Definition isRateInsight (x : Insight.t) : bool :=
  startsWith "Excellent! You have an " (Insight.message x)
  || startsWith "Good progress with " (Insight.message x)
  || startsWith "Your completion rate is " (Insight.message x).

Definition rateInsights (l : list Insight.t) : list Insight.t :=
  List.filter isRateInsight l.

(** Ten active habits of user 1, and for each of them completed records
    on the 15 days up to the day of [now]: 150 of the 300 slots of a
    30-day window. *)
Definition tenHabits : list Habit.t :=
  map (fun i => Habit.mk (N.of_nat i) 1%N "habit" "other" "#3B82F6" true 7)
    (seq 1 10).

Definition halfCompleted (now : Z) : list TrackingEntry.t :=
  flat_map (fun i => completedRun (N.of_nat i) 1%N now 15) (seq 1 10).

(** The [trends] array of an answer of the trends route. *)
Definition trendsOf (answer : option (Outcome Trends.t))
  : option (Outcome (list Trend.t)) :=
  match answer with
  | Some (Json r) => Some (Json (Trends.trends r))
  | Some Status404 => Some Status404
  | Some Status500 => Some Status500
  | None => None
  end.

(** The periods the [switch] of the trends route names. *)
Definition knownPeriod (period : string) : bool :=
  String.eqb period "week" || String.eqb period "month"
  || String.eqb period "quarter" || String.eqb period "year".

(** Two records of habit 7: one not completed with mood 1 and difficulty
    2, one completed with mood 5 and difficulty 4. *)
Definition moodMix (now : Z) : list TrackingEntry.t :=
  [ TrackingEntry.mk 7%N 1%N (setHours0 now) false None None (Some 1) (Some 2);
    TrackingEntry.mk 7%N 1%N (setHours0 now - msPerDay) true None None (Some 5) (Some 4) ].

(** The values of [field] on the completed records where it is set (a
    number other than 0, as the test [e.mood && e.completed] has it). *)
Definition qualifying (field : TrackingEntry.t -> option Z)
    (entries : list TrackingEntry.t) : list Z :=
  omap
    (fun e =>
       if TrackingEntry.completed e
       then match field e with
            | Some v => if v =? 0 then None else Some v
            | None => None
            end
       else None)
    entries.

(** The arithmetic mean of a list of integers, [None] on the empty list. *)
Definition mean (values : list Z) : option Q :=
  match values with
  | [] => None
  | _ => Some (inject_Z (fold_left Z.add values 0%Z)
               / inject_Z (Z.of_nat (length values)))%Q
  end.

(** One round of the initialisation loop of the heatmap. *)
Definition initStep (habitCount : Z) (st : Z * gmap Z HeatCell.t)
  : Z * gmap Z HeatCell.t :=
  let '(d, heatmapData) := st in
  (d + msPerDay, <[Day d := Heatmap.zeroCell habitCount (Day d)]> heatmapData).

(** [sameFrame m m']: the two objects have the same keys, and under each
    key cells with the same [date] and [totalHabits]. *)
Definition sameFrame (m m' : gmap Z HeatCell.t) : Prop :=
  forall k,
    match m !! k, m' !! k with
    | Some c, Some c' =>
        HeatCell.date c' = HeatCell.date c
        /\ HeatCell.totalHabits c' = HeatCell.totalHabits c
    | None, None => True
    | _, _ => False
    end.

(** A midnight, and the one record of habit 7 dated at that very time. *)
Definition midnight : Z := 19676 * msPerDay.

Definition recordAtMidnight : list TrackingEntry.t :=
  [ TrackingEntry.mk 7%N 1%N midnight true None None None None ].

(** The sum of [totalEntries] over the buckets. *)
Definition sumTotalEntries (trends : list Trend.t) : Z :=
  fold_left Z.add (map Trend.totalEntries trends) 0.

(** The number of entries dated in [lo, hi). *)
Definition countIn (entries : list TrackingEntry.t) (lo hi : Z) : Z :=
  Z.of_nat (length (Trends.bucketEntries entries lo hi)).

(** The entries dated strictly before [t]. *)
Definition datedBefore (entries : list TrackingEntry.t) (t : Z)
  : list TrackingEntry.t :=
  List.filter (fun e => TrackingEntry.date e <? t) entries.

(** One round of the bucket loop of the trends route. *)
Definition bucketStep (habitsDb habits : list Habit.t)
    (entries : list TrackingEntry.t) (groupBy : string)
    (startDate endDate groupSize : Z) (st : Z * option (list Trend.t))
  : Z * option (list Trend.t) :=
  let '(i, trends) := st in
  match trends, Trends.bucket habitsDb habits entries groupBy startDate endDate groupSize i with
  | Some ts, Some b => (i + groupSize, Some (ts ++ [b]))
  | _, _ => (i, None)
  end.

(** [block] is a run of consecutive elements of [entries]. *)
Definition isBlock (block entries : list TrackingEntry.t) : Prop :=
  exists pre post, entries = pre ++ block ++ post.

Definition allCompleted (block : list TrackingEntry.t) : Prop :=
  forallb TrackingEntry.completed block = true.

(** The state of the [longestStreak] loop of the habit route after the
    entries of [entries]. *)
Definition runState (entries : list TrackingEntry.t) : Z * Z :=
  fold_left
    (fun '(longestStreak, tempStreak) entry =>
       if TrackingEntry.completed entry
       then (Z.max longestStreak (tempStreak + 1), tempStreak + 1)
       else (longestStreak, 0))
    entries (0, 0).

(** The insights of the streak rule and of the consistency rule, told by
    the words their message starts with. *)
Definition isStreakInsight (x : Insight.t) : bool :=
  startsWith "Amazing! You're on a " (Insight.message x)
  || startsWith "Start building your streak today!" (Insight.message x).

Definition isConsistencyInsight (x : Insight.t) : bool :=
  startsWith "You've been very consistent this week with " (Insight.message x).

(** The last element of a list of dates, [d] when it is empty. *)
Definition lastDate (dates : list Z) (d : Z) : Z := List.last dates d.

(** [countdown n] is [n - 1, ..., 1, 0]. *)
Fixpoint countdown (n : nat) : list Z :=
  match n with
  | O => []
  | S m => Z.of_nat m :: countdown m
  end.

(** The sum of [totalDays] over the weeks. *)
Definition sumTotalDays (weeks : list WeekDatum.t) : Z :=
  fold_left Z.add (map WeekDatum.totalDays weeks) 0.

(** What holds of every week of [weeklyData]. *)
Definition weekSound (w : WeekDatum.t) : Prop :=
  0 <= WeekDatum.completedDays w <= WeekDatum.totalDays w
  /\ (0 <= WeekDatum.completionRate w <= 100)%Q
  /\ (WeekDatum.totalDays w = 0 -> WeekDatum.completionRate w = 0%Q).

(** The number of habits of [habits] in category [c], a habit without
    category counting under "other". *)
Definition habitsInCategory (habits : list Habit.t) (c : string) : Z :=
  Z.of_nat (length (List.filter (fun h => String.eqb (categoryOrOther h) c) habits)).


(** The unique index of the tracking entries, for the documents of one
    user: no two of them have the same habit and date. *)
Definition uniquePerDay (entries : list TrackingEntry.t) : Prop :=
  List.NoDup (map (fun e => (TrackingEntry.habitId e, TrackingEntry.date e)) entries).

(** Every entry is dated at a midnight, as [POST /api/tracking] stores it. *)
Definition normalised (entries : list TrackingEntry.t) : Prop :=
  forall e, In e entries -> setHours0 (TrackingEntry.date e) = TrackingEntry.date e.

(** The entries of user [user]. *)
Definition entriesOfUser (entriesDb : list TrackingEntry.t) (user : ObjectId)
  : list TrackingEntry.t :=
  List.filter (fun e => (TrackingEntry.userId e =? user)%N) entriesDb.

(** The entries of [entries] that fall on day number [x]. *)
Definition dayEntries (entries : list TrackingEntry.t) (x : Z)
  : list TrackingEntry.t :=
  List.filter (fun e => Day (TrackingEntry.date e) =? x) entries.

(** [cell'] is [cell] after the entries [found] of its day have been
    folded in. *)
Definition cellAfter (cell cell' : HeatCell.t) (found : list TrackingEntry.t)
  : Prop :=
  HeatCell.date cell' = HeatCell.date cell
  /\ HeatCell.totalHabits cell' = HeatCell.totalHabits cell
  /\ HeatCell.completedHabits cell'
     = HeatCell.completedHabits cell + countCompleted found
  /\ map HabitDetail.habitId (HeatCell.habits cell')
     = map HabitDetail.habitId (HeatCell.habits cell)
       ++ map TrackingEntry.habitId found
  /\ map HabitDetail.completed (HeatCell.habits cell')
     = map HabitDetail.completed (HeatCell.habits cell)
       ++ map TrackingEntry.completed found
  /\ HeatCell.completionRate cell'
     = match found with
       | [] => HeatCell.completionRate cell
       | _ => (inject_Z (HeatCell.completedHabits cell')
               / inject_Z (HeatCell.totalHabits cell) * 100)%Q
       end.

(** The number of entries of [completedEntries] that belong to an active
    habit of category [c], each counted once per such habit. *)
Definition completedInCategory (habits : list Habit.t)
    (completedEntries : list TrackingEntry.t) (c : string) : Z :=
  fold_right Z.add 0
    (map
       (fun h =>
          Z.of_nat
            (length
               (List.filter
                  (fun e => (TrackingEntry.habitId e =? Habit._id h)%N)
                  completedEntries)))
       (List.filter (fun h => String.eqb (categoryOrOther h) c) habits)).


(** Some active habit of [user] has the id [hid]. *)
Definition ownsActive (habitsDb : list Habit.t) (user hid : ObjectId) : Prop :=
  exists h, In h habitsDb /\ Habit._id h = hid /\ Habit.userId h = user
            /\ Habit.isActive h = true.

(** Three completed days up to yesterday, for habit 7 of user 1. *)
Definition untilYesterday (now : Z) : list TrackingEntry.t :=
  completedRun 7%N 1%N (now - msPerDay) 3.

(** A body that marks habit 7 as completed at the time [now]. *)
Definition doneNow (now : Z) : Tracking.Body :=
  Tracking.mkBody 7%N now true None None None None.

(** * Theorems *)

(** ** Calendar arithmetic *)

Lemma msPerDay_pos : 0 < msPerDay.
Proof. reflexivity. Qed.

Lemma setHours0_Day t : setHours0 t = Day t * msPerDay.
Proof.
  unfold setHours0, Day. pose proof msPerDay_pos.
  rewrite Z.mod_eq by lia. lia.
Qed.

Lemma setHours0_mono a b : a <= b -> setHours0 a <= setHours0 b.
Proof.
  intros Hab. rewrite !setHours0_Day. pose proof msPerDay_pos.
  apply Z.mul_le_mono_nonneg_r; [lia|].
  apply Z.div_le_mono; lia.
Qed.

Lemma Day_shift t k : Day (t + k * msPerDay) = Day t + k.
Proof. unfold Day. apply Z.div_add. pose proof msPerDay_pos. lia. Qed.

Lemma setHours0_shift t k : setHours0 (t + k * msPerDay) = setHours0 t + k * msPerDay.
Proof. rewrite !setHours0_Day, Day_shift. lia. Qed.

Lemma setHours0_idem t : setHours0 (setHours0 t) = setHours0 t.
Proof.
  rewrite (setHours0_Day t). replace (Day t * msPerDay) with (0 + Day t * msPerDay) by lia.
  rewrite setHours0_shift. reflexivity.
Qed.

(** ** The current streak *)

Section Streak.

Import TrackingEntry.

#[local] Instance date_desc_trans : Transitive date_desc.
Proof. intros a b c. unfold date_desc. lia. Qed.

#[local] Instance date_desc_total : Total date_desc.
Proof. intros a b. unfold date_desc. lia. Qed.

Lemma streakWalk_acc entries : forall currentDate streak,
  streakWalk entries currentDate streak = streak + streakWalk entries currentDate 0.
Proof.
  induction entries as [|e rest IH]; intros c s; simpl; [lia|].
  destruct (setHours0 (date e) =? c).
  - rewrite (IH _ (s + 1)), (IH _ (0 + 1)). lia.
  - destruct (setHours0 (date e) <? c); [lia|]. apply IH.
Qed.

Lemma streakWalk_bounds entries : forall currentDate,
  0 <= streakWalk entries currentDate 0 <= Z.of_nat (length entries).
Proof.
  induction entries as [|e rest IH]; intros c; simpl; [lia|].
  destruct (setHours0 (date e) =? c).
  - rewrite streakWalk_acc. specialize (IH (c - msPerDay)). lia.
  - destruct (setHours0 (date e) <? c); [lia|]. specialize (IH c). lia.
Qed.

(** On entries sorted most recent first, the walk counts the days
    [currentDate], [currentDate - 1 day], ... that carry an entry, up to
    the first that carries none. *)
Lemma streakWalk_sorted entries :
  StronglySorted date_desc entries ->
  forall currentDate,
    (forall i, 0 <= i < streakWalk entries currentDate 0 ->
               In (currentDate - i * msPerDay) (entryDays entries))
    /\ ~ In (currentDate - streakWalk entries currentDate 0 * msPerDay)
           (entryDays entries).
Proof.
  pose proof msPerDay_pos as HD.
  induction 1 as [|e rest Hs IH Hall]; intros c; simpl.
  - split; [lia | tauto].
  - destruct (Z.eqb_spec (setHours0 (date e)) c) as [Heq|Hne].
    + rewrite streakWalk_acc.
      destruct (IH (c - msPerDay)) as [Hin Hout].
      pose proof (streakWalk_bounds rest (c - msPerDay)) as Hb.
      split.
      * intros i Hi. destruct (Z.eq_dec i 0) as [->|Hi0].
        -- left. lia.
        -- right. replace (c - i * msPerDay) with (c - msPerDay - (i - 1) * msPerDay) by lia.
           apply Hin. lia.
      * intros [Hh|Ht].
        -- nia.
        -- apply Hout.
           replace (c - msPerDay - streakWalk rest (c - msPerDay) 0 * msPerDay)
             with (c - (0 + 1 + streakWalk rest (c - msPerDay) 0) * msPerDay) by lia.
           exact Ht.
    + destruct (Z.ltb_spec (setHours0 (date e)) c) as [Hlt|Hge].
      * split; [lia|].
        rewrite Z.mul_0_l, Z.sub_0_r. intros [Hh|Ht]; [lia|].
        unfold entryDays in Ht. apply in_map_iff in Ht as (x & Hx & Hxin).
        rewrite Forall_forall in Hall.
        assert (date_desc e x) as Hd by (apply Hall, list_elem_of_In, Hxin).
        apply setHours0_mono in Hd. lia.
      * destruct (IH c) as [Hin Hout].
        pose proof (streakWalk_bounds rest c) as Hb.
        split.
        -- intros i Hi. right. apply Hin, Hi.
        -- intros [Hh|Ht]; [nia | exact (Hout Ht)].
Qed.

Lemma In_firstn {A} (x : A) n l : In x (firstn n l) -> In x l.
Proof.
  intros Hin. apply list_elem_of_In. apply list_elem_of_In in Hin.
  by apply (subseteq_take n l).
Qed.

Lemma StronglySorted_firstn {A} (R : relation A) n : forall l,
  StronglySorted R l -> StronglySorted R (firstn n l).
Proof.
  induction n as [|n IH]; intros [|x l] Hs; simpl; try constructor.
  - apply IH. by inversion Hs.
  - inversion Hs as [|? ? ? Hall]; subst.
    rewrite Forall_forall in Hall. apply Forall_forall.
    intros y Hy. apply Hall. by apply (subseteq_take n l).
Qed.

Lemma recentCompleted_sorted db hid :
  StronglySorted date_desc (recentCompleted db hid).
Proof. apply StronglySorted_firstn, StronglySorted_merge_sort; apply _. Qed.

Lemma recentCompleted_In db hid e :
  In e (recentCompleted db hid) -> In e (completedOfHabit db hid).
Proof.
  unfold recentCompleted. intros Hin. apply In_firstn in Hin.
  apply list_elem_of_In in Hin. rewrite merge_sort_Permutation in Hin.
  by apply list_elem_of_In.
Qed.

Lemma recentCompleted_length db hid :
  (length (recentCompleted db hid) <= 100)%nat
  /\ (length (recentCompleted db hid) <= length (recordsOfHabit db hid))%nat.
Proof.
  unfold recentCompleted. rewrite length_firstn.
  rewrite (Permutation_length (merge_sort_Permutation _ _)).
  split; [lia|].
  etransitivity; [apply Nat.le_min_r|].
  unfold recordsOfHabit. induction db as [|e db IH]; simpl; [lia|].
  destruct (habitId e =? hid)%N; simpl; [|exact IH].
  destruct (completed e); simpl; lia.
Qed.

Lemma completedOn_days entries d :
  (forall e, In e entries -> completed e = true) ->
  completedOn entries d = true <-> In d (entryDays entries).
Proof.
  intros Hall. unfold completedOn, entryDays. rewrite existsb_exists, in_map_iff.
  split.
  - intros (e & Hin & He). apply andb_true_iff in He as [_ He].
    exists e. split; [lia | exact Hin].
  - intros (e & He & Hin). exists e. split; [exact Hin|].
    rewrite (Hall e Hin). simpl. lia.
Qed.

Lemma recentCompleted_completed db hid e :
  In e (recentCompleted db hid) -> completed e = true.
Proof.
  intros Hin. apply recentCompleted_In in Hin.
  unfold completedOfHabit in Hin. apply filter_In in Hin as [_ Hin].
  by apply andb_true_iff in Hin as [_ ?].
Qed.

Lemma find_today entries today :
  (forall e, In e entries -> completed e = true) ->
  match List.find (fun entry => setHours0 (date entry) =? today) entries with
  | Some _ => completedOn entries today = true
  | None => completedOn entries today = false
  end.
Proof.
  intros Hall.
  destruct (List.find _ entries) as [e|] eqn:Hf.
  - apply find_some in Hf as [Hin He].
    apply completedOn_days; [exact Hall|].
    unfold entryDays. apply in_map_iff. exists e. split; [lia | exact Hin].
  - apply not_true_is_false. intros Hc.
    apply completedOn_days in Hc; [|exact Hall].
    unfold entryDays in Hc. apply in_map_iff in Hc as (e & He & Hin).
    pose proof (find_none _ _ Hf e Hin) as Hn. simpl in Hn. lia.
Qed.

Lemma completedOn_Permutation l1 l2 d :
  l1 ≡ₚ l2 -> completedOn l1 d = completedOn l2 d.
Proof.
  intros Hp. unfold completedOn. apply eq_true_iff_eq.
  rewrite !existsb_exists. split; intros (e & Hin & He); exists e; split; try exact He.
  - eapply Permutation_in; [exact Hp | exact Hin].
  - eapply Permutation_in; [symmetry; exact Hp | exact Hin].
Qed.

Lemma completedOn_completedOfHabit db hid d :
  completedOn (completedOfHabit db hid) d = completedOn (recordsOfHabit db hid) d.
Proof.
  unfold completedOn, completedOfHabit, recordsOfHabit. apply eq_true_iff_eq.
  rewrite !existsb_exists. split; intros (e & Hin & He); exists e; split; try exact He.
  - apply filter_In in Hin as [Hin Hc]. apply filter_In. split; [exact Hin|].
    by apply andb_true_iff in Hc as [? _].
  - apply filter_In in Hin as [Hin Hc]. apply filter_In. split; [exact Hin|].
    apply andb_true_iff in He as [He _]. by rewrite Hc, He.
Qed.

(** With at most 100 completed records, the query sees every completed
    day of the habit. *)
Lemma recentCompleted_all db hid d :
  (length (completedOfHabit db hid) <= 100)%nat ->
  completedOn (recentCompleted db hid) d = completedOn (recordsOfHabit db hid) d.
Proof.
  intros Hlen. unfold recentCompleted. fold (completedOfHabit db hid).
  rewrite firstn_all2.
  - rewrite (completedOn_Permutation _ _ d (merge_sort_Permutation _ _)).
    apply completedOn_completedOfHabit.
  - by rewrite (Permutation_length (merge_sort_Permutation _ _)).
Qed.

(** The walk of [getCurrentStreak], from its anchor day. *)
Lemma getCurrentStreak_walk now db hid :
  let recent := recentCompleted db hid in
  let today := setHours0 now in
  let anchor := if completedOn recent today then today else today - msPerDay in
  let n := getCurrentStreak now db hid in
  0 <= n
  /\ (forall i, 0 <= i < n -> completedOn recent (anchor - i * msPerDay) = true)
  /\ completedOn recent (anchor - n * msPerDay) = false.
Proof.
  intros recent today anchor n.
  pose proof (recentCompleted_completed db hid) as Hall. fold recent in Hall.
  pose proof (recentCompleted_sorted db hid) as Hs. fold recent in Hs.
  subst n. unfold getCurrentStreak. fold recent. fold today.
  destruct (Nat.eqb_spec (length recent) 0) as [Hz|Hnz].
  - destruct recent; [|discriminate]. simpl. split; [lia|]. split; [lia|reflexivity].
  - pose proof (find_today recent today Hall) as Hf.
    assert (match List.find (fun entry => setHours0 (date entry) =? today) recent with
            | Some _ => today
            | None => today - 24 * 60 * 60 * 1000
            end = anchor) as ->.
    { subst anchor. destruct (List.find _ recent); rewrite Hf; reflexivity. }
    destruct (streakWalk_sorted recent Hs anchor) as [Hin Hout].
    split; [apply streakWalk_bounds|]. split.
    + intros i Hi. apply completedOn_days; [exact Hall|]. by apply Hin.
    + apply not_true_is_false. intros Hc. apply Hout.
      by apply completedOn_days in Hc.
Qed.

Lemma getCurrentStreak_le_recent now db hid :
  0 <= getCurrentStreak now db hid <= Z.of_nat (length (recentCompleted db hid)).
Proof.
  unfold getCurrentStreak.
  destruct (length (recentCompleted db hid) =? 0)%nat; [lia|].
  apply streakWalk_bounds.
Qed.

Lemma recentCompleted_most_recent db hid e e' :
  In e (recentCompleted db hid) -> In e' (completedOfHabit db hid) ->
  ~ In e' (recentCompleted db hid) -> date e' <= date e.
Proof.
  unfold recentCompleted. fold (completedOfHabit db hid).
  set (sorted := merge_sort date_desc (completedOfHabit db hid)).
  intros He He' Hn.
  assert (StronglySorted date_desc (firstn 100 sorted ++ skipn 100 sorted)) as Hs.
  { rewrite firstn_skipn. apply StronglySorted_merge_sort; apply _. }
  apply StronglySorted_app in Hs as (Hcross & _ & _).
  apply (Hcross e e'); [by apply list_elem_of_In|].
  assert (In e' sorted) as Hin.
  { apply list_elem_of_In. unfold sorted. rewrite merge_sort_Permutation.
    by apply list_elem_of_In. }
  rewrite <- (firstn_skipn 100 sorted) in Hin.
  apply in_app_or in Hin as [Hin|Hin]; [contradiction|].
  by apply list_elem_of_In.
Qed.

(** Records that are not completed do not reach the walk. *)
Lemma getCurrentStreak_ignores_uncompleted now db hid :
  getCurrentStreak now (List.filter completed db) hid = getCurrentStreak now db hid.
Proof.
  unfold getCurrentStreak, recentCompleted.
  assert (List.filter (fun e => (habitId e =? hid)%N && completed e)
            (List.filter completed db)
          = List.filter (fun e => (habitId e =? hid)%N && completed e) db) as ->;
    [|reflexivity].
  induction db as [|e db IH]; simpl; [reflexivity|].
  destruct (completed e) eqn:Hc; simpl; rewrite ?Hc, ?andb_false_r, IH; reflexivity.
Qed.

(** The length of the walk is determined by the completed days. *)
Lemma streak_unique (P : Z -> bool) (anchor n m : Z) :
  0 <= n -> 0 <= m ->
  (forall i, 0 <= i < n -> P (anchor - i * msPerDay) = true) ->
  P (anchor - n * msPerDay) = false ->
  (forall i, 0 <= i < m -> P (anchor - i * msPerDay) = true) ->
  P (anchor - m * msPerDay) = false ->
  n = m.
Proof.
  intros Hn Hm Hnin Hnout Hmin Hmout.
  destruct (Z.lt_trichotomy n m) as [Hlt|[Heq|Hgt]]; [|exact Heq|].
  - rewrite (Hmin n) in Hnout by lia. discriminate.
  - rewrite (Hnin m) in Hmout by lia. discriminate.
Qed.


Lemma filter_Permutation_bool {A} (f : A -> bool) (l1 l2 : list A) :
  l1 ≡ₚ l2 -> List.filter f l1 ≡ₚ List.filter f l2.
Proof.
  induction 1 as [|x l l' _ IH|x y l|l l' l'' _ IH1 _ IH2]; simpl.
  - reflexivity.
  - destruct (f x); [by constructor | exact IH].
  - destruct (f x), (f y); try reflexivity. constructor.
  - etransitivity; eassumption.
Qed.

(** With at most 100 completed records, the streak does not depend on the
    order in which the collection holds its documents. *)
Lemma getCurrentStreak_Permutation now db db' hid :
  db ≡ₚ db' ->
  (length (completedOfHabit db hid) <= 100)%nat ->
  getCurrentStreak now db' hid = getCurrentStreak now db hid.
Proof.
  intros Hp Hlen.
  assert (length (completedOfHabit db' hid) <= 100)%nat as Hlen'.
  { unfold completedOfHabit in *.
    by rewrite <- (Permutation_length (filter_Permutation_bool _ _ _ Hp)). }
  assert (forall d, completedOn (recentCompleted db' hid) d
                    = completedOn (recentCompleted db hid) d) as Hsame.
  { intros d. rewrite !recentCompleted_all by assumption.
    apply completedOn_Permutation. symmetry.
    by apply filter_Permutation_bool. }
  destruct (getCurrentStreak_walk now db hid) as (H0 & Hin & Hout).
  destruct (getCurrentStreak_walk now db' hid) as (H0' & Hin' & Hout').
  rewrite !Hsame in Hout'. rewrite (Hsame (setHours0 now)) in Hin'.
  setoid_rewrite Hsame in Hin'.
  exact (streak_unique _ _ _ _ H0' H0 Hin' Hout' Hin Hout).
Qed.

Example streak_of_101_day_run :
  getCurrentStreak 1700000000000 (completedRun 7%N 1%N 1700000000000 101) 7%N = 100.
Proof. vm_compute. reflexivity. Qed.

(** C3 (as amended).  The current streak is a backward walk over the 100
    most recently dated completed records of the habit (all its completed
    days when it has at most 100 completed records): the anchor day is
    today when today carries such a record and yesterday otherwise; every
    one of the [n] days from the anchor backwards carries a completed
    record, and the day after them carries none.  A record that is not
    completed counts like a missing day: dropping all of them leaves the
    streak unchanged.  The result is a function of the records: with at
    most 100 completed ones it does not depend on their order either. *)
Theorem currentStreak_backward_walk (now : Z) (db : list TrackingEntry.t)
    (hid : ObjectId) :
  let recent := recentCompleted db hid in
  let today := setHours0 now in
  let anchor := if completedOn recent today then today else today - msPerDay in
  let n := getCurrentStreak now db hid in
  (length recent <= 100)%nat
  /\ ((length (completedOfHabit db hid) <= 100)%nat ->
      forall d, completedOn recent d = completedOn (recordsOfHabit db hid) d)
  /\ 0 <= n
  /\ (forall i, 0 <= i < n -> completedOn recent (anchor - i * msPerDay) = true)
  /\ completedOn recent (anchor - n * msPerDay) = false
  /\ getCurrentStreak now (List.filter completed db) hid = n
  /\ (forall db',
        db ≡ₚ db' -> (length (completedOfHabit db hid) <= 100)%nat ->
        getCurrentStreak now db' hid = n).
Proof.
  intros recent today anchor n.
  destruct (getCurrentStreak_walk now db hid) as (H0 & Hin & Hout).
  split; [apply recentCompleted_length|].
  split; [intros Hlen d; by apply recentCompleted_all|].
  split; [exact H0|]. split; [exact Hin|]. split; [exact Hout|].
  split; [apply getCurrentStreak_ignores_uncompleted|].
  intros db'. apply getCurrentStreak_Permutation.
Qed.

(** C3 as stated fails: with completed records on 101 consecutive days
    ending today the streak is 100, although the day 100 days before
    today carries a completed record, so the walk did not stop at a day
    without one. *)
Lemma currentStreak_stops_on_a_completed_day :
  let now := 1700000000000 in
  let db := completedRun 7%N 1%N now 101 in
  getCurrentStreak now db 7%N = 100
  /\ completedOn (recordsOfHabit db 7%N) (setHours0 now - 100 * msPerDay) = true.
Proof. split; [exact streak_of_101_day_run | vm_compute; reflexivity]. Qed.

(** C10.  The streak is computed from at most 100 records, all of them
    completed records of the habit and none older than a completed record
    left out; it lies between 0 and 100 and never exceeds the number of
    the habit's records.  A run of 150 completed days is reported as 100. *)
Theorem currentStreak_capped_at_100 (now : Z) (db : list TrackingEntry.t)
    (hid : ObjectId) :
  let recent := recentCompleted db hid in
  (length recent <= 100)%nat
  /\ (forall e, In e recent -> In e (completedOfHabit db hid))
  /\ (forall e e', In e recent -> In e' (completedOfHabit db hid) ->
                   ~ In e' recent -> date e' <= date e)
  /\ 0 <= getCurrentStreak now db hid <= 100
  /\ getCurrentStreak now db hid <= Z.of_nat (length (recordsOfHabit db hid))
  /\ getCurrentStreak 1700000000000 (completedRun 7%N 1%N 1700000000000 150) 7%N = 100.
Proof.
  intros recent.
  pose proof (recentCompleted_length db hid) as [H100 Hlen].
  pose proof (getCurrentStreak_le_recent now db hid) as Hb.
  split; [exact H100|].
  split; [intros e; apply recentCompleted_In|].
  split; [intros e e'; apply recentCompleted_most_recent|].
  split; [lia|]. split; [lia|].
  vm_compute. reflexivity.
Qed.

End Streak.

(** ** Milestones and predictions *)

Section PredictionFacts.













End PredictionFacts.

(** ** Insights *)

Section InsightFacts.

Lemma rateInsights_app l1 l2 :
  rateInsights (l1 ++ l2) = rateInsights l1 ++ rateInsights l2.
Proof. apply List.filter_app. Qed.

Lemma rateInsights_one x :
  rateInsights [x] = if isRateInsight x then [x] else [].
Proof. reflexivity. Qed.

Lemma isRateInsight_excellent r : isRateInsight (excellentInsight r) = true.
Proof. reflexivity. Qed.

Lemma isRateInsight_good r : isRateInsight (goodProgressInsight r) = true.
Proof. reflexivity. Qed.

Lemma isRateInsight_low r : isRateInsight (lowRateInsight r) = true.
Proof. reflexivity. Qed.

Lemma isRateInsight_streak n : isRateInsight (streakInsight n) = false.
Proof. reflexivity. Qed.

Lemma isRateInsight_start : isRateInsight startInsight = false.
Proof. reflexivity. Qed.

Lemma isRateInsight_consistent a b : isRateInsight (consistentInsight a b) = false.
Proof. reflexivity. Qed.

(** The completion-rate insights of the list are those of the first rule. *)
Lemma rateInsights_generateInsights entries habit completionRate currentStreak :
  rateInsights (generateInsights entries habit completionRate currentStreak)
  = if Qle_bool 80 completionRate then [excellentInsight completionRate]
    else if Qle_bool 60 completionRate then [goodProgressInsight completionRate]
    else if negb (Qle_bool 40 completionRate) then [lowRateInsight completionRate]
    else [].
Proof.
  unfold generateInsights.
  assert (forall l, rateInsights
            (if negb (Qle_bool
                        (inject_Z (countCompleted (slice_last 7 entries)))
                        (inject_Z (Z.of_nat (length (slice_last 7 entries))) * (8 # 10)))
             then l ++ [consistentInsight (countCompleted (slice_last 7 entries))
                          (Z.of_nat (length (slice_last 7 entries)))]
             else l) = rateInsights l) as Hlast.
  { intros l. destruct (negb _); [|reflexivity].
    rewrite rateInsights_app, rateInsights_one, isRateInsight_consistent.
    apply app_nil_r. }
  rewrite Hlast.
  assert (forall l, rateInsights
            (if 7 <=? currentStreak then l ++ [streakInsight currentStreak]
             else if currentStreak =? 0 then l ++ [startInsight] else l)
          = rateInsights l) as Hmid.
  { intros l. destruct (7 <=? currentStreak); [|destruct (currentStreak =? 0)];
      rewrite ?rateInsights_app, ?rateInsights_one,
        ?isRateInsight_streak, ?isRateInsight_start, ?app_nil_r; reflexivity. }
  rewrite Hmid.
  destruct (Qle_bool 80 completionRate);
    [|destruct (Qle_bool 60 completionRate);
      [|destruct (negb (Qle_bool 40 completionRate))]];
    rewrite ?app_nil_l, ?rateInsights_one,
      ?isRateInsight_excellent, ?isRateInsight_good, ?isRateInsight_low;
    reflexivity.
Qed.

Lemma Qle_bool_false (a b : Q) : Qle_bool a b = false <-> (b < a)%Q.
Proof.
  rewrite <- not_true_iff_false, Qle_bool_iff. split.
  - apply Qnot_le_lt.
  - apply Qlt_not_le.
Qed.

(** C5.  The completion-rate insights of the list follow the bands: one
    success message from 80 up, one warning message from 60 to below 80,
    one danger message below 40, none from 40 to below 60.  A habit with
    no record has rate 0 and streak 0, and its insights are the danger
    message followed by the message that invites to start a streak. *)
Theorem completion_rate_bands (entries : list TrackingEntry.t) (habit : Habit.t)
    (completionRate : Q) (currentStreak : Z) (now : Z) (hid : ObjectId) :
  let insights := generateInsights entries habit completionRate currentStreak in
  ((80 <= completionRate)%Q ->
     rateInsights insights = [excellentInsight completionRate])
  /\ ((60 <= completionRate)%Q -> (completionRate < 80)%Q ->
      rateInsights insights = [goodProgressInsight completionRate])
  /\ ((completionRate < 40)%Q ->
      rateInsights insights = [lowRateInsight completionRate])
  /\ ((40 <= completionRate)%Q -> (completionRate < 60)%Q ->
      rateInsights insights = [])
  /\ Insight.type (excellentInsight completionRate) = Insight.success
  /\ Insight.type (goodProgressInsight completionRate) = Insight.warning
  /\ Insight.type (lowRateInsight completionRate) = Insight.danger
  /\ HabitRoute.trackedRate [] = 0%Q
  /\ TrackingEntry.getCurrentStreak now [] hid = 0
  /\ generateInsights [] habit (HabitRoute.trackedRate [])
       (TrackingEntry.getCurrentStreak now [] hid)
     = [ {| Insight.type := Insight.danger;
            Insight.message :=
              "Your completion rate is 0%. Consider adjusting your habit or schedule to make it more achievable.";
            Insight.actionable := true |};
         {| Insight.type := Insight.info;
            Insight.message :=
              "Start building your streak today! Consistency is key to forming lasting habits.";
            Insight.actionable := true |} ].
Proof.
  intros insights. subst insights.
  rewrite rateInsights_generateInsights.
  split; [|split; [|split; [|split]]].
  - intros H80. apply Qle_bool_iff in H80. by rewrite H80.
  - intros H60 H80. apply Qle_bool_iff in H60. apply Qle_bool_false in H80.
    by rewrite H80, H60.
  - intros H40.
    assert (Qle_bool 80 completionRate = false) as ->.
    { apply Qle_bool_false. eapply Qlt_trans; [exact H40 | reflexivity]. }
    assert (Qle_bool 60 completionRate = false) as ->.
    { apply Qle_bool_false. eapply Qlt_trans; [exact H40 | reflexivity]. }
    apply Qle_bool_false in H40. by rewrite H40.
  - intros H40 H60.
    assert (Qle_bool 80 completionRate = false) as ->.
    { apply Qle_bool_false. eapply Qlt_trans; [exact H60 | reflexivity]. }
    apply Qle_bool_false in H60. apply Qle_bool_iff in H40. by rewrite H60, H40.
  - repeat split; reflexivity.
Qed.

End InsightFacts.

(** ** Completion rates *)

Section RateFacts.






End RateFacts.

(** ** Defaults of the window parameters *)

Section WindowFacts.

Lemma periodDays_unknown period :
  knownPeriod period = false -> Trends.periodDays period = 30.
Proof.
  unfold knownPeriod, Trends.periodDays. intros H.
  apply orb_false_iff in H as [H Hy]. apply orb_false_iff in H as [H Hq].
  apply orb_false_iff in H as [Hw Hm].
  by rewrite Hw, Hm, Hq, Hy.
Qed.

Lemma trends_unknown_period fuel now habitsDb entriesDb user period groupByQ :
  knownPeriod period = false ->
  trendsOf (Trends.handler fuel now habitsDb entriesDb user (Some period) groupByQ)
  = trendsOf (Trends.handler fuel now habitsDb entriesDb user (Some "month") groupByQ).
Proof.
  intros Hunknown. unfold Trends.handler. simpl default.
  rewrite (periodDays_unknown _ Hunknown).
  change (Trends.periodDays "month") with 30.
  destruct (Trends.bucketLoop _ _ _ _ _ _ _ _ _) as [[i [trends|]]|]; reflexivity.
Qed.

(** C7 (as amended).  A [days] parameter that is absent is replaced by
    30: the overview and habit routes answer as for [days=30].  A period
    other than week, month, quarter and year gives the 30-day window of
    month, and the trends are those of month.  A [days] value that is
    supplied is used as [parseInt] reads it, also when it is not
    positive. *)
Theorem window_defaults :
  Overview.parseDays None = Some 30
  /\ (forall now habitsDb entriesDb user,
        Overview.handler now habitsDb entriesDb user None
        = Overview.handler now habitsDb entriesDb user (Some "30"))
  /\ (forall now habitsDb entriesDb user hid,
        HabitRoute.handler now habitsDb entriesDb user hid None
        = HabitRoute.handler now habitsDb entriesDb user hid (Some "30"))
  /\ (forall period,
        knownPeriod period = false ->
        Trends.periodDays period = 30 /\ Trends.periodDays "month" = 30)
  /\ (forall fuel now habitsDb entriesDb user period groupByQ,
        knownPeriod period = false ->
        trendsOf (Trends.handler fuel now habitsDb entriesDb user (Some period) groupByQ)
        = trendsOf (Trends.handler fuel now habitsDb entriesDb user (Some "month") groupByQ))
  /\ (forall s n, parseInt s = Some n -> Overview.parseDays (Some s) = Some n)
  /\ parseInt "0" = Some 0
  /\ parseInt "-5" = Some (-5).
Proof.
  split; [reflexivity|].
  split; [reflexivity|].
  split; [reflexivity|].
  split; [intros period H; split; [by apply periodDays_unknown | reflexivity]|].
  split; [intros; by apply trends_unknown_period|].
  split; [intros s n H; exact H|].
  split; reflexivity.
Qed.

(** C7 as stated fails: [days=-5] is not replaced by 30.  The overview
    is computed over a window of -5 days, which starts 5 days after it
    ends, and reports a rate of 0, where the 30-day window reports 50. *)
Lemma nonpositive_days_kept :
  (exists o,
     Overview.handler 1700000000000 tenHabits (halfCompleted 1700000000000) 1%N
       (Some "-5") = Json o
     /\ Overview.period o
        = Some (Period.mk (-5) (1700000000000 + 5 * msPerDay) 1700000000000)
     /\ Overview.completionRate o = 0)
  /\ (exists o,
        Overview.handler 1700000000000 tenHabits (halfCompleted 1700000000000) 1%N
          None = Json o
        /\ Overview.period o
           = Some (Period.mk 30 (1700000000000 - 30 * msPerDay) 1700000000000)
        /\ Overview.completionRate o = 50).
Proof.
  split; eexists; (split; [vm_compute; reflexivity|]); split; vm_compute; reflexivity.
Qed.

End WindowFacts.

(** ** Mood and difficulty averages *)

Section AverageFacts.

Lemma fold_left_add_shift (vs : list Z) (a : Z) :
  fold_left Z.add vs a = a + fold_left Z.add vs 0.
Proof.
  revert a. induction vs as [|v vs IH]; intros a; simpl; [lia|].
  rewrite (IH (a + v)), (IH (0 + v)). lia.
Qed.

Lemma averageOf_picked field entries :
  let picked :=
    List.filter
      (fun e => HabitRoute.truthy (field e) && TrackingEntry.completed e) entries in
  length (qualifying field entries) = length picked
  /\ forall a,
       fold_left (fun sum e => sum + default 0 (field e)) picked a
       = a + fold_left Z.add (qualifying field entries) 0.
Proof.
  simpl. unfold qualifying.
  induction entries as [|e rest (IH2 & IH3)]; simpl.
  - split; [reflexivity|]. intros a. lia.
  - destruct (TrackingEntry.completed e) eqn:Hc, (field e) as [v|] eqn:Hf; simpl;
      rewrite ?andb_false_r; simpl; try (split; assumption).
    destruct (Z.eqb_spec v 0); simpl; [split; assumption|].
    split; [f_equal; exact IH2|].
    intros a. rewrite Hf. simpl. rewrite IH3, (fold_left_add_shift _ (0 + v)).
    match goal with
    | |- _ + _ + ?X = _ + (_ + _ + ?Y) => change Y with X
    end.
    lia.
Qed.

(** The habit route: the mean over the completed records with the field
    set, nothing when there is no such record. *)
Lemma averageOf_mean field entries :
  HabitRoute.averageOf field entries = mean (qualifying field entries).
Proof.
  unfold HabitRoute.averageOf, mean.
  destruct (averageOf_picked field entries) as (Hlen & Hsum). simpl in *.
  rewrite <- Hlen, Hsum.
  destruct (qualifying field entries) as [|v vs]; simpl; reflexivity.
Qed.

Lemma sum_at_least_length (vs : list Z) :
  (forall v, In v vs -> 1 <= v) -> Z.of_nat (length vs) <= fold_left Z.add vs 0.
Proof.
  induction vs as [|v vs IH]; intros Hall; simpl; [lia|].
  rewrite (fold_left_add_shift _ (0 + v)).
  pose proof (Hall v (or_introl eq_refl)).
  assert (Z.of_nat (length vs) <= fold_left Z.add vs 0)
    by (apply IH; intros w Hw; apply Hall; by right).
  lia.
Qed.

(** The habit route reports no average exactly when no record qualifies,
    for fields validated to be at least 1. *)
Lemma roundedAverage_absent field entries :
  (forall v, In v (qualifying field entries) -> 1 <= v) ->
  HabitRoute.roundedAverage (HabitRoute.averageOf field entries) = None
  <-> qualifying field entries = [].
Proof.
  intros Hall. rewrite averageOf_mean. unfold mean.
  pose proof (sum_at_least_length _ Hall) as Hsum.
  destruct (qualifying field entries) as [|v vs] eqn:Hq; [tauto|].
  split; [|discriminate].
  unfold HabitRoute.roundedAverage.
  set (total := fold_left Z.add (v :: vs) 0) in *.
  set (count := Z.of_nat (length (v :: vs))) in *.
  assert (0 < count) as Hcount by (unfold count; simpl; lia).
  assert (0 < inject_Z total / inject_Z count)%Q as Hpos.
  { apply Qlt_shift_div_l; [unfold Qlt; simpl; lia|].
    rewrite Qmult_0_l. unfold Qlt. simpl. lia. }
  destruct (Qeq_bool (inject_Z total / inject_Z count) 0) eqn:Heq; [|discriminate].
  apply Qeq_bool_iff in Heq. rewrite Heq in Hpos.
  exfalso. exact (Qlt_irrefl 0 Hpos).
Qed.

(** C8, on the static [getHabitAnalytics].  For a habit with one record
    that is not completed (mood 1, difficulty 2) and one completed record
    (mood 5, difficulty 4), the static averages over both records and
    gives 3 and 3.  The mean over the completed records with the field
    set is 5 and 4; it is what the habit route computes for every record
    set, reporting nothing exactly when no record qualifies. *)
Theorem static_average_counts_uncompleted :
  (forall field entries,
     HabitRoute.averageOf field entries = mean (qualifying field entries))
  /\ (forall field entries,
       (forall v, In v (qualifying field entries) -> 1 <= v) ->
       HabitRoute.roundedAverage (HabitRoute.averageOf field entries) = None
       <-> qualifying field entries = [])
  /\ match TrackingEntry.averageMood
             (TrackingEntry.getHabitAnalytics 1700000000000
                (moodMix 1700000000000) 7%N 30),
           TrackingEntry.averageDifficulty
             (TrackingEntry.getHabitAnalytics 1700000000000
                (moodMix 1700000000000) 7%N 30) with
     | Some m, Some d => (m == 3)%Q /\ (d == 3)%Q
     | _, _ => False
     end
  /\ match mean (qualifying TrackingEntry.mood (moodMix 1700000000000)),
           mean (qualifying TrackingEntry.difficulty (moodMix 1700000000000)) with
     | Some m, Some d => (m == 5)%Q /\ (d == 4)%Q
     | _, _ => False
     end.
Proof.
  split; [apply averageOf_mean|].
  split; [apply roundedAverage_absent|].
  split; vm_compute; split; reflexivity.
Qed.

End AverageFacts.

(** ** Trend buckets *)

Section TrendFacts.

Lemma sumTotalEntries_snoc ts b :
  sumTotalEntries (ts ++ [b]) = sumTotalEntries ts + Trend.totalEntries b.
Proof.
  unfold sumTotalEntries. rewrite map_app, fold_left_app. reflexivity.
Qed.

Lemma countIn_empty entries lo hi : hi <= lo -> countIn entries lo hi = 0.
Proof.
  intros Hle. unfold countIn, Trends.bucketEntries.
  induction entries as [|e rest IH]; simpl; [reflexivity|].
  destruct (Z.leb_spec lo (TrackingEntry.date e)),
           (Z.ltb_spec (TrackingEntry.date e) hi); simpl; try exact IH; lia.
Qed.

(** Two adjacent buckets, both clipped to [endDate], count as one. *)
Lemma countIn_adjacent entries lo mid hi endDate :
  lo <= mid -> mid <= hi ->
  countIn entries lo (Z.min mid endDate) + countIn entries mid (Z.min hi endDate)
  = countIn entries lo (Z.min hi endDate).
Proof.
  intros Hlo Hhi. unfold countIn, Trends.bucketEntries.
  induction entries as [|e rest IH]; simpl; [reflexivity|].
  destruct (Z.leb_spec lo (TrackingEntry.date e)),
           (Z.leb_spec mid (TrackingEntry.date e)),
           (Z.ltb_spec (TrackingEntry.date e) (Z.min mid endDate)),
           (Z.ltb_spec (TrackingEntry.date e) (Z.min hi endDate));
    simpl; lia.
Qed.

Lemma countOfHabit_none habitsDb habit completedEntries :
  Trends.countOfHabit habitsDb habit completedEntries = None ->
  exists e, In e completedEntries /\ populate habitsDb e = None.
Proof.
  induction completedEntries as [|e rest IH]; simpl; [discriminate|].
  destruct (populate habitsDb e) as [h|] eqn:Hpop.
  - destruct (Trends.countOfHabit habitsDb habit rest); [discriminate|].
    intros _. destruct (IH eq_refl) as (e' & Hin & He'). exists e'. auto.
  - intros _. exists e. auto.
Qed.

Lemma breakdown_none habitsDb habits completedEntries :
  Trends.breakdown habitsDb habits completedEntries = None ->
  exists e, In e completedEntries /\ populate habitsDb e = None.
Proof.
  unfold Trends.breakdown.
  assert (forall acc : option (gmap string CategoryCount.t),
            fold_left
              (fun (acc : option (gmap string CategoryCount.t)) habit =>
                 match acc with
                 | None => None
                 | Some categoryBreakdown =>
                     let category := categoryOrOther habit in
                     let slot :=
                       default (CategoryCount.mk 0 0) (categoryBreakdown !! category) in
                     match Trends.countOfHabit habitsDb habit completedEntries with
                     | None => None
                     | Some n =>
                         Some (<[category :=
                                   CategoryCount.mk (CategoryCount.total slot + 1)
                                     (CategoryCount.completed slot + n)]> categoryBreakdown)
                     end
                 end)
              habits acc = None ->
            acc = None
            \/ exists e, In e completedEntries /\ populate habitsDb e = None) as Hgen.
  { induction habits as [|h hs IH]; intros acc; simpl; [auto|].
    intros Hfold. destruct (IH _ Hfold) as [Hstep|Hex]; [|auto].
    destruct acc as [m|]; [|auto].
    destruct (Trends.countOfHabit habitsDb h completedEntries) eqn:Hc; [discriminate|].
    right. by apply (countOfHabit_none habitsDb h). }
  intros Hnone. destruct (Hgen _ Hnone) as [?|?]; [discriminate | assumption].
Qed.

Lemma bucket_cases habitsDb habits entries groupBy startDate endDate groupSize i :
  match Trends.bucket habitsDb habits entries groupBy startDate endDate groupSize i with
  | Some b =>
      Trend.totalEntries b
      = countIn entries (startDate + i * msPerDay)
          (Z.min (startDate + (i + groupSize) * msPerDay) endDate)
  | None => exists e, In e entries /\ populate habitsDb e = None
  end.
Proof.
  unfold Trends.bucket.
  replace (startDate + i * 24 * 60 * 60 * 1000) with (startDate + i * msPerDay)
    by (unfold msPerDay; lia).
  replace (startDate + i * msPerDay + groupSize * 24 * 60 * 60 * 1000)
    with (startDate + (i + groupSize) * msPerDay) by (unfold msPerDay; lia).
  destruct (Trends.breakdown _ _ _) as [cb|] eqn:Hb; [reflexivity|].
  destruct (breakdown_none _ _ _ Hb) as (e & Hin & Hpop).
  exists e. split; [|exact Hpop].
  apply filter_In in Hin as [Hin _]. unfold Trends.bucketEntries in Hin.
  by apply filter_In in Hin as [Hin _].
Qed.

(** The bucket loop from index [i] on: it ends, with buckets that count
    every entry dated from [startDate] to before [endDate] once, or with
    the exception of a reference that does not resolve. *)
Lemma bucketLoop_from habitsDb habits entries groupBy startDate days groupSize :
  1 <= groupSize ->
  forall fuel i ts,
    0 <= i ->
    (Z.to_nat (days - i) < fuel)%nat ->
    sumTotalEntries ts
    = countIn entries startDate
        (Z.min (startDate + i * msPerDay) (startDate + days * msPerDay)) ->
    match for_loop fuel
            (fun '(i, trends) => (i <? days) && bool_decide (is_Some trends))
            (bucketStep habitsDb habits entries groupBy startDate
               (startDate + days * msPerDay) groupSize)
            (i, Some ts) with
    | Some (_, Some ts') =>
        sumTotalEntries ts'
        = countIn entries startDate (startDate + days * msPerDay)
    | Some (_, None) => exists e, In e entries /\ populate habitsDb e = None
    | None => False
    end.
Proof.
  intros Hg. pose proof msPerDay_pos as HD.
  induction fuel as [|fuel IH]; intros i ts Hi Hfuel Hsum; [lia|].
  cbn [for_loop].
  destruct (Z.ltb_spec i days) as [Hlt|Hge]; cbn [andb].
  - rewrite bool_decide_eq_true_2 by eauto.
    cbn [bucketStep].
    pose proof (bucket_cases habitsDb habits entries groupBy startDate
                  (startDate + days * msPerDay) groupSize i) as Hb.
    destruct (Trends.bucket _ _ _ _ _ _ _ i) as [b|].
    + apply IH; [lia | lia |].
      rewrite sumTotalEntries_snoc, Hsum, Hb.
      apply countIn_adjacent; nia.
    + destruct fuel as [|fuel]; [lia|]. cbn [for_loop].
      rewrite andb_false_r. exact Hb.
  - rewrite Hsum. f_equal. nia.
Qed.

Lemma periodDays_range period : 7 <= Trends.periodDays period <= 365.
Proof.
  unfold Trends.periodDays.
  repeat (destruct (String.eqb period _); [lia|]). lia.
Qed.

Lemma groupSizeOf_range groupBy : 1 <= Trends.groupSizeOf groupBy <= 30.
Proof.
  unfold Trends.groupSizeOf.
  repeat (destruct (String.eqb groupBy _); [lia|]). lia.
Qed.

Lemma countIn_window entriesDb user startDate endDate :
  countIn (Trends.windowEntries entriesDb user startDate endDate) startDate endDate
  = Z.of_nat
      (length (datedBefore (Trends.windowEntries entriesDb user startDate endDate)
                 endDate)).
Proof.
  unfold countIn, Trends.bucketEntries, datedBefore. do 2 f_equal.
  apply filter_ext_in. intros e He.
  unfold Trends.windowEntries in He. apply filter_In in He as [_ He].
  apply andb_true_iff in He as [He _]. apply andb_true_iff in He as [_ He].
  by rewrite He.
Qed.

(** C6.  Given fuel for the at most 365 rounds of the loop, the trends
    route answers with buckets whose [totalEntries] add up to the number
    of window records dated strictly before [endDate] (or fails on a
    reference that does not resolve), so a record dated exactly [endDate]
    is found by the query and counted by no bucket.  At a request with
    [period=week] and [groupBy=day] served at a midnight, with one record
    dated at that very time, the window holds 1 record and the 7 buckets
    add up to 0. *)
Theorem trends_drop_record_at_endDate :
  (forall fuel now habitsDb entriesDb user periodQ groupByQ,
     (365 < fuel)%nat ->
     let days := Trends.periodDays (default "month" periodQ) in
     let window :=
       Trends.windowEntries entriesDb user (now - days * msPerDay) now in
     match Trends.handler fuel now habitsDb entriesDb user periodQ groupByQ with
     | Some (Json r) =>
         sumTotalEntries (Trends.trends r)
         = Z.of_nat (length (datedBefore window now))
     | Some Status500 => exists e, In e window /\ populate habitsDb e = None
     | _ => False
     end)
  /\ length (Trends.windowEntries recordAtMidnight 1%N (midnight - 7 * msPerDay) midnight)
     = 1%nat
  /\ match Trends.handler 20 midnight [habit7] recordAtMidnight 1%N
             (Some "week") (Some "day") with
     | Some (Json r) =>
         length (Trends.trends r) = 7%nat
         /\ sumTotalEntries (Trends.trends r) = 0
     | _ => False
     end.
Proof.
  split; [|split; [reflexivity | vm_compute; split; reflexivity]].
  intros fuel now habitsDb entriesDb user periodQ groupByQ Hfuel days window.
  pose proof (periodDays_range (default "month" periodQ)) as Hdays. fold days in Hdays.
  pose proof (groupSizeOf_range (default "week" groupByQ)) as [Hg _].
  unfold Trends.handler, Trends.bucketLoop. fold days.
  replace (now - days * 24 * 60 * 60 * 1000) with (now - days * msPerDay)
    by (unfold msPerDay; lia).
  fold window.
  pose proof (bucketLoop_from habitsDb (activeHabits habitsDb user) window
                (default "week" groupByQ) (now - days * msPerDay) days
                (Trends.groupSizeOf (default "week" groupByQ)) Hg fuel 0 []) as Hloop.
  replace (now - days * msPerDay + days * msPerDay) with now in Hloop by lia.
  destruct (for_loop fuel _ _ (0, Some [])) as [[i [trends|]]|];
    [| |]; cbn [Trends.trends].
  - unfold window at 1. rewrite <- countIn_window. fold window.
    apply Hloop; [lia | lia |].
    rewrite countIn_empty; [reflexivity | pose proof msPerDay_pos; nia].
  - apply Hloop; [lia | lia |].
    rewrite countIn_empty; [reflexivity | pose proof msPerDay_pos; nia].
  - apply Hloop; [lia | lia |].
    rewrite countIn_empty; [reflexivity | pose proof msPerDay_pos; nia].
Qed.

End TrendFacts.

(** ** The heatmap *)

Section HeatmapFacts.

Lemma DayFromYear_succ y : DayFromYear (y + 1) = DayFromYear y + DaysInYear y.
Proof.
  unfold DayFromYear, DaysInYear, InLeapYear.
  destruct (Z.eqb_spec (y mod 4) 0) as [H4|H4];
    destruct (Z.eqb_spec (y mod 100) 0) as [H100|H100];
    destruct (Z.eqb_spec (y mod 400) 0) as [H400|H400]; cbn [negb];
    Z.to_euclidean_division_equations; lia.
Qed.

Lemma DaysInYear_cases y : DaysInYear y = 365 \/ DaysInYear y = 366.
Proof. unfold DaysInYear. destruct (InLeapYear y); auto. Qed.

Lemma first_day_of_year y : MakeDay y 0 1 = DayFromYear y.
Proof.
  unfold MakeDay. change (0 / 12) with 0. change (0 mod 12) with 0.
  change (monthStart (InLeapYear (y + 0)) 0) with 0.
  rewrite !Z.add_0_r. lia.
Qed.

Lemma last_day_of_year y : MakeDay y 11 31 = DayFromYear y + DaysInYear y - 1.
Proof.
  unfold MakeDay, DaysInYear. change (11 / 12) with 0. change (11 mod 12) with 11.
  replace (y + 0) with y by lia.
  destruct (InLeapYear y);
    [change (monthStart true 11) with 335 | change (monthStart false 11) with 334];
    lia.
Qed.

Lemma DayFromYear_range y :
  -271820 <= y <= 275759 ->
  -100000000 <= DayFromYear y /\ DayFromYear y + 366 <= 100000000.
Proof.
  intros Hy. unfold DayFromYear. Z.to_euclidean_division_equations. lia.
Qed.

Lemma fullYear_range year :
  -271820 <= year <= 275759 -> -271820 <= fullYear year <= 275759.
Proof.
  intros Hy. unfold fullYear.
  destruct (Z.leb_spec 0 year), (Z.leb_spec year 99); simpl; lia.
Qed.

Lemma newDate_year_bounds year :
  -271820 <= year <= 275759 ->
  newDate year 0 1 = Some (DayFromYear (fullYear year) * msPerDay)
  /\ newDate year 11 31
     = Some ((DayFromYear (fullYear year) + DaysInYear (fullYear year) - 1) * msPerDay).
Proof.
  intros Hy. apply fullYear_range in Hy.
  pose proof (DayFromYear_range _ Hy) as [Hlo Hhi].
  pose proof (DaysInYear_cases (fullYear year)) as Hn.
  unfold newDate. rewrite first_day_of_year, last_day_of_year.
  unfold TimeClip, msPerDay.
  split.
  - destruct (Z.leb_spec (Z.abs (DayFromYear (fullYear year) * (24 * 60 * 60 * 1000)))
                8640000000000000); [reflexivity | lia].
  - destruct (Z.leb_spec
                (Z.abs ((DayFromYear (fullYear year) + DaysInYear (fullYear year) - 1)
                        * (24 * 60 * 60 * 1000)))
                8640000000000000); [reflexivity | lia].
Qed.

(** A loop whose test holds for the first [k] states and fails on the
    next one ends there, given more than [k] units of fuel. *)
Lemma for_loop_iter {St} (cond : St -> bool) (body : St -> St) (k : nat) :
  forall (fuel : nat) (s : St),
    (k < fuel)%nat ->
    (forall i, (i < k)%nat -> cond (Nat.iter i body s) = true) ->
    cond (Nat.iter k body s) = false ->
    for_loop fuel cond body s = Some (Nat.iter k body s).
Proof.
  induction k as [|k IH]; intros fuel s Hfuel Htrue Hfalse.
  - destruct fuel as [|fuel]; [lia|]. simpl in *. by rewrite Hfalse.
  - destruct fuel as [|fuel]; [lia|].
    pose proof (Htrue 0%nat ltac:(lia)) as H0. simpl in H0.
    cbn [for_loop]. rewrite H0, Nat.iter_succ_r.
    apply IH; [lia| |].
    + intros i Hi. rewrite <- Nat.iter_succ_r. apply Htrue. lia.
    + by rewrite <- Nat.iter_succ_r.
Qed.

Lemma initStep_iter habitCount d k :
  let st := Nat.iter k (initStep habitCount) (d, ∅) in
  fst st = d + Z.of_nat k * msPerDay
  /\ (forall x, snd st !! x
                = if decide (Day d <= x < Day d + Z.of_nat k)
                  then Some (Heatmap.zeroCell habitCount x) else None)
  /\ size (snd st) = k.
Proof.
  induction k as [|k (IHd & IHm & IHs)].
  - simpl. split; [lia|]. split; [|apply map_size_empty].
    intros x. rewrite lookup_empty. case_decide; [lia | reflexivity].
  - rewrite Nat.iter_succ.
    destruct (Nat.iter k (initStep habitCount) (d, ∅)) as [dk mk] eqn:Hk.
    simpl in *. subst dk.
    replace (d + Z.of_nat k * msPerDay) with (d + Z.of_nat k * msPerDay) by lia.
    rewrite Day_shift.
    split; [lia|]. split.
    + intros x. destruct (Z.eq_dec x (Day d + Z.of_nat k)) as [->|Hne].
      * rewrite lookup_insert_eq. case_decide; [reflexivity | lia].
      * rewrite lookup_insert_ne by lia. rewrite IHm.
        repeat case_decide; try reflexivity; lia.
    + rewrite map_size_insert_None; [by rewrite IHs|].
      rewrite IHm. case_decide; [lia | reflexivity].
Qed.

(** The initialisation loop over the days [first .. first + count - 1]
    ends with one zero cell per day. *)
Lemma initDates_days fuel habitCount first count :
  (count < fuel)%nat -> (0 < count)%nat ->
  exists d heatmapData,
    Heatmap.initDates fuel habitCount (first * msPerDay)
      ((first + Z.of_nat count - 1) * msPerDay) = Some (d, heatmapData)
    /\ (forall x, heatmapData !! x
                  = if decide (first <= x < first + Z.of_nat count)
                    then Some (Heatmap.zeroCell habitCount x) else None)
    /\ size heatmapData = count.
Proof.
  intros Hfuel Hpos. pose proof msPerDay_pos as HD.
  pose proof (initStep_iter habitCount (first * msPerDay)) as Hiter.
  assert (Day (first * msPerDay) = first) as HDay.
  { unfold Day. apply Z.div_mul. lia. }
  destruct (Nat.iter count (initStep habitCount) (first * msPerDay, ∅))
    as [d heatmapData] eqn:Hend.
  exists d, heatmapData.
  destruct (Hiter count) as (Hd & Hm & Hs). rewrite Hend in Hd, Hm, Hs. simpl in *.
  rewrite HDay in Hm.
  split; [|split; [exact Hm | exact Hs]].
  unfold Heatmap.initDates. rewrite <- Hend.
  apply (for_loop_iter _ (initStep habitCount) count); [exact Hfuel| |].
  - intros i Hi. destruct (Hiter i) as (Hdi & _ & _).
    destruct (Nat.iter i (initStep habitCount) (first * msPerDay, ∅)) as [di mi].
    simpl in *. subst di. apply Z.leb_le. nia.
  - rewrite Hend. rewrite Hd. apply Z.leb_gt. nia.
Qed.

Lemma sameFrame_refl m : sameFrame m m.
Proof. intros k. destruct (m !! k); auto. Qed.

Lemma sameFrame_trans m1 m2 m3 :
  sameFrame m1 m2 -> sameFrame m2 m3 -> sameFrame m1 m3.
Proof.
  intros H12 H23 k. specialize (H12 k). specialize (H23 k).
  destruct (m1 !! k), (m2 !! k), (m3 !! k); try tauto.
  destruct H12, H23. split; congruence.
Qed.

Lemma fillEntry_frame habitsDb m entry :
  match Heatmap.fillEntry habitsDb m entry with
  | Some m' => sameFrame m m'
  | None => populate habitsDb entry = None
  end.
Proof.
  unfold Heatmap.fillEntry.
  destruct (m !! Day (TrackingEntry.date entry)) as [cell|] eqn:Hcell;
    [|apply sameFrame_refl].
  destruct (populate habitsDb entry) as [h|]; [|reflexivity].
  intros k. destruct (Z.eq_dec k (Day (TrackingEntry.date entry))) as [->|Hne].
  - rewrite Hcell, lookup_insert_eq. simpl. auto.
  - rewrite lookup_insert_ne by congruence. destruct (m !! k); auto.
Qed.

Lemma fillEntries_none habitsDb entries :
  fold_left
    (fun acc entry =>
       match acc with
       | Some m => Heatmap.fillEntry habitsDb m entry
       | None => None
       end)
    entries None = None.
Proof. induction entries as [|e rest IH]; simpl; [reflexivity | exact IH]. Qed.

Lemma fillEntries_frame habitsDb entries : forall m,
  match Heatmap.fillEntries habitsDb entries m with
  | Some m' => sameFrame m m'
  | None => exists e, In e entries /\ populate habitsDb e = None
  end.
Proof.
  unfold Heatmap.fillEntries.
  induction entries as [|e rest IH]; intros m; simpl; [apply sameFrame_refl|].
  pose proof (fillEntry_frame habitsDb m e) as He.
  destruct (Heatmap.fillEntry habitsDb m e) as [m1|].
  - specialize (IH m1).
    destruct (fold_left _ rest (Some m1)) as [m'|].
    + eapply sameFrame_trans; eassumption.
    + destruct IH as (e' & Hin & Hpop). exists e'. split; [by right | exact Hpop].
  - rewrite fillEntries_none. exists e. split; [by left | exact He].
Qed.

Lemma sameFrame_size m m' : sameFrame m m' -> size m' = size m.
Proof.
  intros Hf. rewrite <- !size_dom. f_equal. apply set_eq. intros k.
  rewrite !elem_of_dom. specialize (Hf k).
  destruct (m !! k), (m' !! k); try tauto; split; intros [? ?]; eauto; discriminate.
Qed.

(** C1 (as amended).  For a year whose dates a [Date] can hold, read as
    the [Date] constructor reads it (0 to 99 stand for 1900 to 1999):
    with no active habit the heatmap is empty; with at least one, the
    initialisation loop writes one zero cell for each day of the year, and
    the answer, given unless a found entry refers to no habit, keeps
    exactly those keys: 365 cells, 366 in a leap year, one for each day
    from 1 January up to 1 January of the next year, each with its own
    date and the number of active habits, and all of them zero cells when
    the year has no record. *)
Theorem heatmap_one_cell_per_day (fuel : nat) (habitsDb : list Habit.t)
    (entriesDb : list TrackingEntry.t) (user : ObjectId) (year : Z) :
  -271820 <= year <= 275759 ->
  (366 < fuel)%nat ->
  let habits := activeHabits habitsDb user in
  let habitCount := Z.of_nat (length habits) in
  let first := DayFromYear (fullYear year) in
  let next := DayFromYear (fullYear year + 1) in
  next = first + (if InLeapYear (fullYear year) then 366 else 365)
  /\ (habits = [] ->
      Heatmap.handler fuel habitsDb entriesDb user year
      = Some (Json (Heatmap.mk ∅ [] year)))
  /\ (habits <> [] ->
      (exists d zeros,
         Heatmap.initDates fuel habitCount (first * msPerDay)
           ((next - 1) * msPerDay) = Some (d, zeros)
         /\ forall x, zeros !! x
                      = if decide (first <= x < next)
                        then Some (Heatmap.zeroCell habitCount x) else None)
      /\ match Heatmap.handler fuel habitsDb entriesDb user year with
         | Some (Json r) =>
             size (Heatmap.heatmapData r) = Z.to_nat (next - first)
             /\ (forall x, is_Some (Heatmap.heatmapData r !! x) <-> first <= x < next)
             /\ (forall x cell,
                   Heatmap.heatmapData r !! x = Some cell ->
                   HeatCell.date cell = x /\ HeatCell.totalHabits cell = habitCount)
             /\ (Heatmap.yearEntries entriesDb user (first * msPerDay)
                   ((next - 1) * msPerDay) = [] ->
                 forall x cell,
                   Heatmap.heatmapData r !! x = Some cell ->
                   cell = Heatmap.zeroCell habitCount x)
         | Some Status500 =>
             exists e,
               In e (Heatmap.yearEntries entriesDb user (first * msPerDay)
                       ((next - 1) * msPerDay))
               /\ populate habitsDb e = None
         | _ => False
         end).
Proof.
  intros Hyear Hfuel habits habitCount first next.
  assert (next = first + DaysInYear (fullYear year)) as Hnext
    by apply DayFromYear_succ.
  pose proof (DaysInYear_cases (fullYear year)) as Hcases.
  destruct (newDate_year_bounds year Hyear) as [Hstart Hend].
  fold first in Hstart, Hend.
  replace (first + DaysInYear (fullYear year) - 1) with (next - 1) in Hend by lia.
  split; [rewrite Hnext; reflexivity|].
  split.
  - intros Hnil. unfold Heatmap.handler. fold habits. rewrite Hnil. reflexivity.
  - intros Hne.
    destruct (initDates_days fuel habitCount first
                (Z.to_nat (DaysInYear (fullYear year))))
      as (d & zeros & Hinit & Hzeros & Hsize); [lia | lia |].
    replace (first + Z.of_nat (Z.to_nat (DaysInYear (fullYear year))) - 1)
      with (next - 1) in Hinit by lia.
    assert (forall x, zeros !! x
                      = if decide (first <= x < next)
                        then Some (Heatmap.zeroCell habitCount x) else None) as Hz.
    { intros x. rewrite Hzeros. repeat case_decide; try reflexivity; lia. }
    split; [exists d, zeros; split; [exact Hinit | exact Hz]|].
    unfold Heatmap.handler. fold habits. rewrite Hstart, Hend.
    destruct habits as [|h hs] eqn:Hhabits; [contradiction|].
    change (length (h :: hs) =? 0)%nat with false. cbv iota.
    fold habitCount. rewrite Hinit.
    pose proof (fillEntries_frame habitsDb
                  (Heatmap.yearEntries entriesDb user (first * msPerDay)
                     ((next - 1) * msPerDay)) zeros) as Hfill.
    destruct (Heatmap.fillEntries _ _ zeros) as [filled|] eqn:Hfilled; [|exact Hfill].
    simpl. split; [|split; [|split]].
    + rewrite (sameFrame_size _ _ Hfill), Hsize. f_equal. lia.
    + intros x. specialize (Hfill x). rewrite Hz in Hfill.
      case_decide; destruct (filled !! x); try tauto.
      * split; [tauto | eauto].
      * split; [intros [? ?]; discriminate | lia].
    + intros x cell Hx. specialize (Hfill x). rewrite Hz, Hx in Hfill.
      case_decide; [|tauto]. exact Hfill.
    + intros Hnone x cell Hx. rewrite Hnone in Hfilled.
      injection Hfilled as <-. rewrite Hz in Hx.
      case_decide; congruence.
Qed.

(** The theorem at the leap year 2024, for ten habits with records in
    that year. *)
Lemma heatmap_one_cell_per_day_witness :
  match Heatmap.handler 400 tenHabits (halfCompleted 1720000000000) 1%N 2024 with
  | Some (Json r) => size (Heatmap.heatmapData r) = 366%nat
  | _ => False
  end.
Proof.
  pose proof (heatmap_one_cell_per_day 400 tenHabits (halfCompleted 1720000000000)
                1%N 2024 ltac:(lia) ltac:(lia)) as H.
  destruct H as (_ & _ & H).
  destruct (H ltac:(discriminate)) as [_ Hr].
  destruct (Heatmap.handler 400 tenHabits (halfCompleted 1720000000000) 1%N 2024)
    as [[r| |]|] eqn:E; try exact Hr.
  - exact (proj1 Hr).
  - vm_compute in E. discriminate E.
Defined.

(** C1 as stated fails for a user without active habits: the heatmap of
    the leap year 2024 is then the empty object, not 366 cells. *)
Lemma heatmap_empty_without_habits :
  exists r,
    Heatmap.handler 400 [] (halfCompleted 1700000000000) 1%N 2024 = Some (Json r)
    /\ size (Heatmap.heatmapData r) = 0%nat
    /\ InLeapYear 2024 = true.
Proof. eexists. split; [reflexivity|]. split; reflexivity. Qed.

End HeatmapFacts.

(** * Further properties of the routers *)

(** ** Rates of the statics *)

Section StaticRates.

Lemma ratio_bounds (c t : Z) :
  0 <= c <= t -> 0 < t -> (0 <= inject_Z c / inject_Z t <= 1)%Q.
Proof.
  intros [Hc Hct] Ht.
  assert (0 < inject_Z t)%Q as Hpos by (unfold Qlt; simpl; lia).
  split.
  - apply Qle_shift_div_l; [exact Hpos|]. rewrite Qmult_0_l.
    unfold Qle. simpl. lia.
  - apply Qle_shift_div_r; [exact Hpos|]. rewrite Qmult_1_l.
    unfold Qle. simpl. lia.
Qed.

Lemma Math_round_percent (x : Q) :
  (0 <= x <= 100)%Q -> 0 <= Math_round x <= 100.
Proof.
  intros [H0 H100]. unfold Math_round. split.
  - change 0 with (Qfloor (0 + (1 # 2))). apply Qfloor_resp_le.
    apply Qplus_le_compat; [exact H0 | apply Qle_refl].
  - change 100 with (Qfloor (100 + (1 # 2))). apply Qfloor_resp_le.
    apply Qplus_le_compat; [exact H100 | apply Qle_refl].
Qed.

Lemma times_100 (x : Q) : (0 <= x <= 1)%Q -> (0 <= x * 100 <= 100)%Q.
Proof.
  intros [H0 H1]. split.
  - apply Qmult_le_0_compat; [exact H0 | discriminate].
  - apply Qle_trans with (1 * 100)%Q; [|discriminate].
    apply Qmult_le_compat_r; [exact H1 | discriminate].
Qed.

Lemma percent_bounds (c t : Z) :
  0 <= c <= t -> 0 < t -> (0 <= inject_Z c / inject_Z t * 100 <= 100)%Q.
Proof. intros Hc Ht. apply times_100, ratio_bounds; assumption. Qed.

Lemma completed_le_length (entries : list TrackingEntry.t) :
  0 <= Z.of_nat (length (List.filter TrackingEntry.completed entries))
  <= Z.of_nat (length entries).
Proof.
  split; [lia|]. apply inj_le.
  induction entries as [|e rest IH]; simpl; [lia|].
  destruct (TrackingEntry.completed e); simpl; lia.
Qed.

Lemma getCompletionRate_range db hid startDate endDate :
  (0 <= TrackingEntry.getCompletionRate db hid startDate endDate <= 1)%Q.
Proof.
  unfold TrackingEntry.getCompletionRate.
  destruct (List.filter _ db) as [|e matched] eqn:Hm; [split; discriminate|].
  destruct (Z.eqb_spec (Z.of_nat (length (e :: matched))) 0) as [Hz|Hnz];
    [split; discriminate|].
  apply ratio_bounds; [apply completed_le_length | simpl; lia].
Qed.

(** X1.  The static [getCompletionRate] is the share of completed entries
    among the habit's entries dated from [startDate] to [endDate], both
    included; it is 0 when there is no such entry and always lies between
    0 and 1, so the percentage [GET /api/habits] shows is between 0 and
    100. *)
Theorem getCompletionRate_is_a_share (now : Z) (db : list TrackingEntry.t)
    (habit : Habit.t) (hid : ObjectId) (startDate endDate : Z) :
  let found :=
    List.filter
      (fun e => (startDate <=? TrackingEntry.date e)
                && (TrackingEntry.date e <=? endDate))
      (recordsOfHabit db hid) in
  (found = [] -> TrackingEntry.getCompletionRate db hid startDate endDate = 0%Q)
  /\ (found <> [] ->
      TrackingEntry.getCompletionRate db hid startDate endDate
      = (inject_Z (countCompleted found) / inject_Z (Z.of_nat (length found)))%Q)
  /\ (0 <= TrackingEntry.getCompletionRate db hid startDate endDate <= 1)%Q
  /\ 0 <= HabitStats.completionRate (HabitStats.ofHabit now db habit) <= 100
  /\ 0 <= HabitStats.currentStreak (HabitStats.ofHabit now db habit) <= 100.
Proof.
  intros found.
  assert (List.filter
            (fun e => (TrackingEntry.habitId e =? hid)%N
                      && (startDate <=? TrackingEntry.date e)
                      && (TrackingEntry.date e <=? endDate)) db = found) as Hfound.
  { subst found. unfold recordsOfHabit.
    induction db as [|e db IH]; simpl; [reflexivity|].
    destruct (TrackingEntry.habitId e =? hid)%N; simpl; [|exact IH].
    destruct ((startDate <=? TrackingEntry.date e)
              && (TrackingEntry.date e <=? endDate)); simpl; by rewrite IH. }
  split; [|split; [|split; [|split]]].
  - intros Hnil. unfold TrackingEntry.getCompletionRate. by rewrite Hfound, Hnil.
  - intros Hne. unfold TrackingEntry.getCompletionRate. rewrite Hfound.
    destruct found as [|e rest]; [contradiction|].
    destruct (Z.eqb_spec (Z.of_nat (length (e :: rest))) 0); [simpl in *; lia|].
    reflexivity.
  - apply getCompletionRate_range.
  - unfold HabitStats.ofHabit. cbn [HabitStats.completionRate].
    apply Math_round_percent, times_100, getCompletionRate_range.
  - unfold HabitStats.ofHabit. cbn [HabitStats.currentStreak].
    pose proof (getCurrentStreak_le_recent now db (Habit._id habit)).
    pose proof (recentCompleted_length db (Habit._id habit)). lia.
Qed.

(** X2.  The static [getHabitAnalytics] reports the rate that
    [getCompletionRate] gives for the same window; its completed days
    never exceed its total days, and with no entry in the window every
    count is 0 and every average is absent. *)
Theorem getHabitAnalytics_agrees (now : Z) (db : list TrackingEntry.t)
    (hid : ObjectId) (days : Z) :
  let a := TrackingEntry.getHabitAnalytics now db hid days in
  TrackingEntry.completionRate a
  = TrackingEntry.getCompletionRate db hid (now - days * 24 * 60 * 60 * 1000) now
  /\ 0 <= TrackingEntry.completedDays a <= TrackingEntry.totalDays a
  /\ TrackingEntry.currentStreak a = TrackingEntry.getCurrentStreak now db hid
  /\ (TrackingEntry.totalDays a = 0 ->
      TrackingEntry.completedDays a = 0
      /\ TrackingEntry.averageMood a = None
      /\ TrackingEntry.averageDifficulty a = None
      /\ TrackingEntry.totalValue a = None
      /\ TrackingEntry.completionRate a = 0%Q).
Proof.
  unfold TrackingEntry.getHabitAnalytics, TrackingEntry.getCompletionRate.
  destruct (List.filter _ db) as [|e matched] eqn:Hm; simpl.
  - repeat split; try reflexivity; lia.
  - split; [reflexivity|]. split.
    + pose proof (completed_le_length (e :: matched)) as H. simpl in H. lia.
    + split; [reflexivity|]. lia.
Qed.

End StaticRates.

(** ** The longest streak of the habit route *)

Section LongestRun.

Lemma runState_snoc entries e :
  runState (entries ++ [e])
  = let '(longestStreak, tempStreak) := runState entries in
    if TrackingEntry.completed e
    then (Z.max longestStreak (tempStreak + 1), tempStreak + 1)
    else (longestStreak, 0).
Proof.
  unfold runState. rewrite fold_left_app. simpl.
  by destruct (fold_left _ entries (0, 0)).
Qed.

Lemma allCompleted_app l1 l2 :
  allCompleted (l1 ++ l2) <-> allCompleted l1 /\ allCompleted l2.
Proof. unfold allCompleted. rewrite forallb_app. apply andb_true_iff. Qed.

Lemma snoc_split {A} (l : list A) : l = [] \/ exists l' x, l = l' ++ [x].
Proof.
  destruct l as [|y l]; [by left | right].
  destruct (exists_last (l := y :: l) ltac:(discriminate)) as (l' & x & ->).
  eauto.
Qed.

(** After any prefix of the loop: [tempStreak] is the length of the
    longest completed run that ends the prefix, [longestStreak] that of
    the longest completed run anywhere in it. *)
Lemma runState_spec entries :
  let '(longestStreak, tempStreak) := runState entries in
  0 <= tempStreak <= longestStreak
  /\ (exists pre suf,
        entries = pre ++ suf /\ allCompleted suf
        /\ Z.of_nat (length suf) = tempStreak)
  /\ (forall pre suf,
        entries = pre ++ suf -> allCompleted suf ->
        Z.of_nat (length suf) <= tempStreak)
  /\ (exists block,
        isBlock block entries /\ allCompleted block
        /\ Z.of_nat (length block) = longestStreak)
  /\ (forall block,
        isBlock block entries -> allCompleted block ->
        Z.of_nat (length block) <= longestStreak).
Proof.
  induction entries as [|e entries IH] using rev_ind.
  - simpl. split; [lia|]. split; [exists [], []; by repeat split|].
    split.
    { intros pre suf Heq _. symmetry in Heq. apply app_eq_nil in Heq as [_ ->].
      simpl. lia. }
    split; [exists []; split; [by exists [], [] | by split]|].
    intros block (pre & post & Heq) _. symmetry in Heq.
    apply app_eq_nil in Heq as [_ Heq]. apply app_eq_nil in Heq as [-> _].
    simpl. lia.
  - rewrite runState_snoc.
    destruct (runState entries) as [longest temp].
    destruct IH as (Hb & (pre0 & suf0 & Heq0 & Hall0 & Hlen0) & Hsuf
                    & (block0 & (bpre & bpost & Hbeq) & Hball & Hblen) & Hblocks).
    assert (forall pre suf,
              entries ++ [e] = pre ++ suf ->
              suf = [] \/ exists suf', suf = suf' ++ [e] /\ entries = pre ++ suf')
      as Hsplit.
    { intros pre suf Heq. destruct (snoc_split suf) as [->|(suf' & x & ->)];
        [by left | right].
      rewrite app_assoc in Heq. apply app_inj_tail in Heq as [Heq ->].
      exists suf'. by split. }
    destruct (TrackingEntry.completed e) eqn:He.
    + split; [lia|]. split.
      { exists pre0, (suf0 ++ [e]). rewrite app_assoc, <- Heq0.
        split; [reflexivity|]. split.
        - apply allCompleted_app. split; [exact Hall0|].
          unfold allCompleted. simpl. by rewrite He.
        - rewrite length_app. simpl. lia. }
      assert (forall pre suf,
                entries ++ [e] = pre ++ suf -> allCompleted suf ->
                Z.of_nat (length suf) <= temp + 1) as Hsuf'.
      { intros pre suf Heq Hall.
        destruct (Hsplit pre suf Heq) as [->|(suf' & -> & Hentries)]; [simpl; lia|].
        apply allCompleted_app in Hall as [Hall _].
        specialize (Hsuf pre suf' Hentries Hall).
        rewrite length_app. simpl. lia. }
      split; [exact Hsuf'|]. split.
      { destruct (Z.max_spec longest (temp + 1)) as [[Hlt ->]|[Hge ->]].
        - exists (suf0 ++ [e]). split; [|split].
          + exists pre0, []. rewrite app_nil_r, app_assoc, <- Heq0. reflexivity.
          + apply allCompleted_app. split; [exact Hall0|].
            unfold allCompleted. simpl. by rewrite He.
          + rewrite length_app. simpl. lia.
        - exists block0. split; [|by split].
          exists bpre, (bpost ++ [e]). rewrite Hbeq, <- !app_assoc. reflexivity. }
      intros block (pre & post & Heq) Hall.
      destruct (snoc_split post) as [->|(post' & x & ->)].
      * rewrite app_nil_r in Heq. specialize (Hsuf' pre block Heq Hall). lia.
      * rewrite !app_assoc in Heq. apply app_inj_tail in Heq as [Heq _].
        rewrite <- app_assoc in Heq.
        assert (Z.of_nat (length block) <= longest)
          by (apply Hblocks; [by exists pre, post' | exact Hall]).
        lia.
    + split; [lia|]. split; [exists (entries ++ [e]), []; rewrite app_nil_r; by repeat split|].
      assert (forall pre suf,
                entries ++ [e] = pre ++ suf -> allCompleted suf ->
                Z.of_nat (length suf) <= 0) as Hsuf'.
      { intros pre suf Heq Hall.
        destruct (Hsplit pre suf Heq) as [->|(suf' & -> & _)]; [simpl; lia|].
        apply allCompleted_app in Hall as [_ Hall].
        unfold allCompleted in Hall. simpl in Hall. rewrite He in Hall. discriminate. }
      split; [exact Hsuf'|]. split.
      { exists block0. split; [|by split].
        exists bpre, (bpost ++ [e]). rewrite Hbeq, <- !app_assoc. reflexivity. }
      intros block (pre & post & Heq) Hall.
      destruct (snoc_split post) as [->|(post' & x & ->)].
      * rewrite app_nil_r in Heq. specialize (Hsuf' pre block Heq Hall). lia.
      * rewrite !app_assoc in Heq. apply app_inj_tail in Heq as [Heq _].
        rewrite <- app_assoc in Heq.
        apply Hblocks; [by exists pre, post' | exact Hall].
Qed.

(** X3.  The [longestStreak] of the habit route is the length of the
    longest run of consecutive completed entries of the window, in the
    order of the query: some run of completed entries has that length and
    none is longer.  It is counted in entries, not in days: it lies
    between 0 and the number of completed entries, and is 0 exactly when
    no entry is completed. *)
Theorem longestRun_is_longest_block (entries : list TrackingEntry.t) :
  (exists block,
     isBlock block entries /\ allCompleted block
     /\ Z.of_nat (length block) = HabitRoute.longestRun entries)
  /\ (forall block,
        isBlock block entries -> allCompleted block ->
        Z.of_nat (length block) <= HabitRoute.longestRun entries)
  /\ 0 <= HabitRoute.longestRun entries <= countCompleted entries
  /\ (HabitRoute.longestRun entries = 0
      <-> existsb TrackingEntry.completed entries = false).
Proof.
  pose proof (runState_spec entries) as Hspec.
  change (HabitRoute.longestRun entries) with (fst (runState entries)).
  destruct (runState entries) as [longest temp]. simpl.
  destruct Hspec as (Hb & _ & _ & (block & Hblock & Hall & Hlen) & Hmax).
  split; [by exists block|]. split; [exact Hmax|].
  assert (Z.of_nat (length block) <= countCompleted entries) as Hcount.
  { destruct Hblock as (pre & post & ->). unfold countCompleted.
    rewrite !List.filter_app, !length_app.
    assert (List.filter TrackingEntry.completed block = block) as ->; [|lia].
    clear -Hall. unfold allCompleted in Hall.
    induction block as [|e b IH]; simpl in *; [reflexivity|].
    apply andb_true_iff in Hall as [-> Hall]. by rewrite IH. }
  split; [lia|]. split.
  - intros ->. apply not_true_is_false. intros Hex.
    apply existsb_exists in Hex as (e & Hin & He).
    apply in_split in Hin as (l1 & l2 & ->).
    assert (Z.of_nat (length [e]) <= 0) as Hone; [|simpl in Hone; lia].
    apply Hmax; [by exists l1, l2|]. unfold allCompleted. simpl. by rewrite He.
  - intros Hnone.
    destruct block as [|e b]; [simpl in Hlen; lia|].
    destruct Hblock as (pre & post & ->).
    unfold allCompleted in Hall. simpl in Hall. apply andb_true_iff in Hall as [He _].
    rewrite existsb_app in Hnone. simpl in Hnone. rewrite He in Hnone.
    rewrite orb_true_r in Hnone. discriminate.
Qed.

End LongestRun.

(** ** Predictions and insights, the other rules *)

Section MoreInsights.



Lemma filter_one {A} (f : A -> bool) (x : A) :
  List.filter f [x] = if f x then [x] else [].
Proof. reflexivity. Qed.

(** X8.  Besides the completion-rate message the list holds at most two
    insights, after it and in this order: for the streak, the success
    message from 7 days on, the invitation to start at 0 and nothing from
    1 to 6; then the consistency message, exactly when more than four
    fifths of the last 7 entries of the window (all of them when there
    are fewer) are completed, which an empty window never fulfils. *)
Theorem streak_and_consistency_rules (entries : list TrackingEntry.t)
    (habit : Habit.t) (completionRate : Q) (currentStreak : Z) :
  let insights := generateInsights entries habit completionRate currentStreak in
  let recent := slice_last 7 entries in
  let recentCompletions := countCompleted recent in
  let recentCount := Z.of_nat (length recent) in
  (length insights <= 3)%nat
  /\ insights
     = rateInsights insights ++ List.filter isStreakInsight insights
       ++ List.filter isConsistencyInsight insights
  /\ List.filter isStreakInsight insights
     = (if 7 <=? currentStreak then [streakInsight currentStreak]
        else if currentStreak =? 0 then [startInsight] else [])
  /\ List.filter isConsistencyInsight insights
     = (if 4 * recentCount <? 5 * recentCompletions
        then [consistentInsight recentCompletions recentCount] else [])
  /\ (length recent = Nat.min 7 (length entries))
  /\ (entries = [] -> List.filter isConsistencyInsight insights = []).
Proof.
  intros insights recent recentCompletions recentCount.
  assert (negb (Qle_bool (inject_Z recentCompletions) (inject_Z recentCount * (8 # 10)))
          = (4 * recentCount <? 5 * recentCompletions)) as Hrule.
  { apply eq_true_iff_eq. rewrite negb_true_iff, Qle_bool_false, Z.ltb_lt.
    unfold Qlt. simpl. lia. }
  assert (insights
          = (if Qle_bool 80 completionRate then [excellentInsight completionRate]
             else if Qle_bool 60 completionRate then [goodProgressInsight completionRate]
             else if negb (Qle_bool 40 completionRate) then [lowRateInsight completionRate]
             else [])
            ++ (if 7 <=? currentStreak then [streakInsight currentStreak]
                else if currentStreak =? 0 then [startInsight] else [])
            ++ (if 4 * recentCount <? 5 * recentCompletions
                then [consistentInsight recentCompletions recentCount] else []))
    as Hshape.
  { subst insights. unfold generateInsights.
    fold recent. fold recentCompletions. fold recentCount. rewrite Hrule.
    destruct (Qle_bool 80 completionRate);
      [|destruct (Qle_bool 60 completionRate);
        [|destruct (negb (Qle_bool 40 completionRate))]];
      (destruct (7 <=? currentStreak); [|destruct (currentStreak =? 0)]);
      destruct (4 * recentCount <? 5 * recentCompletions); reflexivity. }
  assert (length recent = Nat.min 7 (length entries)) as Hlen.
  { subst recent. unfold slice_last. rewrite length_skipn. lia. }
  assert (rateInsights insights
          = (if Qle_bool 80 completionRate then [excellentInsight completionRate]
             else if Qle_bool 60 completionRate then [goodProgressInsight completionRate]
             else if negb (Qle_bool 40 completionRate) then [lowRateInsight completionRate]
             else [])) as Hrate by apply rateInsights_generateInsights.
  assert (List.filter isStreakInsight insights
          = (if 7 <=? currentStreak then [streakInsight currentStreak]
             else if currentStreak =? 0 then [startInsight] else [])) as Hstreak.
  { rewrite Hshape, !List.filter_app.
    destruct (Qle_bool 80 completionRate);
      [|destruct (Qle_bool 60 completionRate);
        [|destruct (negb (Qle_bool 40 completionRate))]];
      (destruct (7 <=? currentStreak); [|destruct (currentStreak =? 0)]);
      destruct (4 * recentCount <? 5 * recentCompletions); reflexivity. }
  assert (List.filter isConsistencyInsight insights
          = (if 4 * recentCount <? 5 * recentCompletions
             then [consistentInsight recentCompletions recentCount] else [])) as Hcons.
  { rewrite Hshape, !List.filter_app.
    destruct (Qle_bool 80 completionRate);
      [|destruct (Qle_bool 60 completionRate);
        [|destruct (negb (Qle_bool 40 completionRate))]];
      (destruct (7 <=? currentStreak); [|destruct (currentStreak =? 0)]);
      destruct (4 * recentCount <? 5 * recentCompletions); reflexivity. }
  split.
  { rewrite Hshape, !length_app.
    destruct (Qle_bool 80 completionRate);
      [|destruct (Qle_bool 60 completionRate);
        [|destruct (negb (Qle_bool 40 completionRate))]];
      (destruct (7 <=? currentStreak); [|destruct (currentStreak =? 0)]);
      destruct (4 * recentCount <? 5 * recentCompletions); simpl; lia. }
  split; [rewrite Hrate, Hstreak, Hcons; exact Hshape|].
  split; [exact Hstreak|]. split; [exact Hcons|]. split; [exact Hlen|].
  intros ->. rewrite Hcons. reflexivity.
Qed.

Lemma sumGaps_telescope (dates : list Z) : forall (previous : Z) (totalGap : Q),
  (sumGaps previous dates totalGap
   == totalGap
      + inject_Z (lastDate dates previous - previous)
        / inject_Z (24 * 60 * 60 * 1000))%Q.
Proof.
  unfold lastDate.
  induction dates as [|d rest IH]; intros previous totalGap.
  - cbn [sumGaps List.last]. rewrite Z.sub_diag. unfold Qdiv.
    rewrite Qmult_0_l, Qplus_0_r. reflexivity.
  - cbn [sumGaps]. rewrite IH.
    assert (List.last (d :: rest) previous = List.last rest d) as ->.
    { clear. generalize previous. revert d.
      induction rest as [|x rest IHl]; intros d p; [reflexivity|].
      change (List.last (d :: x :: rest) p) with (List.last (x :: rest) p).
      by rewrite (IHl x p), (IHl x d). }
    unfold Zminus. rewrite !inject_Z_plus, !inject_Z_opp. unfold Qdiv. ring.
Qed.

(** X7.  [calculateAverageGap] is 0 with fewer than two completed
    entries; otherwise the gaps telescope: the average is the time from
    the first completed date to the last, in days, divided by the number
    of completed entries minus one. *)
Theorem calculateAverageGap_telescopes (entries : list TrackingEntry.t) :
  let completedDates :=
    map TrackingEntry.date (List.filter TrackingEntry.completed entries) in
  ((length completedDates < 2)%nat -> calculateAverageGap entries = 0%Q)
  /\ (forall first rest,
        completedDates = first :: rest -> rest <> [] ->
        (calculateAverageGap entries
         == inject_Z (lastDate rest first - first) / inject_Z msPerDay
            / inject_Z (Z.of_nat (length rest)))%Q).
Proof.
  intros completedDates. unfold calculateAverageGap. fold completedDates. split.
  - intros Hlt. apply Nat.ltb_lt in Hlt. by rewrite Hlt.
  - intros first rest Heq Hne. rewrite Heq.
    destruct rest as [|d rest']; [contradiction|].
    change (length (first :: d :: rest') <? 2)%nat with false. cbv iota.
    rewrite sumGaps_telescope, Qplus_0_l.
    replace (Z.of_nat (length (first :: d :: rest')) - 1)
      with (Z.of_nat (length (d :: rest'))) by (simpl length; lia).
    reflexivity.
Qed.

End MoreInsights.

(** ** The chart series of the habit route *)

Section ChartFacts.

Lemma dailyData_from entries endDate (n : nat) : forall (fuel : nat) acc,
  (n < fuel)%nat ->
  for_loop fuel
    (fun '(i, _) => 0 <=? i)
    (fun '(i, dailyData) =>
       (i - 1, dailyData ++ [Charts.dayDatum entries endDate i]))
    (Z.of_nat n - 1, acc)
  = Some (-1, acc ++ map (Charts.dayDatum entries endDate) (countdown n)).
Proof.
  induction n as [|n IH]; intros fuel acc Hfuel;
    (destruct fuel as [|fuel]; [lia|]); cbn [for_loop].
  - simpl. by rewrite app_nil_r.
  - destruct (Z.leb_spec 0 (Z.of_nat (S n) - 1)) as [_|Hneg]; [|lia].
    replace (Z.of_nat (S n) - 1 - 1) with (Z.of_nat n - 1) by lia.
    rewrite IH by lia. cbn [countdown map].
    replace (Z.of_nat (S n) - 1) with (Z.of_nat n) by lia.
    by rewrite <- app_assoc.
Qed.

Lemma countdown_nth (n k : nat) :
  (k < n)%nat -> nth_error (countdown n) k = Some (Z.of_nat n - 1 - Z.of_nat k).
Proof.
  revert k. induction n as [|n IH]; intros k Hk; [lia|].
  destruct k as [|k]; simpl.
  - f_equal. lia.
  - rewrite IH by lia. f_equal. lia.
Qed.

Lemma countdown_length n : length (countdown n) = n.
Proof. induction n as [|n IH]; simpl; [reflexivity | by rewrite IH]. Qed.

(** X5.  For [days >= 0] the [dailyData] series has exactly [days]
    points, one per calendar day from [days - 1] days ago up to today, in
    that order.  A point is completed only if the window has a completed
    entry on its day, and a day without any entry gives a point that is
    not completed and has no value, mood or difficulty. *)
Theorem dailyData_one_point_per_day (fuel : nat) (entries : list TrackingEntry.t)
    (now days : Z) :
  0 <= days ->
  (Z.to_nat days < fuel)%nat ->
  exists data,
    Charts.dailyData fuel entries now days = Some (-1, data)
    /\ Z.of_nat (length data) = days
    /\ forall k point,
         nth_error data k = Some point ->
         DailyDatum.date point = Day now - (days - 1 - Z.of_nat k)
         /\ (DailyDatum.completed point = true ->
             completedOn entries
               (setHours0 now - (days - 1 - Z.of_nat k) * msPerDay) = true)
         /\ (~ In (setHours0 now - (days - 1 - Z.of_nat k) * msPerDay)
                 (entryDays entries) ->
             DailyDatum.completed point = false
             /\ DailyDatum.value point = None
             /\ DailyDatum.mood point = None
             /\ DailyDatum.difficulty point = None).
Proof.
  intros Hdays Hfuel.
  exists (map (Charts.dayDatum entries now) (countdown (Z.to_nat days))).
  split; [|split].
  - unfold Charts.dailyData.
    replace (days - 1) with (Z.of_nat (Z.to_nat days) - 1) by lia.
    by rewrite (dailyData_from entries now (Z.to_nat days) fuel []).
  - rewrite length_map, countdown_length. lia.
  - intros k point Hnth.
    assert (k < Z.to_nat days)%nat as Hk.
    { assert (nth_error (map (Charts.dayDatum entries now) (countdown (Z.to_nat days))) k
              <> None) as Hsome by congruence.
      apply nth_error_Some in Hsome.
      by rewrite length_map, countdown_length in Hsome. }
    rewrite nth_error_map, (countdown_nth _ _ Hk) in Hnth.
    injection Hnth as <-.
    replace (Z.of_nat (Z.to_nat days) - 1 - Z.of_nat k)
      with (days - 1 - Z.of_nat k) by lia.
    set (i := days - 1 - Z.of_nat k).
    unfold Charts.dayDatum.
    replace (now - i * 24 * 60 * 60 * 1000) with (now + (- i) * msPerDay)
      by (unfold msPerDay; lia).
    rewrite setHours0_shift. cbn [DailyDatum.date DailyDatum.completed
      DailyDatum.value DailyDatum.mood DailyDatum.difficulty].
    replace (setHours0 now + - i * msPerDay) with (setHours0 now - i * msPerDay) by lia.
    split; [|split].
    + rewrite setHours0_Day.
      replace (Day now * msPerDay - i * msPerDay) with ((Day now - i) * msPerDay) by lia.
      unfold Day at 1. apply Z.div_mul. pose proof msPerDay_pos. lia.
    + destruct (List.find _ entries) as [e|] eqn:Hfind; [|discriminate].
      intros He. apply find_some in Hfind as [Hin Hday].
      unfold completedOn. apply existsb_exists. exists e.
      split; [exact Hin|]. by rewrite He, Hday.
    + intros Hnone.
      destruct (List.find _ entries) as [e|] eqn:Hfind; [|by repeat split].
      exfalso. apply Hnone. apply find_some in Hfind as [Hin Hday].
      unfold entryDays. apply in_map_iff. exists e. split; [lia | exact Hin].
Qed.

(** The theorem for a window of the last 3 days and a record on today. *)
Lemma dailyData_one_point_per_day_witness :
  exists data,
    Charts.dailyData 10 (completedRun 7%N 1%N 1700000000000 1) 1700000000000 3
    = Some (-1, data)
    /\ Z.of_nat (length data) = 3.
Proof.
  destruct (dailyData_one_point_per_day 10 (completedRun 7%N 1%N 1700000000000 1)
              1700000000000 3 ltac:(lia) ltac:(simpl; lia)) as (data & H & Hlen & _).
  exists data. split; [exact H | exact Hlen].
Defined.

Lemma weekCount_spec days : days <= 7 * Charts.weekCount days < days + 7.
Proof. unfold Charts.weekCount. Z.to_euclidean_division_equations. lia. Qed.

Lemma weekDatum_total entries startDate endDate week :
  WeekDatum.totalDays (Charts.weekDatum entries startDate endDate week)
  = countIn entries (startDate + week * 7 * msPerDay)
      (Z.min (startDate + (week + 1) * 7 * msPerDay) endDate).
Proof.
  unfold Charts.weekDatum, countIn, Trends.bucketEntries. cbn [WeekDatum.totalDays].
  replace (startDate + week * 7 * 24 * 60 * 60 * 1000)
    with (startDate + week * 7 * msPerDay) by (unfold msPerDay; lia).
  replace (startDate + week * 7 * msPerDay + 7 * 24 * 60 * 60 * 1000)
    with (startDate + (week + 1) * 7 * msPerDay) by (unfold msPerDay; lia).
  reflexivity.
Qed.

Lemma weekDatum_sound entries startDate endDate week :
  weekSound (Charts.weekDatum entries startDate endDate week).
Proof.
  unfold weekSound, Charts.weekDatum. simpl.
  set (weekEntries := List.filter _ entries).
  pose proof (completed_le_length weekEntries) as Hc. fold (countCompleted weekEntries) in Hc.
  split; [exact Hc|].
  destruct (Z.ltb_spec 0 (Z.of_nat (length weekEntries))) as [Hpos|Hz].
  - split; [by apply percent_bounds | intros Hzero; lia].
  - split; [split; discriminate | reflexivity].
Qed.

Lemma sumTotalDays_snoc weeks w :
  sumTotalDays (weeks ++ [w]) = sumTotalDays weeks + WeekDatum.totalDays w.
Proof. unfold sumTotalDays. rewrite map_app, fold_left_app. reflexivity. Qed.

(** The week loop from index [week] on. *)
Lemma weeklyData_from entries startDate endDate total : forall (fuel : nat) week acc,
  0 <= week ->
  (Z.to_nat (total - week) < fuel)%nat ->
  Z.of_nat (length acc) = week ->
  sumTotalDays acc
  = countIn entries startDate (Z.min (startDate + week * 7 * msPerDay) endDate) ->
  Forall weekSound acc ->
  (forall k w, nth_error acc k = Some w -> WeekDatum.week w = Z.of_nat k + 1) ->
  exists weeks,
    for_loop fuel
      (fun '(week, _) => week <? total)
      (fun '(week, weeklyData) =>
         (week + 1, weeklyData ++ [Charts.weekDatum entries startDate endDate week]))
      (week, acc)
    = Some (Z.max week total, weeks)
    /\ Z.of_nat (length weeks) = Z.max week total
    /\ sumTotalDays weeks
       = countIn entries startDate
           (Z.min (startDate + Z.max week total * 7 * msPerDay) endDate)
    /\ Forall weekSound weeks
    /\ (forall k w, nth_error weeks k = Some w -> WeekDatum.week w = Z.of_nat k + 1).
Proof.
  pose proof msPerDay_pos as HD.
  induction fuel as [|fuel IH]; intros week acc Hweek Hfuel Hlen Hsum Hsound Hnum; [lia|].
  cbn [for_loop].
  destruct (Z.ltb_spec week total) as [Hlt|Hge].
  - destruct (IH (week + 1)
                (acc ++ [Charts.weekDatum entries startDate endDate week]))
      as (weeks & Hloop & Hrest); try lia.
    + rewrite length_app. simpl. lia.
    + rewrite sumTotalDays_snoc, Hsum, weekDatum_total.
      apply countIn_adjacent; nia.
    + apply Forall_app. split; [exact Hsound|].
      constructor; [apply weekDatum_sound | constructor].
    + intros k w Hk.
      destruct (Nat.lt_ge_cases k (length acc)) as [Hin|Hout].
      * rewrite nth_error_app1 in Hk by exact Hin. by apply Hnum.
      * rewrite nth_error_app2 in Hk by exact Hout.
        destruct (k - length acc)%nat as [|j] eqn:Hj; simpl in Hk;
          [|destruct j; discriminate].
        injection Hk as <-. cbn [Charts.weekDatum WeekDatum.week]. lia.
    + exists weeks. replace (Z.max week total) with (Z.max (week + 1) total) by lia.
      split; [exact Hloop | exact Hrest].
  - exists acc. replace (Z.max week total) with week by lia.
    repeat split; assumption.
Qed.

(** X6.  For [days >= 0] the [weeklyData] series has
    [ceil(days / 7)] weeks, numbered from 1.  In every week the completed
    days are at most the total days and the rate is a percentage, 0 for a
    week without entries.  The total days of all weeks add up to the
    number of entries dated from [startDate] to before [endDate]: an entry
    dated exactly [endDate] is in the window and in no week. *)
Theorem weeklyData_partitions_window (fuel : nat) (entries : list TrackingEntry.t)
    (startDate days : Z) :
  0 <= days ->
  (Z.to_nat (Charts.weekCount days) < fuel)%nat ->
  let endDate := startDate + days * msPerDay in
  exists weeks,
    Charts.weeklyData fuel entries startDate endDate days
    = Some (Charts.weekCount days, weeks)
    /\ Z.of_nat (length weeks) = Charts.weekCount days
    /\ days <= 7 * Charts.weekCount days < days + 7
    /\ Forall weekSound weeks
    /\ (forall k w, nth_error weeks k = Some w -> WeekDatum.week w = Z.of_nat k + 1)
    /\ sumTotalDays weeks = countIn entries startDate endDate
    /\ ((forall e, In e entries ->
           startDate <= TrackingEntry.date e <= endDate) ->
        sumTotalDays weeks = Z.of_nat (length (datedBefore entries endDate))).
Proof.
  intros Hdays Hfuel endDate. pose proof msPerDay_pos as HD.
  pose proof (weekCount_spec days) as Hw.
  assert (sumTotalDays []
          = countIn entries startDate
              (Z.min (startDate + 0 * 7 * msPerDay) endDate)) as Hsum0.
  { rewrite countIn_empty; [reflexivity | subst endDate; nia]. }
  destruct (weeklyData_from entries startDate endDate (Charts.weekCount days)
              fuel 0 [] ltac:(lia) ltac:(lia) eq_refl Hsum0 ltac:(constructor))
    as (weeks & Hloop & Hlen & Hsum & Hsound & Hnum).
  - intros k w Hk. destruct k; discriminate.
  - replace (Z.max 0 (Charts.weekCount days)) with (Charts.weekCount days)
      in Hloop, Hlen, Hsum by lia.
    replace (Z.min (startDate + Charts.weekCount days * 7 * msPerDay) endDate)
      with endDate in Hsum by (subst endDate; nia).
    exists weeks. repeat split; try assumption; try lia.
    intros Hin. rewrite Hsum. unfold countIn, Trends.bucketEntries, datedBefore.
    do 2 f_equal. apply filter_ext_in. intros e He.
    destruct (Hin e He) as [Hlo _].
    destruct (Z.leb_spec startDate (TrackingEntry.date e)); [reflexivity | lia].
Qed.

(** The theorem for a window of 30 days and a run of 5 completed days. *)
Lemma weeklyData_partitions_window_witness :
  exists weeks,
    Charts.weeklyData 10 (completedRun 7%N 1%N 1700000000000 5)
      (1700000000000 - 30 * msPerDay) (1700000000000 - 30 * msPerDay + 30 * msPerDay) 30
    = Some (5, weeks)
    /\ sumTotalDays weeks = 5.
Proof.
  destruct (weeklyData_partitions_window 10 (completedRun 7%N 1%N 1700000000000 5)
              (1700000000000 - 30 * msPerDay) 30 ltac:(lia) ltac:(vm_compute; lia))
    as (weeks & H & _ & _ & _ & _ & Hsum & _).
  exists weeks. split; [exact H|]. rewrite Hsum. vm_compute. reflexivity.
Defined.

End ChartFacts.

(** ** The overview route, field by field *)

Section OverviewFacts.

(** What the overview answers for a user with an active habit. *)
Lemma overview_fields now habitsDb entriesDb user daysQ o :
  Overview.handler now habitsDb entriesDb user daysQ = Json o ->
  activeHabits habitsDb user <> [] ->
  exists n startDate,
    let habits := activeHabits habitsDb user in
    let entries :=
      Overview.periodEntries entriesDb user (map Habit._id habits) startDate now in
    let streaks :=
      map (TrackingEntry.getCurrentStreak now entriesDb) (map Habit._id habits) in
    Overview.parseDays daysQ = Some n
    /\ startDate = now - n * msPerDay
    /\ Overview.period o = Some (Period.mk n startDate now)
    /\ Overview.totalHabits o = Z.of_nat (length habits)
    /\ Overview.completionRate o
       = Math_round (Overview.overallRate (Z.of_nat (length habits)) n
                       (countCompleted entries))
    /\ Overview.weeklyTrends o
       = map (Overview.weekDay habits entries now) [6; 5; 4; 3; 2; 1; 0]
    /\ Overview.bestDay o
       = Some (fold_left Overview.pickBest (Overview.weeklyTrends o)
                 (Overview.weekDay habits entries now 6))
    /\ Overview.totalStreaks o = fold_left Z.add streaks 0
    /\ Overview.longestStreak o = fold_left Z.max streaks 0
    /\ Overview.categoriesBreakdown o
       = fold_left
           (fun (acc : gmap string Z) habit =>
              <[categoryOrOther habit := default 0 (acc !! categoryOrOther habit) + 1]> acc)
           habits ∅.
Proof.
  unfold Overview.handler. intros Ho Hne.
  destruct (activeHabits habitsDb user) as [|h hs] eqn:Hact; [contradiction|].
  change (length (h :: hs) =? 0)%nat with false in Ho. cbv iota in Ho.
  destruct (Overview.parseDays daysQ) as [n|]; [|discriminate].
  destruct (TimeClip _) as [startDate|] eqn:Hclip; [|discriminate].
  unfold TimeClip in Hclip. destruct (_ <=? _); [|discriminate].
  injection Hclip as Hstart. injection Ho as <-.
  exists n, startDate. cbn.
  repeat split; try reflexivity. rewrite <- Hstart. unfold msPerDay. lia.
Qed.






Lemma category_fold (habits : list Habit.t) : forall (m : gmap string Z) c,
  fold_left
    (fun (acc : gmap string Z) habit =>
       <[categoryOrOther habit := default 0 (acc !! categoryOrOther habit) + 1]> acc)
    habits m !! c
  = if habitsInCategory habits c =? 0 then m !! c
    else Some (default 0 (m !! c) + habitsInCategory habits c).
Proof.
  unfold habitsInCategory.
  induction habits as [|h hs IH]; intros m c; [reflexivity|].
  cbn [fold_left List.filter]. rewrite IH.
  set (k := Z.of_nat (length (List.filter
                (fun h0 => String.eqb (categoryOrOther h0) c) hs))).
  assert (0 <= k) as Hk by (unfold k; lia).
  destruct (String.eqb_spec (categoryOrOther h) c) as [->|Hne].
  - rewrite lookup_insert_eq.
    replace (Z.of_nat (length (h :: List.filter
                (fun h0 => String.eqb (categoryOrOther h0) c) hs))) with (k + 1)
      by (unfold k; cbn [length]; lia).
    destruct (Z.eqb_spec (k + 1) 0); [lia|].
    destruct (Z.eqb_spec k 0) as [->|_]; simpl; f_equal; lia.
  - by rewrite lookup_insert_ne.
Qed.

(** X10.  The categories breakdown of the overview maps each category to
    the number of active habits in it, a habit with an empty category
    counting under "other"; a category without active habit is no key. *)
Theorem overview_categoriesBreakdown_counts (now : Z) (habitsDb : list Habit.t)
    (entriesDb : list TrackingEntry.t) (user : ObjectId) (daysQ : option string)
    (o : Overview.t) :
  Overview.handler now habitsDb entriesDb user daysQ = Json o ->
  activeHabits habitsDb user <> [] ->
  forall c,
    Overview.categoriesBreakdown o !! c
    = (if habitsInCategory (activeHabits habitsDb user) c =? 0 then None
       else Some (habitsInCategory (activeHabits habitsDb user) c))
    /\ (is_Some (Overview.categoriesBreakdown o !! c)
        <-> exists h, In h (activeHabits habitsDb user) /\ categoryOrOther h = c)
    /\ Overview.categoriesBreakdown o !! "" = None.
Proof.
  intros Ho Hne c.
  destruct (overview_fields _ _ _ _ _ _ Ho Hne)
    as (n & startDate & _ & _ & _ & _ & _ & _ & _ & _ & _ & Hcat).
  cbv zeta in Hcat.
  assert (forall c', Overview.categoriesBreakdown o !! c'
            = (if habitsInCategory (activeHabits habitsDb user) c' =? 0 then None
               else Some (habitsInCategory (activeHabits habitsDb user) c'))) as Hlook.
  { intros c'. rewrite Hcat, category_fold, lookup_empty. reflexivity. }
  split; [apply Hlook|]. split.
  - rewrite Hlook. unfold habitsInCategory.
    destruct (List.filter _ (activeHabits habitsDb user)) as [|h hs] eqn:Hf.
    + simpl. split; [intros [? ?]; discriminate|].
      intros (h & Hin & Hc).
      assert (In h []) as [].
      rewrite <- Hf. apply filter_In. split; [exact Hin|]. by apply String.eqb_eq.
    + cbn [length].
      destruct (Z.eqb_spec (Z.of_nat (S (length hs))) 0); [lia|].
      split; [|eauto]. intros _. exists h.
      assert (In h (h :: hs)) as Hin by (by left).
      rewrite <- Hf in Hin. apply filter_In in Hin as [Hin Hc].
      split; [exact Hin | by apply String.eqb_eq].
  - rewrite Hlook. unfold habitsInCategory.
    assert (List.filter (fun h => String.eqb (categoryOrOther h) "")
              (activeHabits habitsDb user) = []) as ->; [|reflexivity].
    assert (forall h, String.eqb (categoryOrOther h) "" = false) as Hnever.
    { intros h. unfold categoryOrOther.
      destruct (String.eqb_spec (Habit.category h) "") as [_|Hcat']; [reflexivity|].
      by apply String.eqb_neq. }
    clear -Hnever. generalize (activeHabits habitsDb user).
    intros l. induction l as [|h hs IH]; [reflexivity|].
    cbn [List.filter]. rewrite Hnever. exact IH.
Qed.

(** The theorem for ten habits, all in category "other". *)
Lemma overview_categoriesBreakdown_counts_witness :
  exists o,
    Overview.handler 1700000000000 tenHabits (halfCompleted 1700000000000) 1%N None
    = Json o
    /\ Overview.categoriesBreakdown o !! "other" = Some 10.
Proof.
  destruct (Overview.handler 1700000000000 tenHabits (halfCompleted 1700000000000)
              1%N None) as [o| |] eqn:Ho;
    [|vm_compute in Ho; discriminate Ho|vm_compute in Ho; discriminate Ho].
  exists o. split; [reflexivity|].
  exact (proj1 (overview_categoriesBreakdown_counts _ _ _ _ _ o Ho
                  ltac:(discriminate) "other")).
Defined.

Lemma fold_max_spec (l : list Z) : forall a,
  a <= fold_left Z.max l a
  /\ (forall x, In x l -> x <= fold_left Z.max l a)
  /\ (fold_left Z.max l a = a \/ In (fold_left Z.max l a) l).
Proof.
  induction l as [|y l IH]; intros a; simpl; [split; [lia|]; split; [tauto | by left]|].
  destruct (IH (Z.max a y)) as (Hge & Hall & Hin).
  split; [lia|]. split.
  - intros x [<-|Hx]; [lia | by apply Hall].
  - destruct Hin as [Heq|Hin]; [|right; by right].
    destruct (Z.max_spec a y) as [[_ Hm]|[_ Hm]]; rewrite Hm in Heq |- *.
    + right. left. by symmetry.
    + by left.
Qed.

Lemma fold_add_bounds (l : list Z) (hi : Z) :
  (forall x, In x l -> 0 <= x <= hi) ->
  (forall x, In x l -> x <= fold_left Z.add l 0)
  /\ 0 <= fold_left Z.add l 0 <= Z.of_nat (length l) * hi.
Proof.
  induction l as [|y l IH]; intros Hall; [simpl; split; [tauto | lia]|].
  cbn [fold_left]. rewrite (fold_left_add_shift l (0 + y)).
  destruct IH as [Hle Hsum]; [intros x Hx; apply Hall; by right|].
  pose proof (Hall y (or_introl eq_refl)) as Hy.
  split.
  - intros x [<-|Hx]; [lia | specialize (Hle x Hx); lia].
  - cbn [length]. nia.
Qed.

(** X11.  The streak figures of the overview fit together: the longest
    streak is the current streak of some active habit and no active habit
    has a longer one, it is between 0 and 100, and the total of the
    streaks lies between the longest streak and the number of habits
    times the longest streak. *)
Theorem overview_streak_figures (now : Z) (habitsDb : list Habit.t)
    (entriesDb : list TrackingEntry.t) (user : ObjectId) (daysQ : option string)
    (o : Overview.t) :
  Overview.handler now habitsDb entriesDb user daysQ = Json o ->
  activeHabits habitsDb user <> [] ->
  0 <= Overview.longestStreak o <= 100
  /\ (forall h, In h (activeHabits habitsDb user) ->
        TrackingEntry.getCurrentStreak now entriesDb (Habit._id h)
        <= Overview.longestStreak o)
  /\ (exists h, In h (activeHabits habitsDb user)
        /\ TrackingEntry.getCurrentStreak now entriesDb (Habit._id h)
           = Overview.longestStreak o)
  /\ Overview.longestStreak o <= Overview.totalStreaks o
     <= Overview.totalHabits o * Overview.longestStreak o.
Proof.
  intros Ho Hne.
  destruct (overview_fields _ _ _ _ _ _ Ho Hne)
    as (n & startDate & _ & _ & _ & Htotal & _ & _ & _ & Hsum & Hmax & _).
  cbv zeta in *. rewrite map_map in Hsum, Hmax.
  set (streak := fun h => TrackingEntry.getCurrentStreak now entriesDb (Habit._id h)) in *.
  set (habits := activeHabits habitsDb user) in *.
  assert (forall h, 0 <= streak h <= 100) as Hrange.
  { intros h. unfold streak.
    pose proof (getCurrentStreak_le_recent now entriesDb (Habit._id h)).
    pose proof (recentCompleted_length entriesDb (Habit._id h)). lia. }
  destruct (fold_max_spec (map streak habits) 0) as (Hge & Hall & Hin).
  rewrite <- Hmax in Hge, Hall, Hin.
  assert (forall h, In h habits -> streak h <= Overview.longestStreak o) as Hle.
  { intros h Hh. apply Hall. by apply in_map. }
  assert (exists h, In h habits /\ streak h = Overview.longestStreak o) as Hex.
  { destruct Hin as [Hz|Hin].
    - destruct habits as [|h hs]; [contradiction|]. exists h. split; [by left|].
      pose proof (Hle h (or_introl eq_refl)). pose proof (Hrange h). lia.
    - apply in_map_iff in Hin as (h & Hh & Hin). by exists h. }
  split.
  { destruct Hex as (h & _ & <-). apply Hrange. }
  split; [exact Hle|]. split; [exact Hex|].
  destruct (fold_add_bounds (map streak habits) (Overview.longestStreak o))
    as [Heach Hbound].
  { intros x Hx. apply in_map_iff in Hx as (h & <- & Hh).
    pose proof (Hrange h). pose proof (Hle h Hh). lia. }
  rewrite <- Hsum, length_map, <- Htotal in Hbound. split; [|lia].
  destruct Hex as (h & Hh & <-). rewrite Hsum. apply Heach. by apply in_map.
Qed.

(** The theorem for ten habits with 15 completed days each. *)
Lemma overview_streak_figures_witness :
  exists o,
    Overview.handler 1700000000000 tenHabits (halfCompleted 1700000000000) 1%N None
    = Json o
    /\ 0 <= Overview.longestStreak o <= 100.
Proof.
  destruct (Overview.handler 1700000000000 tenHabits (halfCompleted 1700000000000)
              1%N None) as [o| |] eqn:Ho;
    [|vm_compute in Ho; discriminate Ho|vm_compute in Ho; discriminate Ho].
  exists o. split; [reflexivity|].
  exact (proj1 (overview_streak_figures _ _ _ _ _ o Ho ltac:(discriminate))).
Defined.

Lemma NoDup_map_filter_imp {A B} (f : A -> B) (p q : A -> bool) (l : list A) :
  (forall x, q x = true -> p x = true) ->
  List.NoDup (map f (List.filter p l)) -> List.NoDup (map f (List.filter q l)).
Proof.
  intros Himp. induction l as [|x l IH]; simpl; [auto|].
  destruct (q x) eqn:Hq.
  - rewrite (Himp x Hq). simpl. rewrite !List.NoDup_cons_iff.
    intros [Hnot Hnd]. split; [|by apply IH].
    intros Hin. apply Hnot.
    apply in_map_iff in Hin as (y & Hy & Hin). apply in_map_iff. exists y.
    split; [exact Hy|]. apply filter_In in Hin as [Hin Hqy].
    apply filter_In. split; [exact Hin | by apply Himp].
  - destruct (p x); simpl; [|exact IH].
    rewrite List.NoDup_cons_iff. intros [_ Hnd]. by apply IH.
Qed.

Lemma NoDup_map_coarser {A B C} (f : A -> B) (g : A -> C) (l : list A) :
  (forall x y, In x l -> In y l -> g x = g y -> f x = f y) ->
  List.NoDup (map f l) -> List.NoDup (map g l).
Proof.
  induction l as [|x l IH]; intros Hfg; simpl; [constructor|].
  rewrite !List.NoDup_cons_iff. intros [Hnot Hnd]. split.
  - intros Hin. apply Hnot. apply in_map_iff in Hin as (y & Hy & Hin).
    apply in_map_iff. exists y. split; [|exact Hin].
    symmetry. apply Hfg; [by left | by right | by symmetry].
  - apply IH; [|exact Hnd]. intros a b Ha Hb. apply Hfg; by right.
Qed.

(** With one entry per habit and day, dated at midnight, a window of [n]
    days that does not end at a midnight holds at most [n] entries per
    active habit. *)
Lemma periodEntries_count entriesDb user ids now n :
  0 < n ->
  uniquePerDay (entriesOfUser entriesDb user) ->
  normalised entriesDb ->
  now mod msPerDay <> 0 ->
  Z.of_nat (length (Overview.periodEntries entriesDb user ids (now - n * msPerDay) now))
  <= Z.of_nat (length ids) * n.
Proof.
  intros Hn Huniq Hnorm Hnow. pose proof msPerDay_pos as HD.
  set (pe := Overview.periodEntries entriesDb user ids (now - n * msPerDay) now).
  assert (forall e, In e pe ->
            In e entriesDb /\ In (TrackingEntry.habitId e) ids
            /\ TrackingEntry.date e = Day (TrackingEntry.date e) * msPerDay
            /\ Day now - n + 1 <= Day (TrackingEntry.date e) < Day now - n + 1 + n)
    as Hpe.
  { intros e He. apply filter_In in He as [Hin Hc].
    apply andb_true_iff in Hc as [Hc Hhi]. apply andb_true_iff in Hc as [Hc Hlo].
    apply andb_true_iff in Hc as [_ Hid].
    apply Z.leb_le in Hhi, Hlo.
    assert (TrackingEntry.date e = Day (TrackingEntry.date e) * msPerDay) as Hmid
      by (rewrite <- setHours0_Day; symmetry; by apply Hnorm).
    split; [exact Hin|]. split.
    - apply existsb_exists in Hid as (i & Hi & Heq). apply N.eqb_eq in Heq. by subst.
    - split; [exact Hmid|].
      assert (Day (TrackingEntry.date e) <= Day now)
        by (unfold Day; apply Z.div_le_mono; lia).
      pose proof (Z.mod_pos_bound now msPerDay HD).
      pose proof (Z.div_mod now msPerDay ltac:(lia)) as Hdm. fold (Day now) in Hdm.
      nia. }
  assert (List.NoDup
            (map (fun e => (TrackingEntry.habitId e, Day (TrackingEntry.date e))) pe))
    as Hnd.
  { apply (NoDup_map_coarser
             (fun e => (TrackingEntry.habitId e, TrackingEntry.date e))).
    - intros x y Hx Hy [= Hh Hd].
      destruct (Hpe x Hx) as (_ & _ & Hmx & _). destruct (Hpe y Hy) as (_ & _ & Hmy & _).
      f_equal; [exact Hh | congruence].
    - unfold pe, Overview.periodEntries.
      eapply NoDup_map_filter_imp; [|exact Huniq].
      intros x Hx. apply andb_true_iff in Hx as [Hx _].
      apply andb_true_iff in Hx as [Hx _]. by apply andb_true_iff in Hx as [Hx _]. }
  apply List.NoDup_incl_length
    with (l' := list_prod ids (seqZ (Day now - n + 1) n)) in Hnd.
  - rewrite length_map, length_prod, length_seqZ in Hnd. nia.
  - intros [h d] Hin. apply in_map_iff in Hin as (e & [= <- <-] & He).
    destruct (Hpe e He) as (_ & Hid & _ & Hday).
    apply in_prod; [exact Hid|]. apply list_elem_of_In, elem_of_seqZ. exact Hday.
Qed.

(** X12.  The completion rate of the overview is never negative and is 0
    for a window of [days <= 0], where there is no slot to divide by.
    With at most one entry per habit and day, all dated at midnight, and a
    positive [days], it is at most 100 unless the request is served
    exactly at a midnight. *)
Theorem overview_rate_is_a_percentage (now : Z) (habitsDb : list Habit.t)
    (entriesDb : list TrackingEntry.t) (user : ObjectId) (daysQ : option string)
    (o : Overview.t) (n : Z) :
  Overview.handler now habitsDb entriesDb user daysQ = Json o ->
  activeHabits habitsDb user <> [] ->
  Overview.parseDays daysQ = Some n ->
  0 <= Overview.completionRate o
  /\ (n <= 0 -> Overview.completionRate o = 0)
  /\ (0 < n ->
      uniquePerDay (entriesOfUser entriesDb user) ->
      normalised entriesDb ->
      now mod msPerDay <> 0 ->
      Overview.completionRate o <= 100).
Proof.
  intros Ho Hne Hdays.
  destruct (overview_fields _ _ _ _ _ _ Ho Hne)
    as (n' & startDate & Hdays' & Hstart & _ & _ & Hrate & _).
  cbv zeta in *. rewrite Hdays in Hdays'. injection Hdays' as <-. subst startDate.
  set (habits := activeHabits habitsDb user) in *.
  set (entries := Overview.periodEntries entriesDb user (map Habit._id habits)
                    (now - n * msPerDay) now) in *.
  pose proof (completed_le_length entries) as Hc. fold (countCompleted entries) in Hc.
  assert (0 < Z.of_nat (length habits)) as Hh.
  { destruct habits; [contradiction | simpl; lia]. }
  rewrite Hrate. unfold Overview.overallRate.
  split; [|split].
  - destruct (Z.ltb_spec 0 (Z.of_nat (length habits) * n)) as [Hpos|Hnp];
      [|reflexivity].
    unfold Math_round. change 0 with (Qfloor (0 + (1 # 2))). apply Qfloor_resp_le.
    apply Qplus_le_compat; [|apply Qle_refl].
    apply Qmult_le_0_compat; [|discriminate].
    apply Qle_shift_div_l; [unfold Qlt; simpl; lia|].
    rewrite Qmult_0_l. unfold Qle. simpl. lia.
  - intros Hn. destruct (Z.ltb_spec 0 (Z.of_nat (length habits) * n)); [nia|].
    reflexivity.
  - intros Hn Huniq Hnorm Hnow.
    pose proof (periodEntries_count entriesDb user (map Habit._id habits) now n
                  Hn Huniq Hnorm Hnow) as Hcount.
    fold entries in Hcount. rewrite length_map in Hcount.
    destruct (Z.ltb_spec 0 (Z.of_nat (length habits) * n)); [|nia].
    apply Math_round_percent, percent_bounds; lia.
Qed.

(** The theorem for ten habits with 15 completed days each. *)
Lemma overview_rate_is_a_percentage_witness :
  exists o,
    Overview.handler 1700000000000 tenHabits (halfCompleted 1700000000000) 1%N None
    = Json o
    /\ 0 <= Overview.completionRate o.
Proof.
  destruct (Overview.handler 1700000000000 tenHabits (halfCompleted 1700000000000)
              1%N None) as [o| |] eqn:Ho;
    [|vm_compute in Ho; discriminate Ho|vm_compute in Ho; discriminate Ho].
  exists o. split; [reflexivity|].
  exact (proj1 (overview_rate_is_a_percentage _ _ _ _ _ o 30 Ho
                  ltac:(discriminate) eq_refl)).
Defined.

End OverviewFacts.

(** ** The cells of the heatmap *)

Section HeatmapCells.

Lemma fillEntries_cons habitsDb e entries m :
  Heatmap.fillEntries habitsDb (e :: entries) m
  = match Heatmap.fillEntry habitsDb m e with
    | Some m1 => Heatmap.fillEntries habitsDb entries m1
    | None => None
    end.
Proof.
  unfold Heatmap.fillEntries. cbn [fold_left].
  destruct (Heatmap.fillEntry habitsDb m e); [reflexivity | apply fillEntries_none].
Qed.

Lemma populate_id habitsDb e h :
  populate habitsDb e = Some h -> Habit._id h = TrackingEntry.habitId e.
Proof.
  unfold populate. intros Hf. apply find_some in Hf as [_ Heq].
  by apply N.eqb_eq in Heq.
Qed.

Lemma countCompleted_cons e entries :
  countCompleted (e :: entries)
  = (if TrackingEntry.completed e then 1 else 0) + countCompleted entries.
Proof.
  unfold countCompleted. simpl. destruct (TrackingEntry.completed e); simpl; lia.
Qed.

(** The fold of the entries into the object, key by key. *)
Lemma fillEntries_cells habitsDb entries : forall m m',
  Heatmap.fillEntries habitsDb entries m = Some m' ->
  forall x,
    match m !! x with
    | None => m' !! x = None
    | Some cell =>
        exists cell', m' !! x = Some cell' /\ cellAfter cell cell' (dayEntries entries x)
    end.
Proof.
  induction entries as [|e entries IH]; intros m m' Hfill x.
  - injection Hfill as <-. destruct (m !! x) as [cell|]; [|reflexivity].
    exists cell. split; [reflexivity|].
    unfold cellAfter, countCompleted. simpl. rewrite !app_nil_r.
    repeat split; lia.
  - rewrite fillEntries_cons in Hfill.
    destruct (Heatmap.fillEntry habitsDb m e) as [m1|] eqn:Hstep; [|discriminate].
    specialize (IH m1 m' Hfill x).
    unfold Heatmap.fillEntry in Hstep. unfold dayEntries. cbn [List.filter].
    fold (dayEntries entries x).
    destruct (m !! Day (TrackingEntry.date e)) as [cell0|] eqn:Hk.
    + destruct (populate habitsDb e) as [h|] eqn:Hpop; [|discriminate].
      injection Hstep as <-.
      destruct (Z.eqb_spec (Day (TrackingEntry.date e)) x) as [Heq|Hne].
      * rewrite Heq in Hk, IH. rewrite Hk. rewrite lookup_insert_eq in IH.
        destruct IH as (cell' & Hlook & Hd & Ht & Hc & Hids & Hflags & Hrate).
        cbn [HeatCell.date HeatCell.totalHabits HeatCell.completedHabits
             HeatCell.habits HeatCell.completionRate] in *.
        exists cell'. split; [exact Hlook|].
        unfold cellAfter. rewrite countCompleted_cons.
        rewrite !map_app in Hids, Hflags. cbn [map] in Hids, Hflags.
        rewrite <- !app_assoc in Hids, Hflags.
        rewrite (populate_id _ _ _ Hpop) in Hids.
        split; [exact Hd|]. split; [exact Ht|]. split.
        { rewrite Hc. destruct (TrackingEntry.completed e); lia. }
        split; [exact Hids|]. split; [exact Hflags|].
        destruct (dayEntries entries x) as [|e' rest]; [|exact Hrate].
        rewrite Hrate, Hc. unfold countCompleted. simpl. by rewrite Z.add_0_r.
      * rewrite lookup_insert_ne in IH by exact Hne. exact IH.
    + injection Hstep as <-.
      destruct (Z.eqb_spec (Day (TrackingEntry.date e)) x) as [Heq|Hne];
        [|exact IH].
      rewrite Heq in Hk. rewrite Hk in IH |- *. exact IH.
Qed.

(** X13.  In the answer of the heatmap every cell records the entries of
    the user that fall on its day, of active and inactive habits alike and
    in the order of the query: one detail per entry with its habit and its
    completed flag, [completedHabits] their number of completed ones, and
    [completionRate] that number as a percentage of the active habits, 0
    on a day without entry. *)
Theorem heatmap_cell_contents (fuel : nat) (habitsDb : list Habit.t)
    (entriesDb : list TrackingEntry.t) (user : ObjectId) (year : Z)
    (r : Heatmap.t) :
  -271820 <= year <= 275759 ->
  (366 < fuel)%nat ->
  activeHabits habitsDb user <> [] ->
  Heatmap.handler fuel habitsDb entriesDb user year = Some (Json r) ->
  let first := DayFromYear (fullYear year) in
  let next := DayFromYear (fullYear year + 1) in
  let habitCount := Z.of_nat (length (activeHabits habitsDb user)) in
  forall x cell,
    Heatmap.heatmapData r !! x = Some cell ->
    let found :=
      dayEntries
        (Heatmap.yearEntries entriesDb user (first * msPerDay) ((next - 1) * msPerDay))
        x in
    HeatCell.completedHabits cell = countCompleted found
    /\ map HabitDetail.habitId (HeatCell.habits cell)
       = map TrackingEntry.habitId found
    /\ map HabitDetail.completed (HeatCell.habits cell)
       = map TrackingEntry.completed found
    /\ HeatCell.completionRate cell
       = match found with
         | [] => 0%Q
         | _ => (inject_Z (countCompleted found) / inject_Z habitCount * 100)%Q
         end.
Proof.
  intros Hyear Hfuel Hne Hr first next habitCount x cell Hx found.
  assert (next = first + DaysInYear (fullYear year)) as Hnext
    by apply DayFromYear_succ.
  pose proof (DaysInYear_cases (fullYear year)) as Hcases.
  destruct (newDate_year_bounds year Hyear) as [Hstart Hend].
  fold first in Hstart, Hend.
  replace (first + DaysInYear (fullYear year) - 1) with (next - 1) in Hend by lia.
  destruct (initDates_days fuel habitCount first
              (Z.to_nat (DaysInYear (fullYear year))))
    as (d & zeros & Hinit & Hzeros & _); [lia | lia |].
  replace (first + Z.of_nat (Z.to_nat (DaysInYear (fullYear year))) - 1)
    with (next - 1) in Hinit by lia.
  unfold Heatmap.handler in Hr. rewrite Hstart, Hend in Hr.
  destruct (activeHabits habitsDb user) as [|h hs] eqn:Hact; [contradiction|].
  change (length (h :: hs) =? 0)%nat with false in Hr. cbv iota in Hr.
  fold habitCount in Hr. rewrite Hinit in Hr.
  destruct (Heatmap.fillEntries _ _ zeros) as [filled|] eqn:Hfill; [|discriminate].
  injection Hr as <-. cbn [Heatmap.heatmapData] in Hx.
  pose proof (fillEntries_cells _ _ _ _ Hfill x) as Hcell.
  rewrite Hzeros in Hcell.
  case_decide; [|congruence].
  destruct Hcell as (cell' & Hlook & _ & _ & Hc & Hids & Hflags & Hrate).
  rewrite Hx in Hlook. injection Hlook as <-.
  cbn [Heatmap.zeroCell HeatCell.completedHabits HeatCell.habits
       HeatCell.completionRate HeatCell.totalHabits map app] in *.
  fold found in Hc, Hids, Hflags, Hrate.
  split; [lia|]. split; [exact Hids|]. split; [exact Hflags|].
  rewrite Hrate. destruct found; [reflexivity|]. by rewrite Hc.
Qed.

(** The theorem at the leap year 2024, for ten habits with records in
    that year. *)
Lemma heatmap_cell_contents_witness :
  exists r,
    Heatmap.handler 400 tenHabits (halfCompleted 1720000000000) 1%N 2024
    = Some (Json r)
    /\ forall x cell,
         Heatmap.heatmapData r !! x = Some cell ->
         HeatCell.completedHabits cell
         = countCompleted
             (dayEntries
                (Heatmap.yearEntries (halfCompleted 1720000000000) 1%N
                   (DayFromYear 2024 * msPerDay) ((DayFromYear 2025 - 1) * msPerDay))
                x).
Proof.
  destruct (Heatmap.handler 400 tenHabits (halfCompleted 1720000000000) 1%N 2024)
    as [[r| |]|] eqn:Hr;
    [ | vm_compute in Hr; discriminate Hr
      | vm_compute in Hr; discriminate Hr
      | vm_compute in Hr; discriminate Hr ].
  exists r. split; [reflexivity|].
  intros x cell Hx.
  exact (proj1 (heatmap_cell_contents 400 tenHabits (halfCompleted 1720000000000)
                  1%N 2024 r ltac:(lia) ltac:(lia) ltac:(discriminate) Hr x cell Hx)).
Defined.

End HeatmapCells.

(** ** The buckets of the trends route *)

Section TrendBuckets.

(** The bucket loop from index [i] on, bucket by bucket. *)
Lemma bucketLoop_buckets habitsDb habits entries groupBy startDate endDate days groupSize :
  1 <= groupSize ->
  forall fuel i ts,
    (Z.to_nat (days - i) < fuel)%nat ->
    i = Z.of_nat (length ts) * groupSize ->
    i < days + groupSize ->
    (forall k b, nth_error ts k = Some b ->
       Trends.bucket habitsDb habits entries groupBy startDate endDate groupSize
         (Z.of_nat k * groupSize) = Some b) ->
    match for_loop fuel
            (fun '(i, trends) => (i <? days) && bool_decide (is_Some trends))
            (bucketStep habitsDb habits entries groupBy startDate endDate groupSize)
            (i, Some ts) with
    | Some (_, Some ts') =>
        days <= Z.of_nat (length ts') * groupSize < days + groupSize
        /\ (forall k b, nth_error ts' k = Some b ->
              Trends.bucket habitsDb habits entries groupBy startDate endDate groupSize
                (Z.of_nat k * groupSize) = Some b)
    | Some (_, None) => True
    | None => False
    end.
Proof.
  intros Hg.
  induction fuel as [|fuel IH]; intros i ts Hfuel Hi Hlt Hnum; [lia|].
  cbn [for_loop].
  destruct (Z.ltb_spec i days) as [Hin|Hout]; cbn [andb].
  - rewrite bool_decide_eq_true_2 by eauto. cbn [bucketStep].
    destruct (Trends.bucket _ _ _ _ _ _ _ i) as [b|] eqn:Hb.
    + apply IH; [lia | rewrite length_app; simpl; lia | lia |].
      intros k b' Hk.
      destruct (Nat.lt_ge_cases k (length ts)) as [Hklt|Hkge].
      * rewrite nth_error_app1 in Hk by exact Hklt. by apply Hnum.
      * rewrite nth_error_app2 in Hk by exact Hkge.
        destruct (k - length ts)%nat as [|j] eqn:Hj; simpl in Hk;
          [|destruct j; discriminate].
        injection Hk as <-. replace (Z.of_nat k) with (Z.of_nat (length ts)) by lia.
        by rewrite <- Hi.
    + destruct fuel as [|fuel]; [lia|]. cbn [for_loop].
      by rewrite andb_false_r.
  - split; [lia | exact Hnum].
Qed.

Lemma trends_buckets fuel now habitsDb entriesDb user periodQ groupByQ r :
  (365 < fuel)%nat ->
  Trends.handler fuel now habitsDb entriesDb user periodQ groupByQ = Some (Json r) ->
  let days := Trends.periodDays (default "month" periodQ) in
  let groupSize := Trends.groupSizeOf (default "week" groupByQ) in
  let startDate := now - days * msPerDay in
  Trends.period r = default "month" periodQ
  /\ Trends.groupBy r = default "week" groupByQ
  /\ Trends.habits r = map HabitInfo.ofHabit (activeHabits habitsDb user)
  /\ days <= Z.of_nat (length (Trends.trends r)) * groupSize < days + groupSize
  /\ (forall k b, nth_error (Trends.trends r) k = Some b ->
        Trends.bucket habitsDb (activeHabits habitsDb user)
          (Trends.windowEntries entriesDb user startDate now)
          (default "week" groupByQ) startDate now groupSize
          (Z.of_nat k * groupSize) = Some b).
Proof.
  intros Hfuel Hr days groupSize startDate.
  pose proof (periodDays_range (default "month" periodQ)) as Hdays. fold days in Hdays.
  pose proof (groupSizeOf_range (default "week" groupByQ)) as [Hg _].
  fold groupSize in Hg.
  unfold Trends.handler, Trends.bucketLoop in Hr. fold days groupSize in Hr.
  replace (now - days * 24 * 60 * 60 * 1000) with startDate in Hr
    by (unfold startDate, msPerDay; lia).
  pose proof (bucketLoop_buckets habitsDb (activeHabits habitsDb user)
                (Trends.windowEntries entriesDb user startDate now)
                (default "week" groupByQ) startDate now days groupSize Hg fuel 0 []
                ltac:(lia) ltac:(simpl; lia) ltac:(lia)) as Hloop.
  destruct (for_loop fuel _ _ (0, Some [])) as [[i [trends|]]|]; try discriminate.
  injection Hr as <-. cbn.
  destruct Hloop as [Hcount Hnum]; [intros k b Hk; destruct k; discriminate|].
  repeat split; try lia. exact Hnum.
Qed.

Lemma bucket_fields habitsDb habits entries groupBy startDate endDate groupSize i b :
  Trends.bucket habitsDb habits entries groupBy startDate endDate groupSize i = Some b ->
  let periodStart := startDate + i * msPerDay in
  let periodEnd := Z.min (startDate + (i + groupSize) * msPerDay) endDate in
  let found := Trends.bucketEntries entries periodStart periodEnd in
  Trend.period b = groupBy
  /\ Trend.startDate b = Day startDate + i
  /\ Trend.endDate b = Day periodEnd
  /\ Trend.totalEntries b = Z.of_nat (length found)
  /\ Trend.completedEntries b = countCompleted found
  /\ Trends.breakdown habitsDb habits (List.filter TrackingEntry.completed found)
     = Some (Trend.categoryBreakdown b)
  /\ Trend.completionRate b
     = (if 0 <? Trend.totalEntries b
        then (inject_Z (Trend.completedEntries b) / inject_Z (Trend.totalEntries b) * 100)%Q
        else 0%Q).
Proof.
  unfold Trends.bucket.
  replace (startDate + i * 24 * 60 * 60 * 1000) with (startDate + i * msPerDay)
    by (unfold msPerDay; lia).
  replace (startDate + i * msPerDay + groupSize * 24 * 60 * 60 * 1000)
    with (startDate + (i + groupSize) * msPerDay) by (unfold msPerDay; lia).
  destruct (Trends.breakdown _ _ _) as [cb|] eqn:Hcb; [|discriminate].
  intros [= <-]. cbn. rewrite Day_shift. repeat split; reflexivity.
Qed.

(** X14.  The trends route answers with [ceil(days / groupSize)] buckets
    (7 for a week by day, 5 for a month by week, the last one shorter).
    Bucket [k] starts [k * groupSize] days after the start of the window
    and ends [groupSize] days later or at the time of the request; its
    completed entries are at most its total entries and its rate is a
    percentage, 0 for a bucket without entries.  The answer echoes the
    period and the grouping of the request. *)
Theorem trends_bucket_layout (fuel : nat) (now : Z) (habitsDb : list Habit.t)
    (entriesDb : list TrackingEntry.t) (user : ObjectId)
    (periodQ groupByQ : option string) (r : Trends.t) :
  (365 < fuel)%nat ->
  Trends.handler fuel now habitsDb entriesDb user periodQ groupByQ = Some (Json r) ->
  let days := Trends.periodDays (default "month" periodQ) in
  let groupSize := Trends.groupSizeOf (default "week" groupByQ) in
  let startDate := now - days * msPerDay in
  Trends.period r = default "month" periodQ
  /\ Trends.groupBy r = default "week" groupByQ
  /\ days <= Z.of_nat (length (Trends.trends r)) * groupSize < days + groupSize
  /\ (forall k b, nth_error (Trends.trends r) k = Some b ->
        Trend.period b = default "week" groupByQ
        /\ Trend.startDate b = Day startDate + Z.of_nat k * groupSize
        /\ Trend.endDate b
           = Day (Z.min (startDate + (Z.of_nat k + 1) * groupSize * msPerDay) now)
        /\ 0 <= Trend.completedEntries b <= Trend.totalEntries b
        /\ (0 <= Trend.completionRate b <= 100)%Q
        /\ (Trend.totalEntries b = 0 -> Trend.completionRate b = 0%Q)).
Proof.
  intros Hfuel Hr days groupSize startDate.
  destruct (trends_buckets _ _ _ _ _ _ _ _ Hfuel Hr) as (Hp & Hgb & _ & Hcount & Hnum).
  cbv zeta in *. fold days groupSize startDate in Hcount, Hnum.
  split; [exact Hp|]. split; [exact Hgb|]. split; [exact Hcount|].
  intros k b Hk. specialize (Hnum k b Hk).
  destruct (bucket_fields _ _ _ _ _ _ _ _ _ Hnum)
    as (Hper & Hs & He & Ht & Hc & _ & Hrate).
  cbv zeta in *.
  set (found := Trends.bucketEntries _ _ _) in *.
  pose proof (completed_le_length found) as Hle. fold (countCompleted found) in Hle.
  split; [exact Hper|]. split; [exact Hs|]. split.
  { rewrite He. do 2 f_equal. lia. }
  split; [lia|].
  rewrite Hrate, Hc, Ht.
  destruct (Z.ltb_spec 0 (Z.of_nat (length found))) as [Hpos|Hz].
  - split; [by apply percent_bounds | lia].
  - split; [split; discriminate | reflexivity].
Qed.

(** The theorem for a month by week: 5 buckets. *)
Lemma trends_bucket_layout_witness :
  exists r,
    Trends.handler 400 1700000000000 tenHabits (halfCompleted 1700000000000) 1%N
      None None = Some (Json r)
    /\ 30 <= Z.of_nat (length (Trends.trends r)) * 7 < 30 + 7.
Proof.
  destruct (Trends.handler 400 1700000000000 tenHabits (halfCompleted 1700000000000)
              1%N None None) as [[r| |]|] eqn:Hr;
    [ | vm_compute in Hr; discriminate Hr
      | vm_compute in Hr; discriminate Hr
      | vm_compute in Hr; discriminate Hr ].
  exists r. split; [reflexivity|].
  destruct (trends_bucket_layout 400 1700000000000 tenHabits
              (halfCompleted 1700000000000) 1%N None None r ltac:(lia) Hr)
    as (_ & _ & Hcount & _).
  exact Hcount.
Defined.

Lemma countOfHabit_count habitsDb habit : forall completedEntries n,
  Trends.countOfHabit habitsDb habit completedEntries = Some n ->
  n = Z.of_nat
        (length
           (List.filter
              (fun e => (TrackingEntry.habitId e =? Habit._id habit)%N)
              completedEntries)).
Proof.
  induction completedEntries as [|e rest IH]; intros n Hn.
  - injection Hn as <-. reflexivity.
  - cbn [Trends.countOfHabit] in Hn.
    destruct (populate habitsDb e) as [h|] eqn:Hp; [|discriminate].
    destruct (Trends.countOfHabit habitsDb habit rest) as [m|]; [|discriminate].
    injection Hn as <-. rewrite (populate_id _ _ _ Hp). specialize (IH m eq_refl).
    cbn [List.filter].
    destruct (TrackingEntry.habitId e =? Habit._id habit)%N; cbn [length]; lia.
Qed.

Lemma breakdown_step_None habitsDb completedEntries (habits : list Habit.t) :
  fold_left
    (fun (acc : option (gmap string CategoryCount.t)) habit =>
       match acc with
       | None => None
       | Some categoryBreakdown =>
           let category := categoryOrOther habit in
           let slot :=
             default (CategoryCount.mk 0 0) (categoryBreakdown !! category) in
           match Trends.countOfHabit habitsDb habit completedEntries with
           | None => None
           | Some n =>
               Some (<[category :=
                         CategoryCount.mk (CategoryCount.total slot + 1)
                           (CategoryCount.completed slot + n)]> categoryBreakdown)
           end
       end)
    habits None = None.
Proof. induction habits as [|h hs IH]; [reflexivity | exact IH]. Qed.

Lemma breakdown_fold habitsDb completedEntries (habits : list Habit.t) :
  forall (m cb : gmap string CategoryCount.t),
    fold_left
      (fun (acc : option (gmap string CategoryCount.t)) habit =>
         match acc with
         | None => None
         | Some categoryBreakdown =>
             let category := categoryOrOther habit in
             let slot :=
               default (CategoryCount.mk 0 0) (categoryBreakdown !! category) in
             match Trends.countOfHabit habitsDb habit completedEntries with
             | None => None
             | Some n =>
                 Some (<[category :=
                           CategoryCount.mk (CategoryCount.total slot + 1)
                             (CategoryCount.completed slot + n)]> categoryBreakdown)
             end
         end)
      habits (Some m) = Some cb ->
    forall c,
      cb !! c
      = if habitsInCategory habits c =? 0 then m !! c
        else
          let slot := default (CategoryCount.mk 0 0) (m !! c) in
          Some (CategoryCount.mk
                  (CategoryCount.total slot + habitsInCategory habits c)
                  (CategoryCount.completed slot
                   + completedInCategory habits completedEntries c)).
Proof.
  unfold habitsInCategory, completedInCategory.
  induction habits as [|h hs IH]; intros m cb Hcb c.
  - injection Hcb as <-. reflexivity.
  - cbn [fold_left] in Hcb. cbv zeta in Hcb.
    destruct (Trends.countOfHabit habitsDb h completedEntries) as [n|] eqn:Hn;
      [|by rewrite breakdown_step_None in Hcb].
    apply countOfHabit_count in Hn.
    rewrite (IH _ _ Hcb c). clear IH Hcb. cbn [List.filter].
    set (k := Z.of_nat (length (List.filter
                  (fun h0 => String.eqb (categoryOrOther h0) c) hs))).
    assert (0 <= k) as Hk by (unfold k; lia).
    destruct (String.eqb_spec (categoryOrOther h) c) as [Heq|Hne].
    + rewrite Heq, lookup_insert_eq.
      replace (Z.of_nat (length (h :: List.filter
                  (fun h0 => String.eqb (categoryOrOther h0) c) hs))) with (k + 1)
        by (unfold k; cbn [length]; lia).
      destruct (Z.eqb_spec (k + 1) 0); [lia|].
      cbn [map fold_right]. rewrite <- Hn.
      destruct (Z.eqb_spec k 0) as [Hk0|_]; cbv zeta; cbn.
      * assert (List.filter (fun h0 => String.eqb (categoryOrOther h0) c) hs = [])
          as Hnil by (apply length_zero_iff_nil; unfold k in Hk0; lia).
        rewrite Hnil. cbn. do 2 f_equal; lia.
      * do 2 f_equal; lia.
    + by rewrite lookup_insert_ne.
Qed.

(** X15.  In every bucket of the trends route the category breakdown has
    one key per category of the user's active habits, a habit without
    category counting under "other".  Under a key, [total] is the number
    of active habits of the category, the same in every bucket, and
    [completed] is the number of completed entries of the bucket that
    belong to these habits. *)
Theorem trends_categoryBreakdown (fuel : nat) (now : Z) (habitsDb : list Habit.t)
    (entriesDb : list TrackingEntry.t) (user : ObjectId)
    (periodQ groupByQ : option string) (r : Trends.t) :
  (365 < fuel)%nat ->
  Trends.handler fuel now habitsDb entriesDb user periodQ groupByQ = Some (Json r) ->
  let days := Trends.periodDays (default "month" periodQ) in
  let groupSize := Trends.groupSizeOf (default "week" groupByQ) in
  let startDate := now - days * msPerDay in
  let habits := activeHabits habitsDb user in
  forall k b,
    nth_error (Trends.trends r) k = Some b ->
    let periodStart := startDate + Z.of_nat k * groupSize * msPerDay in
    let periodEnd :=
      Z.min (startDate + (Z.of_nat k + 1) * groupSize * msPerDay) now in
    let completedEntries :=
      List.filter TrackingEntry.completed
        (Trends.bucketEntries (Trends.windowEntries entriesDb user startDate now)
           periodStart periodEnd) in
    forall c,
      Trend.categoryBreakdown b !! c
      = if habitsInCategory habits c =? 0 then None
        else Some (CategoryCount.mk (habitsInCategory habits c)
                     (completedInCategory habits completedEntries c)).
Proof.
  intros Hfuel Hr days groupSize startDate habits k b Hk
         periodStart periodEnd completedEntries c.
  destruct (trends_buckets _ _ _ _ _ _ _ _ Hfuel Hr) as (_ & _ & _ & _ & Hnum).
  cbv zeta in Hnum. fold days groupSize startDate habits in Hnum.
  specialize (Hnum k b Hk).
  destruct (bucket_fields _ _ _ _ _ _ _ _ _ Hnum) as (_ & _ & _ & _ & _ & Hcb & _).
  cbv zeta in Hcb.
  replace (startDate + Z.of_nat k * groupSize * msPerDay) with periodStart in Hcb
    by reflexivity.
  replace (startDate + (Z.of_nat k * groupSize + groupSize) * msPerDay)
    with (startDate + (Z.of_nat k + 1) * groupSize * msPerDay) in Hcb by lia.
  fold periodEnd completedEntries in Hcb.
  unfold Trends.breakdown in Hcb.
  rewrite (breakdown_fold _ _ _ _ _ Hcb c). rewrite lookup_empty.
  destruct (habitsInCategory habits c =? 0); [reflexivity|].
  cbv zeta. cbn. f_equal.
Qed.

(** The theorem for a month by week and ten habits of category "other". *)
Lemma trends_categoryBreakdown_witness :
  exists r,
    Trends.handler 400 1700000000000 tenHabits (halfCompleted 1700000000000) 1%N
      None None = Some (Json r)
    /\ forall k b,
         nth_error (Trends.trends r) k = Some b ->
         option_map CategoryCount.total (Trend.categoryBreakdown b !! "other")
         = Some 10.
Proof.
  destruct (Trends.handler 400 1700000000000 tenHabits (halfCompleted 1700000000000)
              1%N None None) as [[r| |]|] eqn:Hr;
    [ | vm_compute in Hr; discriminate Hr
      | vm_compute in Hr; discriminate Hr
      | vm_compute in Hr; discriminate Hr ].
  exists r. split; [reflexivity|].
  intros k b Hk.
  rewrite (trends_categoryBreakdown 400 1700000000000 tenHabits
             (halfCompleted 1700000000000) 1%N None None r ltac:(lia) Hr k b Hk "other").
  reflexivity.
Defined.

End TrendBuckets.

(** ** The tracking router *)

Section TrackingFacts.

Lemma sameEntry_true hid user d e :
  Tracking.sameEntry hid user d e = true
  <-> TrackingEntry.habitId e = hid /\ TrackingEntry.userId e = user
      /\ TrackingEntry.date e = d.
Proof.
  unfold Tracking.sameEntry. rewrite !andb_true_iff, !N.eqb_eq, Z.eqb_eq. tauto.
Qed.

Lemma find_split {A} (p : A -> bool) (l : list A) (x : A) :
  List.find p l = Some x ->
  exists l1 l2, l = l1 ++ x :: l2 /\ List.Forall (fun y => p y = false) l1
                /\ p x = true.
Proof.
  induction l as [|a l IH]; [discriminate|]. simpl.
  destruct (p a) eqn:Hpa.
  - intros [= <-]. exists [], l. repeat split; [constructor | exact Hpa].
  - intros Hf. destruct (IH Hf) as (l1 & l2 & -> & Hall & Hx).
    exists (a :: l1), l2. repeat split; [by constructor | exact Hx].
Qed.

Lemma find_none_Forall {A} (p : A -> bool) (l : list A) :
  List.find p l = None -> List.Forall (fun y => p y = false) l.
Proof.
  intros Hf. apply List.Forall_forall. intros y Hy.
  exact (find_none p l Hf y Hy).
Qed.

Lemma find_app_first {A} (p : A -> bool) (l1 l2 : list A) (x : A) :
  List.Forall (fun y => p y = false) l1 -> p x = true ->
  List.find p (l1 ++ x :: l2) = Some x.
Proof.
  intros Hall Hx. induction Hall as [|a l1 Ha _ IH]; simpl.
  - by rewrite Hx.
  - by rewrite Ha.
Qed.

Lemma saveFirst_app p saved l1 old l2 :
  List.Forall (fun y => p y = false) l1 -> p old = true ->
  Tracking.saveFirst p saved (l1 ++ old :: l2) = l1 ++ saved :: l2.
Proof.
  intros Hall Hx. induction Hall as [|a l1 Ha _ IH]; simpl.
  - by rewrite Hx.
  - by rewrite Ha, IH.
Qed.

Lemma filter_none {A} (p : A -> bool) (l : list A) :
  List.Forall (fun y => p y = false) l -> List.filter p l = [].
Proof.
  intros Hall. induction Hall as [|a l Ha _ IH]; simpl; [reflexivity|].
  by rewrite Ha.
Qed.

Lemma findActiveHabit_owns habitsDb user hid :
  match Tracking.findActiveHabit habitsDb user hid with
  | Some _ => ownsActive habitsDb user hid
  | None => ~ ownsActive habitsDb user hid
  end.
Proof.
  unfold Tracking.findActiveHabit.
  destruct (List.find _ habitsDb) as [h|] eqn:Hf.
  - apply find_some in Hf as [Hin Hh].
    apply andb_true_iff in Hh as [Hh Hact]. apply andb_true_iff in Hh as [Hid Hu].
    apply N.eqb_eq in Hid, Hu. by exists h.
  - intros (h & Hin & Hid & Hu & Hact).
    pose proof (find_none _ _ Hf h Hin) as Hh. cbv beta in Hh.
    rewrite Hid, Hu, !N.eqb_refl, Hact in Hh. discriminate.
Qed.

(** The four ways through the handler. *)
Lemma post_cases errorsEmpty habitsDb entriesDb user body :
  let key :=
    Tracking.sameEntry (Tracking.habitId body) user
      (setHours0 (Tracking.date body)) in
  let answer := Tracking.post errorsEmpty habitsDb entriesDb user body in
  (errorsEmpty = false /\ answer = (Tracking.Status400, entriesDb))
  \/ (errorsEmpty = true /\ ~ ownsActive habitsDb user (Tracking.habitId body)
      /\ answer = (Tracking.HabitNotFound, entriesDb))
  \/ (errorsEmpty = true /\ ownsActive habitsDb user (Tracking.habitId body)
      /\ exists l1 old l2,
           entriesDb = l1 ++ old :: l2
           /\ List.Forall (fun y => key y = false) l1
           /\ key old = true
           /\ answer = (Tracking.Updated (Tracking.update body old),
                        l1 ++ Tracking.update body old :: l2))
  \/ (errorsEmpty = true /\ ownsActive habitsDb user (Tracking.habitId body)
      /\ List.Forall (fun y => key y = false) entriesDb
      /\ answer
         = (Tracking.Created
              (Tracking.create user (setHours0 (Tracking.date body)) body),
            entriesDb
            ++ [Tracking.create user (setHours0 (Tracking.date body)) body])).
Proof.
  intros key answer. subst answer. unfold Tracking.post.
  destruct errorsEmpty; cbn [negb]; [|by left].
  right.
  pose proof (findActiveHabit_owns habitsDb user (Tracking.habitId body)) as Hown.
  destruct (Tracking.findActiveHabit _ _ _) as [h|]; [|by left].
  right. cbv zeta. fold key.
  destruct (List.find key entriesDb) as [old|] eqn:Hf.
  - left. destruct (find_split _ _ _ Hf) as (l1 & l2 & -> & Hall & Hold).
    repeat split; [exact Hown|]. exists l1, old, l2.
    repeat split; try assumption.
    by rewrite saveFirst_app.
  - right. repeat split; [exact Hown|]. by apply find_none_Forall.
Qed.

Lemma update_key hid user d body old :
  Tracking.sameEntry hid user d old = true ->
  Tracking.sameEntry hid user d (Tracking.update body old) = true.
Proof. intros H. exact H. Qed.

Lemma create_key user body :
  Tracking.sameEntry (Tracking.habitId body) user (setHours0 (Tracking.date body))
    (Tracking.create user (setHours0 (Tracking.date body)) body) = true.
Proof. apply sameEntry_true. repeat split. Qed.



Lemma orKeep_idem {A} (given kept : option A) :
  Tracking.orKeep given (Tracking.orKeep given kept) = Tracking.orKeep given kept.
Proof. by destruct given. Qed.

Lemma orKeep_same {A} (given : option A) : Tracking.orKeep given given = given.
Proof. by destruct given. Qed.

Lemma update_idem body old :
  Tracking.update body (Tracking.update body old) = Tracking.update body old.
Proof. unfold Tracking.update. cbn. by rewrite !orKeep_idem. Qed.

Lemma update_create user d body :
  Tracking.update body (Tracking.create user d body) = Tracking.create user d body.
Proof. unfold Tracking.update, Tracking.create. cbn. by rewrite !orKeep_same. Qed.

Lemma post_update errorsEmpty habitsDb user body l1 old l2 :
  errorsEmpty = true ->
  ownsActive habitsDb user (Tracking.habitId body) ->
  List.Forall
    (fun y => Tracking.sameEntry (Tracking.habitId body) user
                (setHours0 (Tracking.date body)) y = false) l1 ->
  Tracking.sameEntry (Tracking.habitId body) user
    (setHours0 (Tracking.date body)) old = true ->
  Tracking.post errorsEmpty habitsDb (l1 ++ old :: l2) user body
  = (Tracking.Updated (Tracking.update body old),
     l1 ++ Tracking.update body old :: l2).
Proof.
  intros -> Hown Hall Hold. unfold Tracking.post. cbn [negb].
  pose proof (findActiveHabit_owns habitsDb user (Tracking.habitId body)) as Hf.
  destruct (Tracking.findActiveHabit _ _ _); [|contradiction].
  cbv zeta. rewrite (find_app_first _ _ _ _ Hall Hold).
  by rewrite saveFirst_app.
Qed.

(** X17.  Posting the same body twice is posting it once: the second
    post leaves the collection as the first one left it, and answers
    with the same entry, as an update. *)
Theorem post_is_idempotent (errorsEmpty : bool) (habitsDb : list Habit.t)
    (entriesDb : list TrackingEntry.t) (user : ObjectId) (body : Tracking.Body) :
  let first := Tracking.post errorsEmpty habitsDb entriesDb user body in
  let second := Tracking.post errorsEmpty habitsDb (snd first) user body in
  snd second = snd first
  /\ fst second
     = match fst first with
       | Tracking.Created e => Tracking.Updated e
       | reply => reply
       end.
Proof.
  intros first second. subst second.
  destruct (post_cases errorsEmpty habitsDb entriesDb user body)
    as [[He Ha]|[(He & Hno & Ha)|[(He & Hown & l1 & old & l2 & Hdb & Hall & Hold & Ha)
                                 |(He & Hown & Hall & Ha)]]];
    cbv zeta in Ha; try (cbv zeta in Hall); try (cbv zeta in Hold);
    fold first in Ha; rewrite Ha; cbn [fst snd].
  - unfold first in Ha. rewrite Ha. by split.
  - unfold first in Ha. rewrite Ha. by split.
  - rewrite (post_update _ _ _ _ _ _ _ He Hown Hall (update_key _ _ _ body _ Hold)).
    rewrite update_idem. by split.
  - replace (entriesDb ++ [Tracking.create user (setHours0 (Tracking.date body)) body])
      with (entriesDb
            ++ Tracking.create user (setHours0 (Tracking.date body)) body :: [])
      by reflexivity.
    rewrite (post_update _ _ _ _ _ _ _ He Hown Hall (create_key user body)).
    rewrite update_create. by split.
Qed.




Lemma completedOn_app l1 l2 d :
  completedOn (l1 ++ l2) d = completedOn l1 d || completedOn l2 d.
Proof. unfold completedOn. apply existsb_app. Qed.

Lemma completedOn_uncompleted o d :
  List.Forall (fun e => TrackingEntry.completed e = false) o ->
  completedOn o d = false.
Proof.
  intros Hall. unfold completedOn.
  induction Hall as [|e o He _ IH]; simpl; [reflexivity|].
  by rewrite He, IH.
Qed.

Lemma filter_uncompleted (p : TrackingEntry.t -> bool) o :
  List.Forall (fun e => TrackingEntry.completed e = false) o ->
  List.filter (fun e => p e && TrackingEntry.completed e) o = [].
Proof.
  intros Hall. induction Hall as [|e o He _ IH]; simpl; [reflexivity|].
  by rewrite He, andb_false_r.
Qed.

Lemma Forall_filter_keep {A} (P : A -> Prop) (p : A -> bool) l :
  List.Forall P l -> List.Forall P (List.filter p l).
Proof.
  intros Hall. induction Hall as [|a l Ha _ IH]; simpl; [constructor|].
  destruct (p a); [by constructor | exact IH].
Qed.

(** One more completed record, on the day of [now], in place of records
    that are not completed. *)
Lemma streak_plus_one now hid l1 o new l2 :
  TrackingEntry.habitId new = hid ->
  TrackingEntry.completed new = true ->
  setHours0 (TrackingEntry.date new) = setHours0 now ->
  List.Forall (fun e => TrackingEntry.completed e = false) o ->
  completedOn (recordsOfHabit (l1 ++ o ++ l2) hid) (setHours0 now) = false ->
  (length (completedOfHabit (l1 ++ o ++ l2) hid) < 100)%nat ->
  TrackingEntry.getCurrentStreak now (l1 ++ new :: l2) hid
  = TrackingEntry.getCurrentStreak now (l1 ++ o ++ l2) hid + 1.
Proof.
  intros Hh Hc Hd Ho Htoday Hlen. pose proof msPerDay_pos as HD.
  set (db := l1 ++ o ++ l2) in *. set (db' := l1 ++ new :: l2).
  set (today := setHours0 now) in *.
  assert (forall d, completedOn (recordsOfHabit db' hid) d
                    = completedOn (recordsOfHabit db hid) d || (today =? d)) as HP.
  { intros d. unfold db, db', recordsOfHabit.
    rewrite !List.filter_app, !completedOn_app. cbn [List.filter].
    rewrite Hh, N.eqb_refl.
    rewrite (completedOn_uncompleted (List.filter _ o))
      by (by apply Forall_filter_keep).
    change (new :: List.filter (fun e => (TrackingEntry.habitId e =? hid)%N) l2)
      with ([new] ++ List.filter (fun e => (TrackingEntry.habitId e =? hid)%N) l2).
    rewrite completedOn_app. unfold completedOn at 2. cbn [existsb].
    rewrite Hc, Hd. cbn [andb orb].
    destruct (completedOn _ d), (today =? d), (completedOn _ d); reflexivity. }
  assert (length (completedOfHabit db' hid) = S (length (completedOfHabit db hid)))
    as Hlen'.
  { unfold db, db', completedOfHabit.
    rewrite !List.filter_app, !length_app. cbn [List.filter].
    rewrite Hh, N.eqb_refl, Hc. cbn [andb length].
    rewrite (filter_uncompleted _ o Ho). cbn [length]. lia. }
  destruct (getCurrentStreak_walk now db hid) as (H0 & Hin & Hout).
  destruct (getCurrentStreak_walk now db' hid) as (H0' & Hin' & Hout').
  fold today in Hin, Hout, Hin', Hout'.
  assert (forall d, completedOn (TrackingEntry.recentCompleted db hid) d
                    = completedOn (recordsOfHabit db hid) d) as Hr
    by (intros d; apply recentCompleted_all; lia).
  assert (forall d, completedOn (TrackingEntry.recentCompleted db' hid) d
                    = completedOn (recordsOfHabit db hid) d || (today =? d)) as Hr'
    by (intros d; rewrite recentCompleted_all by lia; apply HP).
  rewrite (Hr today), Htoday in Hin, Hout.
  rewrite (Hr' today), Z.eqb_refl, orb_true_r in Hin', Hout'.
  rewrite Hr in Hout.
  apply (streak_unique (completedOn (TrackingEntry.recentCompleted db' hid)) today);
    try assumption; try lia.
  - intros i Hi. rewrite Hr'.
    destruct (Z.eq_dec i 0) as [->|Hnz].
    + replace (today - 0 * msPerDay) with today by lia.
      by rewrite Z.eqb_refl, orb_true_r.
    + specialize (Hin (i - 1) ltac:(lia)). rewrite Hr in Hin.
      replace (today - i * msPerDay) with (today - msPerDay - (i - 1) * msPerDay)
        by lia.
      by rewrite Hin.
  - rewrite Hr'.
    replace (today - (TrackingEntry.getCurrentStreak now db hid + 1) * msPerDay)
      with (today - msPerDay - TrackingEntry.getCurrentStreak now db hid * msPerDay)
      by lia.
    rewrite Hout. cbn [orb]. apply Z.eqb_neq. nia.
Qed.

Lemma streak_other_habit now hid other l1 o o' l2 :
  other <> hid ->
  List.Forall (fun e => TrackingEntry.habitId e = hid) o ->
  List.Forall (fun e => TrackingEntry.habitId e = hid) o' ->
  TrackingEntry.getCurrentStreak now (l1 ++ o' ++ l2) other
  = TrackingEntry.getCurrentStreak now (l1 ++ o ++ l2) other.
Proof.
  intros Hne Ho Ho'.
  assert (forall x, List.Forall (fun e => TrackingEntry.habitId e = hid) x ->
            List.filter
              (fun e => (TrackingEntry.habitId e =? other)%N && TrackingEntry.completed e)
              x = []) as Hnone.
  { intros x Hx. induction Hx as [|e x He _ IH]; simpl; [reflexivity|].
    rewrite He. destruct (N.eqb_spec hid other) as [Heq|_]; [congruence|].
    exact IH. }
  unfold TrackingEntry.getCurrentStreak, TrackingEntry.recentCompleted.
  rewrite !List.filter_app, (Hnone o Ho), (Hnone o' Ho'). reflexivity.
Qed.

(** X19.  Marking a habit as completed for today, when it was not, makes
    its current streak one longer: the streak route then answers with
    the streak of before plus one.  The streaks of the other habits stay
    as they were.  (The habit has fewer than 100 completed records.) *)
Theorem post_today_extends_streak (now : Z) (habitsDb : list Habit.t)
    (entriesDb : list TrackingEntry.t) (user : ObjectId) (body : Tracking.Body) :
  let hid := Tracking.habitId body in
  ownsActive habitsDb user hid ->
  Tracking.completed body = true ->
  setHours0 (Tracking.date body) = setHours0 now ->
  completedOn (recordsOfHabit entriesDb hid) (setHours0 now) = false ->
  (length (completedOfHabit entriesDb hid) < 100)%nat ->
  let after := snd (Tracking.post true habitsDb entriesDb user body) in
  Tracking.streak now habitsDb after user hid
  = Json {| StreakReply.habitId := hid;
            StreakReply.currentStreak :=
              TrackingEntry.getCurrentStreak now entriesDb hid + 1 |}
  /\ forall other,
       other <> hid ->
       TrackingEntry.getCurrentStreak now after other
       = TrackingEntry.getCurrentStreak now entriesDb other.
Proof.
  intros hid Hown Hc Hd Htoday Hlen after.
  assert (TrackingEntry.getCurrentStreak now after hid
          = TrackingEntry.getCurrentStreak now entriesDb hid + 1
          /\ forall other,
               other <> hid ->
               TrackingEntry.getCurrentStreak now after other
               = TrackingEntry.getCurrentStreak now entriesDb other) as [Hs Hothers].
  { subst after.
    destruct (post_cases true habitsDb entriesDb user body)
      as [[He Ha]|[(He & Hno & Ha)|[(He & _ & l1 & old & l2 & Hdb & Hall & Hold & Ha)
                                   |(He & _ & Hall & Ha)]]];
      [discriminate | contradiction | |];
      cbv zeta in Ha; try (cbv zeta in Hold); rewrite Ha; cbn [snd].
    - apply sameEntry_true in Hold as (Hh & Hu & Hdate). fold hid in Hh.
      assert (TrackingEntry.completed old = false) as Hold.
      { apply not_true_is_false. intros Hco.
        assert (completedOn (recordsOfHabit entriesDb hid) (setHours0 now) = true)
          as Hyes.
        { unfold completedOn. apply existsb_exists. exists old. split.
          - unfold recordsOfHabit. apply filter_In. split.
            + rewrite Hdb. apply in_or_app. right. by left.
            + by apply N.eqb_eq.
          - rewrite Hco, Hdate, Hd, setHours0_idem, Z.eqb_refl. reflexivity. }
        rewrite Hyes in Htoday. discriminate. }
      replace entriesDb with (l1 ++ [old] ++ l2) in * by (by rewrite Hdb).
      split.
      + apply streak_plus_one; try assumption.
        * cbn. by rewrite Hdate, Hd, setHours0_idem.
        * by constructor.
      + intros other Hne.
        change (l1 ++ Tracking.update body old :: l2)
          with (l1 ++ [Tracking.update body old] ++ l2).
        apply (streak_other_habit now hid); [exact Hne | |]; by repeat constructor.
    - assert (entriesDb ++ [] ++ [] = entriesDb) as Hnil by apply app_nil_r.
      set (entry := Tracking.create user (setHours0 (Tracking.date body)) body).
      split.
      + pose proof (streak_plus_one now hid entriesDb [] entry []) as Hplus.
        rewrite Hnil in Hplus. apply Hplus; try assumption; try reflexivity.
        * cbn. by rewrite Hd, setHours0_idem.
        * constructor.
      + intros other Hne.
        pose proof (streak_other_habit now hid other entriesDb [] [entry] [] Hne)
          as Hsame.
        rewrite Hnil in Hsame. apply Hsame; by repeat constructor. }
  split; [|exact Hothers].
  unfold Tracking.streak.
  destruct (List.find _ habitsDb) as [h|] eqn:Hf.
  - by rewrite Hs.
  - destruct Hown as (h & Hin & Hid & Hu & _).
    pose proof (find_none _ _ Hf h Hin) as Hh. cbv beta in Hh.
    rewrite Hid, Hu, !N.eqb_refl in Hh. discriminate.
Qed.

(** The theorem for a habit completed on the three days up to yesterday:
    completing it today gives a streak of four. *)
Lemma post_today_extends_streak_witness :
  Tracking.streak 1700000000000 [habit7]
    (snd (Tracking.post true [habit7] (untilYesterday 1700000000000) 1%N
            (doneNow 1700000000000)))
    1%N 7%N
  = Json {| StreakReply.habitId := 7%N; StreakReply.currentStreak := 3 + 1 |}.
Proof.
  apply (proj1 (post_today_extends_streak 1700000000000 [habit7]
                  (untilYesterday 1700000000000) 1%N (doneNow 1700000000000)
                  ltac:(exists habit7; repeat split; by left)
                  ltac:(reflexivity) ltac:(reflexivity) ltac:(reflexivity)
                  ltac:(vm_compute; lia))).
Defined.

Lemma groupByDate_fold (entries : list TrackingEntry.t) :
  forall (m : gmap Z (list TrackingEntry.t)) x,
    fold_left
      (fun (acc : gmap Z (list TrackingEntry.t)) entry =>
         let dateStr := Day (TrackingEntry.date entry) in
         <[dateStr := default [] (acc !! dateStr) ++ [entry]]> acc)
      entries m !! x
    = match dayEntries entries x with
      | [] => m !! x
      | found => Some (default [] (m !! x) ++ found)
      end.
Proof.
  unfold dayEntries.
  induction entries as [|e entries IH]; intros m x; [reflexivity|].
  cbn [fold_left List.filter]. cbv zeta. rewrite IH.
  destruct (Z.eqb_spec (Day (TrackingEntry.date e)) x) as [Heq|Hne].
  - rewrite Heq, lookup_insert_eq.
    destruct (List.filter _ entries); [reflexivity|].
    unfold default. cbn [from_option id]. by rewrite <- app_assoc.
  - by rewrite lookup_insert_ne.
Qed.

Lemma newDate_Some year month dt t :
  newDate year month dt = Some t -> t = MakeDay (fullYear year) month dt * msPerDay.
Proof.
  unfold newDate, TimeClip. destruct (_ <=? _); [|discriminate]. by intros [= <-].
Qed.

(** X20.  The calendar route groups the user's entries of a month by
    day: under the key of a day of the month stand all the entries of
    the user dated on that day, in the order of the collection; a day
    without entry is no key, and no key lies outside the month.  The
    entries are dated at midnight, as [POST /api/tracking] stores them:
    the month ends at the midnight that begins its last day. *)
Theorem calendar_groups_by_day (entriesDb : list TrackingEntry.t)
    (user : ObjectId) (year month : Z) (r : Calendar.t) :
  Tracking.calendar entriesDb user (Some year) (Some month)
  = Tracking.CalendarJson r ->
  normalised (entriesOfUser entriesDb user) ->
  let first := MakeDay (fullYear year) (month - 1) 1 in
  let last := MakeDay (fullYear year) month 0 in
  Calendar.startDate r = first * msPerDay
  /\ Calendar.endDate r = last * msPerDay
  /\ forall x,
       Calendar.entriesByDate r !! x
       = match dayEntries (entriesOfUser entriesDb user) x with
         | [] => None
         | found => if (first <=? x) && (x <=? last) then Some found else None
         end.
Proof.
  intros Hr Hnorm first last. pose proof msPerDay_pos as HD.
  unfold Tracking.calendar in Hr.
  destruct (newDate year (month - 1) 1) as [startDate|] eqn:Hs; [|discriminate].
  destruct (newDate year month 0) as [endDate|] eqn:He; [|discriminate].
  apply newDate_Some in Hs, He. fold first in Hs. fold last in He.
  injection Hr as <-. cbn.
  split; [exact Hs|]. split; [exact He|].
  intros x. unfold Tracking.groupByDate. rewrite groupByDate_fold, lookup_empty.
  cbn [default app].
  assert (dayEntries
            (List.filter
               (fun e =>
                  (TrackingEntry.userId e =? user)%N
                  && (startDate <=? TrackingEntry.date e)
                  && (TrackingEntry.date e <=? endDate))
               entriesDb) x
          = if (first <=? x) && (x <=? last)
            then dayEntries (entriesOfUser entriesDb user) x else []) as ->.
  { unfold dayEntries, entriesOfUser, normalised in *. clear -Hnorm Hs He HD.
    induction entriesDb as [|e db IH].
    - simpl. by destruct (_ && _).
    - assert (forall e0, In e0 (List.filter
                (fun e1 => (TrackingEntry.userId e1 =? user)%N) db) ->
                setHours0 (TrackingEntry.date e0) = TrackingEntry.date e0) as Hnorm'.
      { intros e0 Hin. apply Hnorm. simpl.
        destruct (TrackingEntry.userId e =? user)%N; [by right | exact Hin]. }
      specialize (IH Hnorm'). cbn [List.filter].
      destruct (TrackingEntry.userId e =? user)%N eqn:Hu; cbn [andb]; [|exact IH].
      assert (TrackingEntry.date e = Day (TrackingEntry.date e) * msPerDay) as Hmid.
      { rewrite <- setHours0_Day. symmetry. apply Hnorm. simpl. rewrite Hu. by left. }
      cbn [List.filter].
      destruct (Z.eqb_spec (Day (TrackingEntry.date e)) x) as [Hx|Hx].
      + rewrite Hx in Hmid.
        assert ((startDate <=? TrackingEntry.date e) && (TrackingEntry.date e <=? endDate)
                = (first <=? x) && (x <=? last)) as ->.
        { rewrite Hmid, Hs, He. apply eq_true_iff_eq.
          rewrite !andb_true_iff, !Z.leb_le. nia. }
        destruct ((first <=? x) && (x <=? last)) eqn:Hin.
        * cbn [List.filter]. rewrite Hmid at 1.
          replace (Day (x * msPerDay)) with x
            by (unfold Day; by rewrite Z.div_mul by lia).
          rewrite Z.eqb_refl. by rewrite IH.
        * by rewrite IH.
      + destruct ((startDate <=? TrackingEntry.date e)
                  && (TrackingEntry.date e <=? endDate)).
        * cbn [List.filter].
          destruct (Z.eqb_spec (Day (TrackingEntry.date e)) x); [contradiction|].
          exact IH.
        * exact IH. }
  destruct ((first <=? x) && (x <=? last));
    by destruct (dayEntries (entriesOfUser entriesDb user) x).
Qed.

(** The theorem for November 2023 and three entries of that month. *)
Lemma calendar_groups_by_day_witness :
  exists r,
    Tracking.calendar (untilYesterday 1700000000000) 1%N (Some 2023) (Some 11)
    = Tracking.CalendarJson r
    /\ Calendar.startDate r = MakeDay 2023 10 1 * msPerDay
    /\ Calendar.endDate r = MakeDay 2023 11 0 * msPerDay.
Proof.
  destruct (Tracking.calendar (untilYesterday 1700000000000) 1%N (Some 2023) (Some 11))
    as [| |r] eqn:Hr;
    [vm_compute in Hr; discriminate Hr | vm_compute in Hr; discriminate Hr |].
  exists r. split; [reflexivity|].
  assert (normalised (entriesOfUser (untilYesterday 1700000000000) 1%N)) as Hnorm.
  { intros e Hin. vm_compute in Hin.
    destruct Hin as [<-|[<-|[<-|[]]]]; reflexivity. }
  destruct (calendar_groups_by_day _ _ _ _ r Hr Hnorm) as (Hs & He & _).
  split; [exact Hs | exact He].
Defined.

End TrackingFacts.
